(** * claude-code-ui: the SDK tool tester and the schema reporter

    A shallow embedding of [src/test_sdk_tools.py] (the capture runner and
    the archive writer) and of [src/examine_schemas.py] (the reporter).

    Conventions of the embedding:
    - Python [str] is [string]; a character is a code point below 256.
    - The objects handled by both scripts are the ones [json.loads] builds:
      [None], [bool], [int], [float], [str], [list] and [dict]; a [dict]
      is an association list in insertion order.
    - An exception is a value of type [exn]; a computation that may raise
      has type [outcome A].
    - [json.loads], [json.dumps] and [subprocess.run] belong to the Python
      library, not to the repository: they are the fields of the class
      [Platform].  [PyJson] and [cpython] give an executable instance.
    - A directory is the map from the names of its plain files to their
      texts.  What [open] does with a path that names no entry of the
      directory [schemas] depends on the rest of the disk, and is a field
      of [Platform] as well. *)

From Stdlib Require Import ZArith Ascii String List Bool Lia.
From stdpp Require Import gmap strings list sorting pretty.

Local Open Scope Z_scope.
Local Set Warnings "-register-all".

(* ===================================================================== *)
(** * Text *)
(* ===================================================================== *)

Module Text.

Definition code (c : ascii) : nat := nat_of_ascii c.

(** [str.isspace] on one character, for the code points below 256:
    TAB, LF, VT, FF, CR, FS, GS, RS, US, SPACE, NEL and NBSP. *)
Definition isspace (c : ascii) : bool :=
  let n := code c in
  ((9 <=? n) && (n <=? 13) || (28 <=? n) && (n <=? 32)
   || (n =? 133) || (n =? 160))%nat.

Definition newline : ascii := ascii_of_nat 10.
Definition dquote : ascii := ascii_of_nat 34.
Definition backslash : ascii := ascii_of_nat 92.

(** [s.lstrip()] *)
Fixpoint lstrip (s : string) : string :=
  match s with
  | EmptyString => EmptyString
  | String c s' => if isspace c then lstrip s' else s
  end.

(** [s.rstrip()] *)
Fixpoint rstrip (s : string) : string :=
  match s with
  | EmptyString => EmptyString
  | String c s' =>
      match rstrip s' with
      | EmptyString => if isspace c then EmptyString else String c EmptyString
      | r => String c r
      end
  end.

(** [s.strip()] *)
Definition strip (s : string) : string := rstrip (lstrip s).

(** [s.isspace()], or [s] is empty: every character is white space. *)
Fixpoint isblank (s : string) : bool :=
  match s with
  | EmptyString => true
  | String c s' => isspace c && isblank s'
  end.

(** [s.split(sep)] for a one-character separator: the pieces between the
    separators, always at least one piece. *)
Fixpoint split (sep : ascii) (s : string) : list string :=
  match s with
  | EmptyString => [EmptyString]
  | String c s' =>
      if Ascii.eqb c sep then EmptyString :: split sep s'
      else match split sep s' with
           | piece :: pieces => String c piece :: pieces
           | [] => [String c EmptyString]
           end
  end.

(** [s[:n]] *)
Fixpoint take (n : nat) (s : string) : string :=
  match n, s with
  | S n', String c s' => String c (take n' s')
  | _, _ => EmptyString
  end.

(** [s[n:]] *)
Fixpoint drop (n : nat) (s : string) : string :=
  match n, s with
  | S n', String _ s' => drop n' s'
  | _, _ => s
  end.

(** [s * n] *)
Fixpoint times (s : string) (n : nat) : string :=
  match n with
  | O => EmptyString
  | S n' => s +:+ times s n'
  end.

(** [sep.join(pieces)] *)
Fixpoint join (sep : string) (pieces : list string) : string :=
  match pieces with
  | [] => EmptyString
  | [p] => p
  | p :: ps => p +:+ sep +:+ join sep ps
  end.

(** [c in s] for a character *)
Fixpoint mem (c : ascii) (s : string) : bool :=
  match s with
  | EmptyString => false
  | String d s' => Ascii.eqb c d || mem c s'
  end.

(** [s.startswith(p)] *)
Fixpoint startswith (p s : string) : bool :=
  match p, s with
  | EmptyString, _ => true
  | String a p', String b s' => Ascii.eqb a b && startswith p' s'
  | _, _ => false
  end.

(** [p in s] for strings *)
Fixpoint contains (p s : string) : bool :=
  startswith p s ||
  match s with
  | EmptyString => false
  | String _ s' => contains p s'
  end.

(** The characters of a string, each as a string of length one. *)
Fixpoint chars (s : string) : list string :=
  match s with
  | EmptyString => []
  | String c s' => String c EmptyString :: chars s'
  end.

Definition hex_digit (n : nat) : ascii :=
  ascii_of_nat (if (n <? 10)%nat then 48 + n else 87 + n)%nat.

(** Two lower-case hexadecimal digits of a code point below 256. *)
Definition hex2 (n : nat) : string :=
  String (hex_digit (n / 16)) (String (hex_digit (n mod 16)) EmptyString).

End Text.


(* ===================================================================== *)
(** * Paths *)
(* ===================================================================== *)

(** [pathlib.PurePosixPath], as far as [Path("schemas") / filename] and
    [open] need it. *)
Module Pathlib.

Definition sep : ascii := "/"%char.
Definition nul : ascii := ascii_of_nat 0.

(** The longest name of a directory entry, in bytes (Linux). *)
Definition NAME_MAX : nat := 255.

(** The length of the UTF-8 encoding of a text whose characters are code
    points below 256. *)
Fixpoint bytes (s : string) : nat :=
  match s with
  | EmptyString => 0
  | String c s' => (if (Text.code c <? 128)%nat then 1 else 2) + bytes s'
  end%nat.

Definition is_absolute (path : string) : bool := Text.startswith "/" path.

(** The root of an absolute path: two leading slashes are kept, any other
    number of them is one. *)
Definition root (path : string) : string :=
  if Text.startswith "//" path && negb (Text.startswith "///" path)
  then "//" else "/".

(** The parts of a path below its root: empty components and [.] are
    dropped, [..] is kept. *)
Definition parts (path : string) : list string :=
  List.filter
    (fun c => negb (String.eqb c EmptyString || String.eqb c "."))
    (Text.split sep path).

(** [str(PurePosixPath(dir) / name)] for a directory [dir] that is one
    name: an absolute [name] replaces [dir]. *)
Definition joinpath (dir name : string) : string :=
  if is_absolute name then root name +:+ Text.join "/" (parts name)
  else Text.join "/" (dir :: parts name).

(** The entry of a directory that [dir / name] names, when [open] takes it
    for one: a relative path of one part that is not [..], without NUL
    and no longer than [NAME_MAX]. *)
Definition entry (name : string) : option string :=
  if is_absolute name || Text.mem nul name then None
  else
    match parts name with
    | [part] =>
        if String.eqb part ".." || (NAME_MAX <? bytes part)%nat then None
        else Some part
    | _ => None
    end.

End Pathlib.


(* ===================================================================== *)
(** * Python objects, exceptions and their operations *)
(* ===================================================================== *)

(** The objects [json.loads] builds.  A [float] is carried by the text
    [repr] gives for it: the scripts only store and print floats. *)
Inductive pyobj : Type :=
| PyNone
| PyBool (b : bool)
| PyInt (n : Z)
| PyFloat (repr : string)
| PyStr (s : string)
| PyList (items : list pyobj)
| PyDict (entries : list (string * pyobj)).

(** The exception classes the two scripts can meet; all of them derive
    from [Exception], and only [JSONDecodeError] is caught by name. *)
Inductive exn_class : Type :=
| JSONDecodeError
| AttributeError
| TypeError
| KeyError
| FileNotFoundError
| OSError
| OtherException (name : string).

Record exn : Type := Exn { exn_type : exn_class; exn_str : string }.

(** The result of evaluating a Python expression or block. *)
Inductive outcome (A : Type) : Type :=
| Return (a : A)
| Raise (e : exn).
Arguments Return {A} a.
Arguments Raise {A} e.

Definition obind {A B} (m : outcome A) (k : A -> outcome B) : outcome B :=
  match m with
  | Return a => k a
  | Raise e => Raise e
  end.

(** [isinstance(e, json.JSONDecodeError)] *)
Definition is_JSONDecodeError (e : exn) : bool :=
  match exn_type e with
  | JSONDecodeError => true
  | _ => false
  end.

Module Py.

(** [type(v).__name__] *)
Definition type_name (v : pyobj) : string :=
  match v with
  | PyNone => "NoneType"
  | PyBool _ => "bool"
  | PyInt _ => "int"
  | PyFloat _ => "float"
  | PyStr _ => "str"
  | PyList _ => "list"
  | PyDict _ => "dict"
  end.

(** [d[k]] on the entries of a dict, when [k] is a key. *)
Fixpoint lookup (k : string) (d : list (string * pyobj)) : option pyobj :=
  match d with
  | [] => None
  | (k', v) :: d' => if String.eqb k k' then Some v else lookup k d'
  end.

(** [d[k] = v] on the entries of a dict: a present key keeps its place. *)
Fixpoint store (k : string) (v : pyobj) (d : list (string * pyobj))
  : list (string * pyobj) :=
  match d with
  | [] => [(k, v)]
  | (k', v') :: d' =>
      if String.eqb k k' then (k, v) :: d' else (k', v') :: store k v d'
  end.

(** [bool(v)] *)
Definition truthy (v : pyobj) : bool :=
  match v with
  | PyNone => false
  | PyBool b => b
  | PyInt n => negb (n =? 0)
  | PyFloat r =>
      negb (String.eqb r "0.0" || String.eqb r "-0.0")
  | PyStr s => match s with EmptyString => false | _ => true end
  | PyList l => match l with [] => false | _ => true end
  | PyDict d => match d with [] => false | _ => true end
  end.

(** [v == s] for a [str] constant [s] *)
Definition eq_str (v : pyobj) (s : string) : bool :=
  match v with
  | PyStr s' => String.eqb s' s
  | _ => false
  end.

(** [v.get(k, default)]: only a dict has the method. *)
Definition get (v : pyobj) (k : string) (default : pyobj) : outcome pyobj :=
  match v with
  | PyDict d =>
      Return (match lookup k d with Some x => x | None => default end)
  | _ =>
      Raise (Exn AttributeError
               ("'" +:+ type_name v +:+ "' object has no attribute 'get'"))
  end.

(** Is a character printable in the sense of [str.isprintable]?  Below 256
    the unprintable ones are the controls, NBSP and the soft hyphen. *)
Definition isprintable (c : ascii) : bool :=
  let n := Text.code c in
  ((32 <=? n) && (n <? 127) || (161 <=? n) && negb (n =? 173))%nat.

(** One character of [repr(s)], inside the quote [q]. *)
Definition repr_char (q c : ascii) : string :=
  let n := Text.code c in
  if Ascii.eqb c q || Ascii.eqb c Text.backslash
  then String Text.backslash (String c EmptyString)
  else if (n =? 9)%nat then "\t"
  else if (n =? 10)%nat then "\n"
  else if (n =? 13)%nat then "\r"
  else if isprintable c then String c EmptyString
  else "\x" +:+ Text.hex2 n.

Fixpoint repr_chars (q : ascii) (s : string) : string :=
  match s with
  | EmptyString => EmptyString
  | String c s' => repr_char q c +:+ repr_chars q s'
  end.

(** [repr(s)] of a [str]: single quotes, unless the text has a single
    quote and no double quote. *)
Definition repr_str (s : string) : string :=
  let q := if Text.mem "'"%char s && negb (Text.mem Text.dquote s)
           then Text.dquote else "'"%char in
  String q (repr_chars q s +:+ String q EmptyString).

(** [repr(v)] *)
Fixpoint repr (v : pyobj) : string :=
  match v with
  | PyNone => "None"
  | PyBool true => "True"
  | PyBool false => "False"
  | PyInt n => pretty n
  | PyFloat r => r
  | PyStr s => repr_str s
  | PyList l => "[" +:+ Text.join ", " (map repr l) +:+ "]"
  | PyDict d =>
      "{" +:+ Text.join ", "
                (map (fun kv => repr_str (fst kv) +:+ ": " +:+ repr (snd kv)) d)
          +:+ "}"
  end.

(** [str(v)], which is also what an f-string field [{v}] inserts. *)
Definition str (v : pyobj) : string :=
  match v with
  | PyStr s => s
  | _ => repr v
  end.

(** [len(v)] *)
Definition len (v : pyobj) : outcome nat :=
  match v with
  | PyStr s => Return (String.length s)
  | PyList l => Return (length l)
  | PyDict d => Return (length d)
  | _ =>
      Raise (Exn TypeError
               ("object of type '" +:+ type_name v +:+ "' has no len()"))
  end.

(** The items a [for] loop over [v] visits. *)
Definition iter (v : pyobj) : outcome (list pyobj) :=
  match v with
  | PyStr s => Return (map PyStr (Text.chars s))
  | PyList l => Return l
  | PyDict d => Return (map (fun kv => PyStr (fst kv)) d)
  | _ =>
      Raise (Exn TypeError
               ("'" +:+ type_name v +:+ "' object is not iterable"))
  end.

(** [k in v] for a [str] constant [k] *)
Definition contains (k : string) (v : pyobj) : outcome bool :=
  match v with
  | PyStr s => Return (Text.contains k s)
  | PyList l => Return (existsb (fun x => eq_str x k) l)
  | PyDict d => Return (match lookup k d with Some _ => true | None => false end)
  | _ =>
      Raise (Exn TypeError
               ("argument of type '" +:+ type_name v +:+ "' is not iterable"))
  end.

(** [v[k]] for a [str] constant [k] *)
Definition getitem (v : pyobj) (k : string) : outcome pyobj :=
  match v with
  | PyDict d =>
      match lookup k d with
      | Some x => Return x
      | None => Raise (Exn KeyError (repr_str k))
      end
  | PyStr _ =>
      Raise (Exn TypeError "string indices must be integers, not 'str'")
  | PyList _ =>
      Raise (Exn TypeError "list indices must be integers or slices, not str")
  | _ =>
      Raise (Exn TypeError
               ("'" +:+ type_name v +:+ "' object is not subscriptable"))
  end.

(** [v[:n]] *)
Definition slice_to (n : nat) (v : pyobj) : outcome pyobj :=
  match v with
  | PyStr s => Return (PyStr (Text.take n s))
  | PyList l => Return (PyList (firstn n l))
  | PyDict _ => Raise (Exn TypeError "unhashable type: 'slice'")
  | _ =>
      Raise (Exn TypeError
               ("'" +:+ type_name v +:+ "' object is not subscriptable"))
  end.

End Py.


(* ===================================================================== *)
(** * The Python library the scripts call *)
(* ===================================================================== *)

(** [subprocess.CompletedProcess], run with [capture_output=True] and
    [text=True]. *)
Record CompletedProcess : Type :=
  { returncode : Z; stdout : string; stderr : string }.

(** What the scripts take from the library:
    - [json_loads s] is [json.loads(s)];
    - [json_dumps v] is [json.dumps(v, indent=2)], the text that
      [json.dump(v, f, indent=2)] writes to [f];
    - [subprocess_run cmd] is
      [subprocess.run(cmd, capture_output=True, text=True, cwd=os.getcwd())];
    - [write_elsewhere path text files] is
      [with open(path, 'w') as f: f.write(text)] for a [path] that names
      no entry of the directory [schemas], whose plain files are [files]:
      the plain files the directory has afterwards, or the exception of
      [open]. *)
Class Platform : Type :=
  { json_loads : string -> outcome pyobj;
    json_dumps : pyobj -> string;
    subprocess_run : list string -> outcome CompletedProcess;
    write_elsewhere :
      string -> string -> gmap string string -> outcome (gmap string string) }.

(** What a script does to the outside world, in order. *)
Inductive event : Type :=
| Print (text : string)
| Exists (path : string)
| Glob (dir pattern : string)
| Open (path mode : string).

(** A block of statements: the events it performed, and how it ended. *)
Record io (A : Type) : Type := IO { trace : list event; result : outcome A }.
Arguments IO {A} trace result.
Arguments trace {A} i.
Arguments result {A} i.

Definition io_ret {A} (a : A) : io A := IO [] (Return a).

Definition io_bind {A B} (m : io A) (k : A -> io B) : io B :=
  match result m with
  | Return a => let rest := k a in IO (trace m ++ trace rest) (result rest)
  | Raise e => IO (trace m) (Raise e)
  end.

Definition lift {A} (o : outcome A) : io A := IO [] o.

Definition emit (ev : event) : io unit := IO [ev] (Return tt).

Definition print (text : string) : io unit := emit (Print text).

(** [try: body except Exception as e: handler(e)]; every class of
    [exn_class] derives from [Exception]. *)
Definition try_except {A} (body : outcome A) (handler : exn -> outcome A)
  : outcome A :=
  match body with
  | Return a => Return a
  | Raise e => handler e
  end.

Definition io_try_except {A} (body : io A) (handler : exn -> io A) : io A :=
  match result body with
  | Return a => body
  | Raise e =>
      let handled := handler e in
      IO (trace body ++ trace handled) (result handled)
  end.

Global Instance outcome_mbind : MBind outcome := fun A B k m => obind m k.
Global Instance io_mbind : MBind io := fun A B k m => io_bind m k.

(** The lines a script printed. *)
Definition printed (t : list event) : list string :=
  omap (fun ev => match ev with Print s => Some s | _ => None end) t.

(** The exit status of a script whose top level is one call. *)
Definition exit_status {A} (r : outcome A) : Z :=
  match r with
  | Return _ => 0
  | Raise _ => 1
  end.

Definition nl : string := String Text.newline EmptyString.

(* ===================================================================== *)
(** * test_sdk_tools.py: class SDKToolTester *)
(* ===================================================================== *)

Module SDKToolTester.
Section WithPlatform.
Context {platform : Platform}.

(** [__init__]: [self.schemas_dir.mkdir(exist_ok=True)].  The directory is
    [None] while it does not exist, and otherwise maps the name of each of
    its files to the file's text. *)
Definition init (schemas : option (gmap string string)) : gmap string string :=
  match schemas with
  | Some files => files
  | None => ∅
  end.

(** The [cmd] list of [run_claude_command]. *)
Definition command (prompt : string) (additional_args : option (list string))
  : list string :=
  let cmd := ["claude"; "-p"; prompt;
              "--output-format"; "stream-json";
              "--verbose"] in
  match additional_args with
  | Some (a :: args) => cmd ++ a :: args
  | _ => cmd
  end.

(** The loop over [result.stdout.strip().split('\n')]; [messages] is the
    list built so far. *)
Fixpoint parse_stream_json (lines : list string) (messages : list pyobj)
  : outcome (list pyobj) :=
  match lines with
  | [] => Return messages
  | line :: rest =>
      if Py.truthy (PyStr (Text.strip line)) then
        match json_loads line with
        | Return v => parse_stream_json rest (messages ++ [v])
        | Raise e =>
            if is_JSONDecodeError e then parse_stream_json rest messages
            else Raise e
        end
      else parse_stream_json rest messages
  end.

(** The body of the [try] block of [run_claude_command]. *)
Definition run_and_parse (cmd : list string) : outcome pyobj :=
  result ← subprocess_run cmd;
  messages ← parse_stream_json
               (Text.split Text.newline (Text.strip (stdout result))) [];
  Return (PyDict [("success", PyBool (returncode result =? 0));
                  ("messages", PyList messages);
                  ("stderr", PyStr (stderr result))]).

Definition run_claude_command (prompt : string)
  (additional_args : option (list string)) : outcome pyobj :=
  let cmd := command prompt additional_args in
  try_except (run_and_parse cmd)
    (fun e => Return (PyDict [("success", PyBool false);
                              ("error", PyStr (exn_str e));
                              ("messages", PyList [])])).

(** The [schema_data] dict every [test_*_tool] method builds from the
    [result] of [run_claude_command]; [result.get] supplies the empty text when the
    result has no [stderr]. *)
Definition schema_data (tool_name test_scenario : string) (result : pyobj)
  : outcome pyobj :=
  success ← Py.getitem result "success";
  messages ← Py.getitem result "messages";
  stderr ← Py.get result "stderr" (PyStr EmptyString);
  Return (PyDict [("tool_name", PyStr tool_name);
                  ("test_scenario", PyStr test_scenario);
                  ("success", success);
                  ("messages", messages);
                  ("stderr", stderr)]).

Definition schema_filename (tool_name : string) : string :=
  tool_name +:+ "_schema.json".

(** [str(self.schemas_dir / name)] for [name] an entry of the directory,
    as [glob] yields them. *)
Definition schema_path (name : string) : string :=
  "schemas/" +:+ name.

(** [save_schema].  When [filepath] names an entry of the directory,
    [open(filepath, 'w')] makes the file or replaces its text, and
    [json.dump] writes the new text; the directory is taken to be
    writable and to hold no subdirectory under that name.  For any other
    path the platform tells what [open] does; when it raises, nothing is
    printed and the exception leaves the method. *)
Definition save_schema (tool_name : string) (schema_data : pyobj)
  (files : gmap string string) : gmap string string * io unit :=
  let filename := schema_filename tool_name in
  let filepath := Pathlib.joinpath "schemas" filename in
  let text := json_dumps schema_data in
  let saved :=
    IO [Open filepath "w";
        Print ("Saved " +:+ tool_name +:+ " schema to " +:+ filepath)]
       (Return tt) in
  match Pathlib.entry filename with
  | Some name => (<[name := text]> files, saved)
  | None =>
      match write_elsewhere filepath text files with
      | Return files' => (files', saved)
      | Raise e => (files, IO [Open filepath "w"] (Raise e))
      end
  end.

End WithPlatform.
End SDKToolTester.


(* ===================================================================== *)
(** * examine_schemas.py *)
(* ===================================================================== *)

Module ExamineSchemas.

(** Does a file name match a glob pattern?  [*] stands for any run of
    characters and [?] for any one character. *)
Fixpoint fnmatch (pattern name : string) : bool :=
  match pattern with
  | EmptyString =>
      match name with EmptyString => true | _ => false end
  | String p pattern' =>
      if Ascii.eqb p "*"%char then
        (fix star (name : string) : bool :=
           fnmatch pattern' name ||
           match name with
           | EmptyString => false
           | String _ name' => star name'
           end) name
      else
        match name with
        | EmptyString => false
        | String c name' =>
            (Ascii.eqb p "?"%char || Ascii.eqb p c) && fnmatch pattern' name'
        end
  end.

(** [schemas_dir.glob(pattern)]: the names in the directory that match. *)
Definition glob (files : gmap string string) (pattern : string) : list string :=
  filter (fun name => Is_true (fnmatch pattern name)) (map fst (map_to_list files)).

(** The order of the paths of one directory: the order of their names,
    character by character. *)
Definition name_le (a b : string) : Prop := Is_true (String.leb a b).

Global Instance name_le_dec a b : Decision (name_le a b).
Proof. unfold name_le. apply _. Defined.

(** [sorted(schema_files)] *)
Definition sorted (names : list string) : list string :=
  merge_sort name_le names.

Section WithPlatform.
Context {platform : Platform}.

(** [with open(filepath, 'r') as f: data = json.load(f)] *)
Definition load (files : gmap string string) (name : string) : io pyobj :=
  let filepath := SDKToolTester.schema_path name in
  emit (Open filepath "r");;
  match files !! name with
  | Some text => lift (json_loads text)
  | None =>
      lift (Raise (Exn FileNotFoundError
                     ("[Errno 2] No such file or directory: "
                      +:+ Py.repr_str filepath)))
  end.

(** The body of the loop over the messages; [i] counts from 0. *)
Definition examine_message (i : nat) (message : pyobj) : io unit :=
  print (nl +:+ "Message " +:+ pretty (i + 1)%nat +:+ ":");;
  ty ← lift (Py.get message "type" (PyStr "unknown"));
  print ("  Type: " +:+ Py.str ty);;
  has_subtype ← lift (Py.contains "subtype" message);
  (if has_subtype : bool then
     subtype ← lift (Py.getitem message "subtype");
     print ("  Subtype: " +:+ Py.str subtype)
   else io_ret tt);;
  ty ← lift (Py.get message "type" PyNone);
  is_init ← (if Py.eq_str ty "system" then
               subtype ← lift (Py.get message "subtype" PyNone);
               io_ret (Py.eq_str subtype "init")
             else io_ret false);
  if is_init : bool then
    tools ← lift (Py.get message "tools" (PyList []));
    print ("  Tools: " +:+ Py.str tools);;
    model ← lift (Py.get message "model" (PyStr "unknown"));
    print ("  Model: " +:+ Py.str model);;
    mode ← lift (Py.get message "permissionMode" (PyStr "unknown"));
    print ("  Permission Mode: " +:+ Py.str mode)
  else
    ty ← lift (Py.get message "type" PyNone);
    if Py.eq_str ty "assistant" then
      has_message ← lift (Py.contains "message" message);
      if has_message : bool then
        inner ← lift (Py.getitem message "message");
        content ← lift (Py.get inner "content" (PyList []));
        if Py.truthy content then
          print ("  Content preview: "
                 +:+ Text.take 200 (Py.str content) +:+ "...")
        else io_ret tt
      else io_ret tt
    else
      ty ← lift (Py.get message "type" PyNone);
      if Py.eq_str ty "result" then
        is_error ← lift (Py.get message "is_error" (PyBool true));
        print ("  Is Error: " +:+ Py.str is_error);;
        num_turns ← lift (Py.get message "num_turns" (PyInt 0));
        print ("  Num Turns: " +:+ Py.str num_turns);;
        duration_ms ← lift (Py.get message "duration_ms" (PyInt 0));
        print ("  Duration MS: " +:+ Py.str duration_ms);;
        has_result ← lift (Py.contains "result" message);
        if has_result : bool then
          text ← lift (Py.getitem message "result");
          preview ← lift (Py.slice_to 200 text);
          print ("  Result preview: " +:+ Py.str preview +:+ "...")
        else io_ret tt
      else io_ret tt.

(** [for i, message in enumerate(...)] *)
Fixpoint examine_messages (i : nat) (messages : list pyobj) : io unit :=
  match messages with
  | [] => io_ret tt
  | message :: rest =>
      examine_message i message;; examine_messages (S i) rest
  end.

(** The statements of the [try] block that follow [json.load]. *)
Definition summarize (data : pyobj) : io unit :=
  tool_name ← lift (Py.get data "tool_name" (PyStr "Unknown"));
  print ("Tool Name: " +:+ Py.str tool_name);;
  test_scenario ← lift (Py.get data "test_scenario" (PyStr "Unknown"));
  print ("Test Scenario: " +:+ Py.str test_scenario);;
  success ← lift (Py.get data "success" (PyBool false));
  print ("Success: " +:+ Py.str success);;
  stderr ← lift (Py.get data "stderr" PyNone);
  (if Py.truthy stderr then
     stderr ← lift (Py.getitem data "stderr");
     print ("Stderr: " +:+ Py.str stderr)
   else io_ret tt);;
  messages ← lift (Py.get data "messages" (PyList []));
  count ← lift (Py.len messages);
  print (nl +:+ "Number of messages: " +:+ pretty count);;
  messages ← lift (Py.get data "messages" (PyList []));
  items ← lift (Py.iter messages);
  examine_messages 0 items.

Definition rule : string := Text.times "=" 60.

Definition examine_schema_file (files : gmap string string) (name : string)
  : io unit :=
  print (nl +:+ rule);;
  print ("Schema File: " +:+ name);;
  print rule;;
  io_try_except
    (data ← load files name; summarize data)
    (fun e =>
       print ("Error reading " +:+ SDKToolTester.schema_path name
              +:+ ": " +:+ exn_str e)).

(** [for schema_file in sorted(schema_files)] *)
Fixpoint examine_all (files : gmap string string) (names : list string)
  : io unit :=
  match names with
  | [] => io_ret tt
  | name :: rest => examine_schema_file files name;; examine_all files rest
  end.

(** [main]; the directory is [None] when it does not exist. *)
Definition main (schemas : option (gmap string string)) : io unit :=
  emit (Exists "schemas");;
  match schemas with
  | None => print "Schemas directory not found!"
  | Some files =>
      emit (Glob "schemas" "*_schema.json");;
      let schema_files := glob files "*_schema.json" in
      match schema_files with
      | [] => print "No schema files found!"
      | _ =>
          print ("Found " +:+ pretty (length schema_files)
                 +:+ " schema files:");;
          examine_all files (sorted schema_files)
      end
  end.

(** Running the script: [if __name__ == "__main__": main()]. *)
Definition script (schemas : option (gmap string string)) : list event * Z :=
  let run := main schemas in (trace run, exit_status (result run)).

End WithPlatform.
End ExamineSchemas.


(* ===================================================================== *)
(** * An executable instance of the library's JSON codec *)
(* ===================================================================== *)

(** [PyJson.loads] follows the scanner of Python's [json] module and
    [PyJson.dumps] its encoder with [indent=2] and [ensure_ascii=True], on
    the alphabet of the embedding: an escape [\uXXXX] above 255 is refused,
    and a number with a fraction or an exponent is kept as its literal.
    The limits of the library are left out: nesting and the digits of an
    integer are not bounded, so [PyJson.loads] raises [JSONDecodeError]
    and nothing else, and the text of its exceptions carries no position.
    The instance serves the sample runs; the properties of the two scripts
    are stated for any [Platform]. *)
Module PyJson.

Definition is_ws (c : ascii) : bool :=
  let n := Text.code c in
  ((n =? 32) || (n =? 9) || (n =? 10) || (n =? 13))%nat.

Fixpoint skip_ws (s : string) : string :=
  match s with
  | EmptyString => EmptyString
  | String c s' => if is_ws c then skip_ws s' else s
  end.

Definition is_digit (c : ascii) : bool :=
  let n := Text.code c in ((48 <=? n) && (n <=? 57))%nat.

(** The longest run of digits at the head of [s], and what follows it. *)
Fixpoint span_digits (s : string) : string * string :=
  match s with
  | EmptyString => (EmptyString, EmptyString)
  | String c s' =>
      if is_digit c then
        let '(ds, rest) := span_digits s' in (String c ds, rest)
      else (EmptyString, s)
  end.

Fixpoint digits_value (acc : Z) (ds : string) : Z :=
  match ds with
  | EmptyString => acc
  | String c ds' => digits_value (10 * acc + Z.of_nat (Text.code c - 48)) ds'
  end.

(** The integer part [0|[1-9]\d*] of a number. *)
Definition scan_int (s : string) : option (string * string) :=
  match s with
  | String c s' =>
      if Ascii.eqb c "0"%char then Some ("0", s')
      else if is_digit c then
        let '(ds, rest) := span_digits s' in Some (String c ds, rest)
      else None
  | EmptyString => None
  end.

(** The optional fraction [(\.\d+)?]. *)
Definition scan_frac (s : string) : string * string :=
  match s with
  | String c s' =>
      if Ascii.eqb c "."%char then
        match span_digits s' with
        | (EmptyString, _) => (EmptyString, s)
        | (ds, rest) => (String c ds, rest)
        end
      else (EmptyString, s)
  | EmptyString => (EmptyString, s)
  end.

(** The optional exponent [([eE][-+]?\d+)?]. *)
Definition scan_exp (s : string) : string * string :=
  match s with
  | String c s' =>
      if Ascii.eqb c "e"%char || Ascii.eqb c "E"%char then
        let '(sign, s'') :=
          match s' with
          | String d t =>
              if Ascii.eqb d "+"%char || Ascii.eqb d "-"%char
              then (String d EmptyString, t) else (EmptyString, s')
          | EmptyString => (EmptyString, s')
          end in
        match span_digits s'' with
        | (EmptyString, _) => (EmptyString, s)
        | (ds, rest) => (String c (sign +:+ ds), rest)
        end
      else (EmptyString, s)
  | EmptyString => (EmptyString, s)
  end.

Definition scan_number (s : string) : option (pyobj * string) :=
  let '(neg, s1) :=
    match s with
    | String c s' => if Ascii.eqb c "-"%char then (true, s') else (false, s)
    | EmptyString => (false, s)
    end in
  match scan_int s1 with
  | None => None
  | Some (int_part, s2) =>
      let '(frac, s3) := scan_frac s2 in
      let '(exp, s4) := scan_exp s3 in
      let sign := if neg : bool then "-" else EmptyString in
      match frac, exp with
      | EmptyString, EmptyString =>
          let n := digits_value 0 int_part in
          Some (PyInt (if neg then - n else n), s4)
      | _, _ => Some (PyFloat (sign +:+ int_part +:+ frac +:+ exp), s4)
      end
  end.

Definition hex_value (c : ascii) : option nat :=
  let n := Text.code c in
  if ((48 <=? n) && (n <=? 57))%nat then Some (n - 48)%nat
  else if ((97 <=? n) && (n <=? 102))%nat then Some (n - 87)%nat
  else if ((65 <=? n) && (n <=? 70))%nat then Some (n - 55)%nat
  else None.

(** The character a [\uXXXX] escape stands for. *)
Definition unicode_escape (a b c d : ascii) : option ascii :=
  match hex_value a, hex_value b, hex_value c, hex_value d with
  | Some x, Some y, Some z, Some w =>
      let n := (((x * 16 + y) * 16 + z) * 16 + w)%nat in
      if (n <? 256)%nat then Some (ascii_of_nat n) else None
  | _, _, _, _ => None
  end.

(** The character a one-letter escape stands for. *)
Definition simple_escape (e : ascii) : option ascii :=
  if Ascii.eqb e Text.dquote then Some Text.dquote
  else if Ascii.eqb e Text.backslash then Some Text.backslash
  else if Ascii.eqb e "/"%char then Some "/"%char
  else if Ascii.eqb e "b"%char then Some (ascii_of_nat 8)
  else if Ascii.eqb e "f"%char then Some (ascii_of_nat 12)
  else if Ascii.eqb e "n"%char then Some (ascii_of_nat 10)
  else if Ascii.eqb e "r"%char then Some (ascii_of_nat 13)
  else if Ascii.eqb e "t"%char then Some (ascii_of_nat 9)
  else None.

(** A string literal after its opening quote: the text and what follows
    the closing quote. *)
Fixpoint scan_string (s : string) : option (string * string) :=
  match s with
  | EmptyString => None
  | String c s' =>
      if Ascii.eqb c Text.dquote then Some (EmptyString, s')
      else if Ascii.eqb c Text.backslash then
        match s' with
        | String e s'' =>
            if Ascii.eqb e "u"%char then
              match s'' with
              | String h1 (String h2 (String h3 (String h4 rest))) =>
                  match unicode_escape h1 h2 h3 h4, scan_string rest with
                  | Some ch, Some (text, rest') => Some (String ch text, rest')
                  | _, _ => None
                  end
              | _ => None
              end
            else
              match simple_escape e, scan_string s'' with
              | Some ch, Some (text, rest) => Some (String ch text, rest)
              | _, _ => None
              end
        | EmptyString => None
        end
      else if (Text.code c <? 32)%nat then None
      else
        match scan_string s' with
        | Some (text, rest) => Some (String c text, rest)
        | None => None
        end
  end.

(** [scan_once] and the array and object scanners; [fuel] bounds the
    number of nested calls. *)
Fixpoint scan_value (fuel : nat) (s : string) : option (pyobj * string) :=
  match fuel with
  | O => None
  | S fuel' =>
      match s with
      | EmptyString => None
      | String c s' =>
          if Ascii.eqb c Text.dquote then
            match scan_string s' with
            | Some (text, rest) => Some (PyStr text, rest)
            | None => None
            end
          else if Ascii.eqb c "{"%char then
            match skip_ws s' with
            | String d rest =>
                if Ascii.eqb d "}"%char then Some (PyDict [], rest)
                else scan_members fuel' (String d rest) []
            | EmptyString => None
            end
          else if Ascii.eqb c "["%char then
            match skip_ws s' with
            | String d rest =>
                if Ascii.eqb d "]"%char then Some (PyList [], rest)
                else scan_items fuel' (String d rest) []
            | EmptyString => None
            end
          else if Text.startswith "null" s then
            Some (PyNone, Text.drop 4 s)
          else if Text.startswith "true" s then
            Some (PyBool true, Text.drop 4 s)
          else if Text.startswith "false" s then
            Some (PyBool false, Text.drop 5 s)
          else
            match scan_number s with
            | Some r => Some r
            | None =>
                if Text.startswith "NaN" s then
                  Some (PyFloat "nan", Text.drop 3 s)
                else if Text.startswith "Infinity" s then
                  Some (PyFloat "inf", Text.drop 8 s)
                else if Text.startswith "-Infinity" s then
                  Some (PyFloat "-inf", Text.drop 9 s)
                else None
            end
      end
  end
with scan_items (fuel : nat) (s : string) (items : list pyobj)
  : option (pyobj * string) :=
  match fuel with
  | O => None
  | S fuel' =>
      match scan_value fuel' s with
      | None => None
      | Some (v, rest) =>
          match skip_ws rest with
          | String d rest' =>
              if Ascii.eqb d "]"%char then Some (PyList (items ++ [v]), rest')
              else if Ascii.eqb d ","%char then
                scan_items fuel' (skip_ws rest') (items ++ [v])
              else None
          | EmptyString => None
          end
      end
  end
with scan_members (fuel : nat) (s : string) (entries : list (string * pyobj))
  : option (pyobj * string) :=
  match fuel with
  | O => None
  | S fuel' =>
      match s with
      | String q s' =>
          if Ascii.eqb q Text.dquote then
            match scan_string s' with
            | None => None
            | Some (key, rest) =>
                match skip_ws rest with
                | String colon rest1 =>
                    if Ascii.eqb colon ":"%char then
                      match scan_value fuel' (skip_ws rest1) with
                      | None => None
                      | Some (v, rest2) =>
                          let entries' := Py.store key v entries in
                          match skip_ws rest2 with
                          | String d rest3 =>
                              if Ascii.eqb d "}"%char
                              then Some (PyDict entries', rest3)
                              else if Ascii.eqb d ","%char then
                                scan_members fuel' (skip_ws rest3) entries'
                              else None
                          | EmptyString => None
                          end
                      end
                    else None
                | EmptyString => None
                end
            end
          else None
      | EmptyString => None
      end
  end.

(** [json.loads]: one value between optional blanks, and nothing else. *)
Definition loads (s : string) : outcome pyobj :=
  match scan_value (2 * String.length s + 2) (skip_ws s) with
  | Some (v, rest) =>
      match skip_ws rest with
      | EmptyString => Return v
      | _ => Raise (Exn JSONDecodeError "Extra data")
      end
  | None => Raise (Exn JSONDecodeError "Expecting value")
  end.

(** One character of a string literal, under [ensure_ascii=True]. *)
Definition escape_char (c : ascii) : string :=
  let n := Text.code c in
  if Ascii.eqb c Text.dquote || Ascii.eqb c Text.backslash
  then String Text.backslash (String c EmptyString)
  else if (n =? 10)%nat then "\n"
  else if (n =? 13)%nat then "\r"
  else if (n =? 9)%nat then "\t"
  else if (n =? 12)%nat then "\f"
  else if (n =? 8)%nat then "\b"
  else if ((32 <=? n) && (n <=? 126))%nat then String c EmptyString
  else "\u00" +:+ Text.hex2 n.

Fixpoint escape (s : string) : string :=
  match s with
  | EmptyString => EmptyString
  | String c s' => escape_char c +:+ escape s'
  end.

Definition encode_str (s : string) : string :=
  String Text.dquote (escape s +:+ String Text.dquote EmptyString).

Definition encode_float (r : string) : string :=
  if String.eqb r "nan" then "NaN"
  else if String.eqb r "inf" then "Infinity"
  else if String.eqb r "-inf" then "-Infinity"
  else r.

(** A line break followed by the indentation of nesting depth [level]. *)
Definition newline_indent (level : nat) : string :=
  nl +:+ Text.times " " (2 * level).

(** [json.dumps(v, indent=2)] at nesting depth [level]. *)
Fixpoint encode (level : nat) (v : pyobj) : string :=
  match v with
  | PyNone => "null"
  | PyBool true => "true"
  | PyBool false => "false"
  | PyInt n => pretty n
  | PyFloat r => encode_float r
  | PyStr s => encode_str s
  | PyList [] => "[]"
  | PyList l =>
      "[" +:+ newline_indent (S level)
      +:+ Text.join ("," +:+ newline_indent (S level))
            (map (encode (S level)) l)
      +:+ newline_indent level +:+ "]"
  | PyDict [] => "{}"
  | PyDict d =>
      "{" +:+ newline_indent (S level)
      +:+ Text.join ("," +:+ newline_indent (S level))
            (map (fun kv => encode_str (fst kv) +:+ ": "
                            +:+ encode (S level) (snd kv)) d)
      +:+ newline_indent level +:+ "}"
  end.

Definition dumps (v : pyobj) : string := encode 0 v.

End PyJson.

(** [open(path, 'w')] for a path that names no entry of the directory
    [schemas], on a sample disk: the directory holds plain files only, and
    nothing outside it may be written.  A path through a directory that is
    not there raises [FileNotFoundError], one through a plain file
    [NotADirectoryError], a name that is too long [OSError], and a path
    that leaves the directory [PermissionError].  (A path that leaves the
    directory and comes back to it is not followed.) *)
Definition fresh_disk (path text : string) (files : gmap string string)
  : outcome (gmap string string) :=
  let failure (class : exn_class) (message : string) :=
    Raise (Exn class (message +:+ ": " +:+ Py.repr_str path)) in
  let denied :=
    failure (OtherException "PermissionError") "[Errno 13] Permission denied" in
  let too_long (name : string) : bool :=
    (Pathlib.NAME_MAX <? Pathlib.bytes name)%nat in
  if Text.mem Pathlib.nul path then
    Raise (Exn (OtherException "ValueError") "embedded null byte")
  else if Pathlib.is_absolute path then denied
  else
    match Pathlib.parts path with
    | [_; name] =>
        if String.eqb name ".." then
          failure (OtherException "IsADirectoryError")
            "[Errno 21] Is a directory"
        else failure OSError "[Errno 36] File name too long"
    | _ :: name :: _ =>
        if String.eqb name ".." then denied
        else if too_long name then
          failure OSError "[Errno 36] File name too long"
        else if bool_decide (is_Some (files !! name)) then
          failure (OtherException "NotADirectoryError")
            "[Errno 20] Not a directory"
        else failure FileNotFoundError "[Errno 2] No such file or directory"
    | _ =>
        failure (OtherException "IsADirectoryError") "[Errno 21] Is a directory"
    end.

(** The library with [PyJson] as its codec, on the sample disk; [run]
    stands for the external program. *)
Definition cpython (run : list string -> outcome CompletedProcess) : Platform :=
  {| json_loads := PyJson.loads;
     json_dumps := PyJson.dumps;
     subprocess_run := run;
     write_elsewhere := fresh_disk |}.





(* ===================================================================== *)
(** * What the specification says, and what is assumed of the library *)
(* ===================================================================== *)

Module Spec.

(** The lines every [result] message gets, before the preview. *)
Definition result_lines (i : nat) (entries : list (string * pyobj))
  : list string :=
  [nl +:+ "Message " +:+ pretty (i + 1)%nat +:+ ":"; "  Type: result"]
  ++ match Py.lookup "subtype" entries with
     | Some subtype => ["  Subtype: " +:+ Py.str subtype]
     | None => []
     end
  ++ ["  Is Error: "
        +:+ Py.str (default (PyBool true) (Py.lookup "is_error" entries));
      "  Num Turns: "
        +:+ Py.str (default (PyInt 0) (Py.lookup "num_turns" entries));
      "  Duration MS: "
        +:+ Py.str (default (PyInt 0) (Py.lookup "duration_ms" entries))].

(** The preview line of a [result] message: printed when the message has a
    [result] field, from the first 200 characters of its value. *)
Definition result_preview (entries : list (string * pyobj)) : io unit :=
  match Py.lookup "result" entries with
  | Some text =>
      preview ← lift (Py.slice_to 200 text);
      print ("  Result preview: " +:+ Py.str preview +:+ "...")
  | None => io_ret tt
  end.

Section WithPlatform.
Context {platform : Platform}.

(** The value of a line that is a syntactically valid JSON document. *)
Definition decode_line (line : string) : option pyobj :=
  match json_loads line with
  | Return v => Some v
  | Raise _ => None
  end.

(** Following the specification: the JSON values decoded from the valid
    JSON lines of a text, in the order of the lines. *)
Definition valid_json_messages (text : string) : list pyobj :=
  omap decode_line (Text.split Text.newline text).

(** Following the specification: the count of syntactically valid JSON
    lines of a text. *)
Definition valid_json_line_count (text : string) : nat :=
  length (filter (fun line => is_Some (decode_line line))
            (Text.split Text.newline text)).

(** The documented contract of [json.loads] on the lines of a text: a
    line that is not a JSON document raises [JSONDecodeError], and nothing
    else is raised.  An exception for an exhausted resource, such as
    [RecursionError] on a very deeply nested line, is not covered by the
    contract: such a line sends [run_claude_command] to its failure
    result. *)
Definition raises_only_JSONDecodeError (text : string) : Prop :=
  forall line e,
    line ∈ Text.split Text.newline text ->
    json_loads line = Raise e -> is_JSONDecodeError e = true.

(** The loop over the lines goes to its end: on the lines it does not
    skip, [json.loads] raises nothing but [JSONDecodeError]. *)
Definition loop_completes (lines : list string) : Prop :=
  forall line e,
    line ∈ lines -> Text.strip line <> EmptyString ->
    json_loads line = Raise e -> is_JSONDecodeError e = true.

(** The loop over the lines is left by the exception [e]: [json.loads]
    raises it on a line that is not skipped, it is no [JSONDecodeError],
    and the loop has gone through the lines before that one. *)
Definition loop_raises (lines : list string) (e : exn) : Prop :=
  exists before line after,
    lines = before ++ line :: after /\
    loop_completes before /\
    Text.strip line <> EmptyString /\
    json_loads line = Raise e /\
    is_JSONDecodeError e = false.

(** A line made of white space only is not a JSON document. *)
Definition rejects_blank_lines : Prop :=
  forall line, Text.strip line = EmptyString -> decode_line line = None.

(** Decoding the text written for [v] gives [v] back. *)
Definition round_trips (v : pyobj) : Prop :=
  json_loads (json_dumps v) = Return v.

End WithPlatform.
End Spec.

(** ** Sample data *)

(** A form feed followed by the JSON document [1]. *)
Definition form_feed_one : string := String (ascii_of_nat 12) "1".

(** An external program that cannot be started. *)
Definition missing_binary (cmd : list string) : outcome CompletedProcess :=
  Raise (Exn FileNotFoundError
           "[Errno 2] No such file or directory: 'claude'").

(** An external program that exits with [code] after writing [out] and
    [err]. *)
Definition exits_with (code : Z) (out err : string) (cmd : list string)
  : outcome CompletedProcess :=
  Return {| returncode := code; stdout := out; stderr := err |}.

(** The outputs of the two scenarios of the specification. *)
Definition two_messages : string :=
  "{" +:+ PyJson.encode_str "type" +:+ ":" +:+ PyJson.encode_str "system"
  +:+ "," +:+ PyJson.encode_str "subtype" +:+ ":" +:+ PyJson.encode_str "init"
  +:+ "}" +:+ nl +:+
  "{" +:+ PyJson.encode_str "type" +:+ ":" +:+ PyJson.encode_str "result"
  +:+ "," +:+ PyJson.encode_str "is_error" +:+ ":false,"
  +:+ PyJson.encode_str "num_turns" +:+ ":2}".

Definition malformed_then_valid : string :=
  "not json" +:+ nl +:+ "{" +:+ PyJson.encode_str "type" +:+ ":"
  +:+ PyJson.encode_str "result" +:+ "}".

Definition init_message : pyobj :=
  PyDict [("type", PyStr "system"); ("subtype", PyStr "init")].

Definition result_message : pyobj :=
  PyDict [("type", PyStr "result")].

Definition sample_record : pyobj :=
  PyDict [("tool_name", PyStr "Edit");
          ("test_scenario", PyStr "Add docstring to function");
          ("success", PyBool true);
          ("messages", PyList [init_message;
                               PyDict [("type", PyStr "result");
                                       ("is_error", PyBool false);
                                       ("num_turns", PyInt 2);
                                       ("result", PyStr "Done.")]]);
          ("stderr", PyStr EmptyString)].

Definition other_record : pyobj :=
  PyDict [("tool_name", PyStr "Edit");
          ("test_scenario", PyStr "Add docstring to function");
          ("success", PyBool false);
          ("messages", PyList []);
          ("stderr", PyStr "boom")].


(* ===================================================================== *)
(** * Notions for the round trip of the executable codec *)
(* ===================================================================== *)

(** A value the round trip is stated for: no float, whose text is not
    modelled, and no key twice in a dict. *)
Fixpoint wf (v : pyobj) : bool :=
  match v with
  | PyFloat _ => false
  | PyList l => forallb wf l
  | PyDict d =>
      bool_decide (NoDup (map fst d)) && forallb (fun kv => wf (snd kv)) d
  | _ => true
  end.

(** Induction on a value, its items and its entries. *)
Definition pyobj_nested_ind (P : pyobj -> Prop)
  (HNone : P PyNone) (HBool : forall b, P (PyBool b))
  (HInt : forall n, P (PyInt n)) (HFloat : forall r, P (PyFloat r))
  (HStr : forall s, P (PyStr s))
  (HList : forall l, Forall P l -> P (PyList l))
  (HDict : forall d, Forall (fun kv => P (snd kv)) d -> P (PyDict d))
  : forall v, P v :=
  fix go (v : pyobj) : P v :=
    match v with
    | PyNone => HNone
    | PyBool b => HBool b
    | PyInt n => HInt n
    | PyFloat r => HFloat r
    | PyStr s => HStr s
    | PyList l =>
        HList l ((fix items (l : list pyobj) : Forall P l :=
                    match l with
                    | [] => List.Forall_nil P
                    | x :: l' => @List.Forall_cons _ P x l' (go x) (items l')
                    end) l)
    | PyDict d =>
        HDict d ((fix entries (d : list (string * pyobj))
                   : Forall (fun kv => P (snd kv)) d :=
                    match d with
                    | [] => List.Forall_nil _
                    | kv :: d' =>
                        @List.Forall_cons _ (fun kv => P (snd kv)) kv d'
                          (go (snd kv)) (entries d')
                    end) d)
    end.

(** Is every character a decimal digit? *)
Fixpoint all_digits (s : string) : bool :=
  match s with
  | EmptyString => true
  | String c s' => PyJson.is_digit c && all_digits s'
  end.

(** What may follow a value in the text the encoder writes: nothing, a
    comma or a line break. *)
Definition delimited (rest : string) : Prop :=
  match rest with
  | EmptyString => True
  | String c _ => c = ","%char \/ c = Text.newline
  end.

(** The first character of the text of a value opens the value. *)
Definition opens_value (c : ascii) : Prop :=
  PyJson.is_ws c = false /\ c <> "]"%char /\ c <> "}"%char.

(** The text of [v], at any depth and before any delimited rest, scans
    back to [v] when the fuel covers the text. *)
Definition decodes (v : pyobj) : Prop :=
  forall level rest fuel,
    (String.length (PyJson.encode level v) <= fuel)%nat ->
    delimited rest ->
    PyJson.scan_value fuel (PyJson.encode level v +:+ rest) = Some (v, rest).

Definition item_separator (level : nat) : string :=
  "," +:+ PyJson.newline_indent (S level).

Definition encode_entry (level : nat) (kv : string * pyobj) : string :=
  PyJson.encode_str (fst kv) +:+ ": " +:+ PyJson.encode (S level) (snd kv).


(* ===================================================================== *)
(** * test_sdk_tools.py: the test methods, [run_all_tests] and [main] *)
(* ===================================================================== *)

Module TestSDKTools.

(** What the script takes from its surroundings besides the library of
    [Platform]: [os.getcwd()], an absolute path that ends in a slash only
    when it is the root; [uuid.uuid4().hex]; and [json.dumps(v)], the text
    [json.dump(v, f)] writes without indentation. *)
Class Environment : Type :=
  { getcwd : string;
    uuid4_hex : string;
    json_dumps_compact : pyobj -> string }.

(** The two directories of the script; a directory is [None] while it
    does not exist and otherwise maps file names to texts.  The external
    program is taken to leave both directories alone. *)
Record filesystem : Type :=
  { schemas_dir : option (gmap string string);
    test_files_dir : option (gmap string string) }.

(** An [SDKToolTester] after [__init__]: both directories exist. *)
Record tester : Type :=
  { schemas_files : gmap string string;
    test_files : gmap string string }.

(** A method of the tester: the tester it leaves, and what it did. *)
Definition method (A : Type) : Type := tester -> tester * io A.

Definition method_bind {A B} (m : method A) (k : A -> method B) : method B :=
  fun self =>
    let first := m self in
    match result first.2 with
    | Return a =>
        let rest := k a first.1 in
        (rest.1, IO (trace first.2 ++ trace rest.2) (result rest.2))
    | Raise e => (first.1, IO (trace first.2) (Raise e))
    end.

Global Instance method_mbind : MBind method := fun A B k m => method_bind m k.

(** A block that leaves the tester as it is. *)
Definition perform {A} (block : io A) : method A := fun self => (self, block).

(** The two marks of the summary lie outside the alphabet of the
    embedding; they are carried as their UTF-8 bytes, and only printed. *)
Definition check_mark : string :=
  String (ascii_of_nat 226) (String (ascii_of_nat 156)
    (String (ascii_of_nat 147) EmptyString)).

Definition cross_mark : string :=
  String (ascii_of_nat 226) (String (ascii_of_nat 156)
    (String (ascii_of_nat 151) EmptyString)).

(** The docstring of the module. *)
Definition doc : string :=
  nl +:+ "Test script for Claude Code SDK tools to capture output schemas."
  +:+ nl +:+ "This script tests various edit tools and saves their response schemas to JSON files."
  +:+ nl.

(** [str(self.test_files_dir / name)] *)
Definition test_file_path (name : string) : string := "test_files/" +:+ name.

Definition edit_test_text : string :=
  "def hello():" +:+ nl +:+ "    print('Hello, World!')".

Definition multiedit_test_text : string :=
  "def add(a, b):" +:+ nl +:+ "    return a + b" +:+ nl +:+ nl
  +:+ "def subtract(a, b):" +:+ nl +:+ "    return a - b" +:+ nl +:+ nl
  +:+ "def multiply(a, b):" +:+ nl +:+ "    return a * b" +:+ nl.

Definition notebook_content : pyobj :=
  PyDict
    [("cells",
      PyList [PyDict [("cell_type", PyStr "code");
                      ("execution_count", PyNone);
                      ("metadata", PyDict []);
                      ("outputs", PyList []);
                      ("source", PyList [PyStr "print('Hello from notebook')"])]]);
     ("metadata",
      PyDict [("kernelspec",
               PyDict [("display_name", PyStr "Python 3");
                       ("language", PyStr "python");
                       ("name", PyStr "python3")])]);
     ("nbformat", PyInt 4);
     ("nbformat_minor", PyInt 4)].

(** The [prompt] of each test method. *)
Definition edit_prompt : string :=
  "Edit the file " +:+ test_file_path "edit_test.py"
  +:+ " to add a docstring to the hello function. Use the Edit tool to make this change.".

Definition write_prompt (new_file : string) : string :=
  "Create a new JavaScript file at " +:+ new_file
  +:+ " with a simple React component. Use the Write tool to create this file.".

Definition multiedit_prompt : string :=
  "Use the MultiEdit tool to add docstrings to all three functions in "
  +:+ test_file_path "multiedit_test.py"
  +:+ ". Make multiple edits in a single operation.".

Definition notebook_prompt : string :=
  "Use the NotebookEdit tool to add a new markdown cell to the notebook "
  +:+ test_file_path "notebook_test.ipynb" +:+ " with a title "
  +:+ String Text.dquote ("# Test Notebook" +:+ String Text.dquote ".").

Section WithPlatform.
Context {platform : Platform} {environment : Environment}.

(** [SDKToolTester()]: both directories are made if absent. *)
Definition new_tester (fs : filesystem) : tester :=
  {| schemas_files := SDKToolTester.init (schemas_dir fs);
     test_files := SDKToolTester.init (test_files_dir fs) |}.

(** The directories a tester leaves on disk. *)
Definition disk (self : tester) : filesystem :=
  {| schemas_dir := Some (schemas_files self);
     test_files_dir := Some (test_files self) |}.

(** [(self.test_files_dir / name).write_text(text)], and also
    [with open(self.test_files_dir / name, 'w') as f: f.write(text)]. *)
Definition write_text (name text : string) : method unit :=
  fun self =>
    ({| schemas_files := schemas_files self;
        test_files := <[name := text]> (test_files self) |},
     emit (Open (test_file_path name) "w")).

(** [self.save_schema(tool_name, schema_data)] *)
Definition save_schema (tool_name : string) (schema_data : pyobj) : method unit :=
  fun self =>
    let saved :=
      SDKToolTester.save_schema tool_name schema_data (schemas_files self) in
    ({| schemas_files := saved.1; test_files := test_files self |}, saved.2).

(** The statements the four test methods share, from the call of
    [run_claude_command] to [return result["success"]]. *)
Definition capture (tool_name test_scenario key prompt : string)
  : method pyobj :=
  result ← perform (lift (SDKToolTester.run_claude_command prompt None));
  schema_data ← perform (lift (SDKToolTester.schema_data
                                 tool_name test_scenario result));
  save_schema key schema_data;;
  perform (lift (Py.getitem result "success")).

Definition test_edit_tool : method pyobj :=
  perform (print "Testing Edit tool...");;
  write_text "edit_test.py" edit_test_text;;
  capture "Edit" "Add docstring to function" "edit_tool" edit_prompt.

(** [self.test_files_dir / f"write_test_{uuid.uuid4().hex[:8]}.js"] *)
Definition new_file : string :=
  test_file_path ("write_test_" +:+ Text.take 8 uuid4_hex +:+ ".js").

Definition test_write_tool : method pyobj :=
  perform (print "Testing Write tool...");;
  capture "Write" "Create new JavaScript React component file" "write_tool"
    (write_prompt new_file).

Definition test_multiedit_tool : method pyobj :=
  perform (print "Testing MultiEdit tool...");;
  write_text "multiedit_test.py" multiedit_test_text;;
  capture "MultiEdit" "Add docstrings to multiple functions" "multiedit_tool"
    multiedit_prompt.

Definition test_notebook_edit_tool : method pyobj :=
  perform (print "Testing NotebookEdit tool...");;
  write_text "notebook_test.ipynb" (json_dumps_compact notebook_content);;
  capture "NotebookEdit" "Add markdown cell to notebook" "notebook_edit_tool"
    notebook_prompt.

(** [str(self.schemas_dir.absolute())] *)
Definition schemas_absolute : string :=
  if String.eqb getcwd "/" then "/schemas" else getcwd +:+ "/schemas".

(** One line of the summary. *)
Definition summary_line (entry : string * pyobj) : string :=
  let status := if Py.truthy entry.2
                then check_mark +:+ " PASSED"
                else cross_mark +:+ " FAILED" in
  "  " +:+ entry.1 +:+ ": " +:+ status.

(** [for tool, success in results.items(): print(...)] *)
Fixpoint print_summary (results : list (string * pyobj)) : io unit :=
  match results with
  | [] => io_ret tt
  | entry :: rest => print (summary_line entry);; print_summary rest
  end.

Definition run_all_tests : method pyobj :=
  perform (print "Starting Claude Code SDK tool testing...");;
  perform (print ("Working directory: " +:+ getcwd));;
  perform (print ("Schemas will be saved to: " +:+ schemas_absolute));;
  edit ← test_edit_tool;
  write ← test_write_tool;
  multiedit ← test_multiedit_tool;
  notebook_edit ← test_notebook_edit_tool;
  let results := [("edit", edit); ("write", write);
                  ("multiedit", multiedit);
                  ("notebook_edit", notebook_edit)] in
  perform (print (nl +:+ Text.times "=" 50));;
  perform (print "Test Results Summary:");;
  perform (print_summary results);;
  perform (print (nl +:+ "Schema files saved to: " +:+ schemas_absolute));;
  perform (io_ret (PyDict results)).

(** [all(results.values())] *)
Definition all_values (results : pyobj) : bool :=
  match results with
  | PyDict entries => forallb (fun entry => Py.truthy entry.2) entries
  | _ => false
  end.

(** [main], with [sys.argv] as [argv]: the directories it leaves, what it
    did, and as its value the status the script exits with, 1 after
    [sys.exit(1)] and 0 after a plain return. *)
Definition main (argv : list string) (fs : filesystem) : filesystem * io Z :=
  let asks_help := match argv with
                   | _ :: arg :: _ => String.eqb arg "--help"
                   | _ => false
                   end in
  if asks_help then (fs, print doc;; io_ret 0)
  else
    let run := run_all_tests (new_tester fs) in
    (disk run.1,
     results ← run.2;
     io_ret (if all_values results then 0 else 1)).

End WithPlatform.
End TestSDKTools.

(* ===================================================================== *)
(** * Notions for the further properties of the two scripts *)
(* ===================================================================== *)

(** The files a script opened, with the mode of each, in order. *)
Definition opened (t : list event) : list (string * string) :=
  omap (fun ev => match ev with Open path mode => Some (path, mode) | _ => None end) t.

(** Does the script only print? *)
Definition only_prints (t : list event) : Prop :=
  Forall (fun ev => match ev with Print _ => True | _ => False end) t.

(** The lines every message gets: its number, its type and, when it has
    one, its subtype. *)
Definition header_lines (i : nat) (entries : list (string * pyobj))
  : list string :=
  [nl +:+ "Message " +:+ pretty (i + 1)%nat +:+ ":";
   "  Type: " +:+ Py.str (default (PyStr "unknown") (Py.lookup "type" entries))]
  ++ match Py.lookup "subtype" entries with
     | Some subtype => ["  Subtype: " +:+ Py.str subtype]
     | None => []
     end.

(** The lines a record gets before its messages. *)
Definition record_lines (entries : list (string * pyobj)) (count : nat)
  : list string :=
  ["Tool Name: "
     +:+ Py.str (default (PyStr "Unknown") (Py.lookup "tool_name" entries));
   "Test Scenario: "
     +:+ Py.str (default (PyStr "Unknown") (Py.lookup "test_scenario" entries));
   "Success: "
     +:+ Py.str (default (PyBool false) (Py.lookup "success" entries))]
  ++ (if Py.truthy (default PyNone (Py.lookup "stderr" entries))
      then ["Stderr: "
              +:+ Py.str (default PyNone (Py.lookup "stderr" entries))]
      else [])
  ++ [nl +:+ "Number of messages: " +:+ pretty count].

(** Has a pattern no wildcard? *)
Fixpoint literal (pattern : string) : bool :=
  match pattern with
  | EmptyString => true
  | String p pattern' =>
      negb (Ascii.eqb p "*"%char) && negb (Ascii.eqb p "?"%char)
      && literal pattern'
  end.

(** The record a test method archives for a prompt, and the value it
    returns: both read off the result of [run_claude_command]. *)
Definition archived_record `{Platform} (tool_name test_scenario prompt : string)
  : pyobj :=
  match SDKToolTester.run_claude_command prompt None
        ≫= SDKToolTester.schema_data tool_name test_scenario with
  | Return record => record
  | Raise _ => PyNone
  end.

Definition passed `{Platform} (prompt : string) : pyobj :=
  match SDKToolTester.run_claude_command prompt None
        ≫= (fun result => Py.getitem result "success") with
  | Return success => success
  | Raise _ => PyNone
  end.

Section ClosedForms.
Context {platform : Platform} {environment : TestSDKTools.Environment}.
Import TestSDKTools.

(** The four values [run_all_tests] collects. *)
Definition outcomes : list (string * pyobj) :=
  [("edit", passed edit_prompt);
   ("write", passed (write_prompt new_file));
   ("multiedit", passed multiedit_prompt);
   ("notebook_edit", passed notebook_prompt)].

(** The schema files after [run_all_tests]. *)
Definition schemas_after (files : gmap string string) : gmap string string :=
  <["notebook_edit_tool_schema.json" :=
      json_dumps (archived_record "NotebookEdit"
                    "Add markdown cell to notebook" notebook_prompt)]>
  (<["multiedit_tool_schema.json" :=
       json_dumps (archived_record "MultiEdit"
                     "Add docstrings to multiple functions" multiedit_prompt)]>
   (<["write_tool_schema.json" :=
        json_dumps (archived_record "Write"
                      "Create new JavaScript React component file"
                      (write_prompt new_file))]>
    (<["edit_tool_schema.json" :=
         json_dumps (archived_record "Edit" "Add docstring to function"
                       edit_prompt)]> files))).

(** The test files after [run_all_tests]. *)
Definition test_files_after (files : gmap string string) : gmap string string :=
  <["notebook_test.ipynb" := json_dumps_compact notebook_content]>
  (<["multiedit_test.py" := multiedit_test_text]>
   (<["edit_test.py" := edit_test_text]> files)).

(** A test method archives its result: it returns the Boolean it wrote in
    the [success] field of the record of five fields that it saved under
    [key], and it leaves every other schema file as it was. *)
Definition archives_its_result (test : method pyobj)
  (key tool_name test_scenario : string) : Prop :=
  forall self,
  exists success messages err,
    result (test self).2 = Return (PyBool success) /\
    schemas_files (test self).1 !! SDKToolTester.schema_filename key
    = Some (json_dumps
              (PyDict [("tool_name", PyStr tool_name);
                       ("test_scenario", PyStr test_scenario);
                       ("success", PyBool success);
                       ("messages", PyList messages);
                       ("stderr", PyStr err)])) /\
    forall name,
      name <> SDKToolTester.schema_filename key ->
      schemas_files (test self).1 !! name = schemas_files self !! name.

(** The record archived for a scenario whose program could not be run. *)
Definition failure_record (tool_name test_scenario : string) : pyobj :=
  PyDict [("tool_name", PyStr tool_name);
          ("test_scenario", PyStr test_scenario);
          ("success", PyBool false);
          ("messages", PyList []);
          ("stderr", PyStr EmptyString)].

(** The names of the four schema files of the script. *)
Definition schema_names : list string :=
  ["edit_tool_schema.json"; "write_tool_schema.json";
   "multiedit_tool_schema.json"; "notebook_edit_tool_schema.json"].

(** The prompts of the four scenarios, in the order they are run. *)
Definition prompts : list string :=
  [edit_prompt; write_prompt new_file; multiedit_prompt; notebook_prompt].

(** The lines [run_all_tests] prints before the summary. *)
Definition progress_lines : list string :=
  ["Starting Claude Code SDK tool testing...";
   "Working directory: " +:+ getcwd;
   "Schemas will be saved to: " +:+ schemas_absolute;
   "Testing Edit tool...";
   "Saved edit_tool schema to schemas/edit_tool_schema.json";
   "Testing Write tool...";
   "Saved write_tool schema to schemas/write_tool_schema.json";
   "Testing MultiEdit tool...";
   "Saved multiedit_tool schema to schemas/multiedit_tool_schema.json";
   "Testing NotebookEdit tool...";
   "Saved notebook_edit_tool schema to schemas/notebook_edit_tool_schema.json";
   nl +:+ Text.times "=" 50;
   "Test Results Summary:"].

End ClosedForms.

(** The names of the four schema files with the tool name archived in
    each and the Boolean its test method returned. *)
Definition report_rows (edit write multiedit notebook_edit : bool)
  : list (string * string * bool) :=
  [("edit_tool_schema.json", "Edit", edit);
   ("write_tool_schema.json", "Write", write);
   ("multiedit_tool_schema.json", "MultiEdit", multiedit);
   ("notebook_edit_tool_schema.json", "NotebookEdit", notebook_edit)].

(** [json.dumps(v)] of the executable codec: one line, [", "] between
    items and [": "] after a key. *)
Fixpoint dumps_compact (v : pyobj) : string :=
  match v with
  | PyList l => "[" +:+ Text.join ", " (map dumps_compact l) +:+ "]"
  | PyDict d =>
      "{" +:+ Text.join ", "
                (map (fun kv => PyJson.encode_str kv.1 +:+ ": "
                                +:+ dumps_compact kv.2) d)
          +:+ "}"
  | _ => PyJson.encode 0 v
  end.

(** Surroundings and a disk for sample runs: a working directory, a
    fixed identifier, the executable codec, and no directory yet. *)
Definition sample_environment : TestSDKTools.Environment :=
  {| TestSDKTools.getcwd := "/work";
     TestSDKTools.uuid4_hex := "0123456789abcdef0123456789abcdef";
     TestSDKTools.json_dumps_compact := dumps_compact |}.

Definition empty_disk : TestSDKTools.filesystem :=
  {| TestSDKTools.schemas_dir := None; TestSDKTools.test_files_dir := None |}.

(** The external program of the first scenario of the specification. *)
Definition sample_program (cmd : list string) : CompletedProcess :=
  {| returncode := 0; stdout := two_messages; stderr := EmptyString |}.

Definition sample_platform : Platform :=
  cpython (fun cmd => Return (sample_program cmd)).



(** The arguments of a plain run of the script. *)
Definition plain_argv : list string := ["test_sdk_tools.py"].

(** A disk whose schemas directory holds one file that is not a schema,
    and one whose only file is no JSON document. *)
Definition notes_disk : TestSDKTools.filesystem :=
  {| TestSDKTools.schemas_dir := Some {["notes.txt" := "keep"]};
     TestSDKTools.test_files_dir := None |}.

Definition malformed_schemas : gmap string string :=
  {["bad_schema.json" := "not json"]}.

(** Messages of the types the reporter gives a preview or nothing. *)
Definition assistant_message : pyobj :=
  PyDict [("type", PyStr "assistant");
          ("message", PyDict [("content", PyList [PyStr "Done."])])].

Definition user_message : pyobj :=
  PyDict [("type", PyStr "user")].

(** A [result] message whose text has 300 characters. *)
Definition long_result_message : pyobj :=
  PyDict [("type", PyStr "result"); ("result", PyStr (Text.times "ab" 150))].

(** [json.loads] with the limit Python puts on the digits of an integer
    literal, as far as a line that is one such literal goes: more than
    4300 digits raise [ValueError]. *)
Definition int_max_str_digits : nat := 4300.

Definition loads_with_digit_limit (s : string) : outcome pyobj :=
  if all_digits s && negb (Text.startswith "0" s)
     && (int_max_str_digits <? String.length s)%nat
  then Raise (Exn (OtherException "ValueError")
                ("Exceeds the limit (4300 digits) for integer string "
                 +:+ "conversion: value has " +:+ pretty (String.length s)
                 +:+ " digits; use sys.set_int_max_str_digits() "
                 +:+ "to increase the limit"))
  else PyJson.loads s.

(** The library with that limit, and an external program that exits with
    status 0 after writing one line of 4301 digits. *)
Definition many_digits : string := Text.times "1" 4301.

Definition digit_limited : Platform :=
  {| json_loads := loads_with_digit_limit;
     json_dumps := PyJson.dumps;
     subprocess_run := exits_with 0 many_digits EmptyString;
     write_elsewhere := fresh_disk |}.

(* ===================================================================== *)
(** * The capture runner *)
(* ===================================================================== *)

Section RunnerFacts.
Context {platform : Platform}.
Import SDKToolTester Spec.

Lemma truthy_strip_blank line :
  Py.truthy (PyStr (Text.strip line)) = false <-> Text.strip line = EmptyString.
Proof. simpl. destruct (Text.strip line); split; congruence. Qed.

(** The loop appends, to what it was given, the values of the lines that
    are not blank and that decode; the other lines leave no mark. *)
Lemma parse_stream_json_appends (lines : list string) :
  (forall line e, line ∈ lines ->
                  json_loads line = Raise e -> is_JSONDecodeError e = true) ->
  forall messages,
    parse_stream_json lines messages =
    Return (messages ++
            omap (fun line =>
                    if Py.truthy (PyStr (Text.strip line))
                    then decode_line line else None) lines).
Proof.
  induction lines as [|line rest IH]; intros Hraise messages.
  - simpl. by rewrite app_nil_r.
  - assert (Hrest : forall l e, l ∈ rest -> json_loads l = Raise e ->
                                is_JSONDecodeError e = true).
    { intros l e Hl. apply Hraise. by right. }
    cbn [parse_stream_json omap list_omap].
    destruct (Py.truthy (PyStr (Text.strip line))) eqn:Hblank.
    + unfold decode_line at 1.
      destruct (json_loads line) as [v|e] eqn:Hline.
      * rewrite IH by done. by rewrite <- app_assoc.
      * rewrite (Hraise line e) by (done || by left). by apply IH.
    + by apply IH.
Qed.

(** A blank line is skipped by the loop, and is no JSON document either:
    both filters keep the same lines. *)
Lemma skip_blank_is_decode (lines : list string) :
  rejects_blank_lines ->
  omap (fun line =>
          if Py.truthy (PyStr (Text.strip line))
          then decode_line line else None) lines
  = omap decode_line lines.
Proof.
  intros Hblank. induction lines as [|line rest IH]; [done|].
  cbn [omap list_omap]. rewrite IH.
  destruct (Py.truthy (PyStr (Text.strip line))) eqn:Hline; [done|].
  apply truthy_strip_blank in Hline. by rewrite (Hblank line Hline).
Qed.

Lemma length_omap_decode (lines : list string) :
  length (omap decode_line lines)
  = length (filter (fun line => is_Some (decode_line line)) lines).
Proof.
  induction lines as [|line rest IH]; [done|].
  cbn [omap list_omap]. rewrite filter_cons.
  destruct (decode_line line) as [v|] eqn:Hline.
  - rewrite decide_True by eauto. simpl. by rewrite IH.
  - rewrite decide_False by (by intros [? ?]). done.
Qed.

(** What [run_claude_command] returns when the program ran to its end and
    decoding raised nothing but [JSONDecodeError]. *)
Lemma run_claude_command_completed prompt additional_args p :
  subprocess_run (command prompt additional_args) = Return p ->
  raises_only_JSONDecodeError (Text.strip (stdout p)) ->
  run_claude_command prompt additional_args =
  Return (PyDict
    [("success", PyBool (returncode p =? 0));
     ("messages",
      PyList (omap (fun line =>
                      if Py.truthy (PyStr (Text.strip line))
                      then decode_line line else None)
                (Text.split Text.newline (Text.strip (stdout p)))));
     ("stderr", PyStr (stderr p))]).
Proof.
  intros Hrun Hraise.
  unfold run_claude_command, run_and_parse.
  rewrite Hrun. cbn [mbind outcome_mbind obind].
  rewrite parse_stream_json_appends by exact Hraise.
  reflexivity.
Qed.

(** What [run_claude_command] returns when its [try] block raised. *)
Lemma run_claude_command_raised prompt additional_args e :
  run_and_parse (command prompt additional_args) = Raise e ->
  run_claude_command prompt additional_args =
  Return (PyDict [("success", PyBool false);
                  ("error", PyStr (exn_str e));
                  ("messages", PyList [])]).
Proof. intros Hbody. unfold run_claude_command. by rewrite Hbody. Qed.

Lemma run_and_parse_launch_failure cmd e :
  subprocess_run cmd = Raise e -> run_and_parse cmd = Raise e.
Proof. intros Hrun. unfold run_and_parse. by rewrite Hrun. Qed.

(** C1 (as amended): when the program ran to its end, [messages] is the
    ordered sequence of the values decoded from the valid JSON lines of the
    standard output once the output as a whole has lost its leading and
    trailing white space: blank lines and lines that fail to decode leave
    nothing, every valid line gives one value, in line order, and the
    length of [messages] is the count of valid lines. *)
Theorem messages_are_the_valid_lines_of_the_stripped_output
  prompt additional_args p :
  subprocess_run (command prompt additional_args) = Return p ->
  raises_only_JSONDecodeError (Text.strip (stdout p)) ->
  rejects_blank_lines ->
  exists r messages,
    run_claude_command prompt additional_args = Return (PyDict r) /\
    Py.lookup "messages" r = Some (PyList messages) /\
    messages = valid_json_messages (Text.strip (stdout p)) /\
    length messages = valid_json_line_count (Text.strip (stdout p)).
Proof.
  intros Hrun Hraise Hblank.
  eexists _, _. split; [by apply run_claude_command_completed|].
  split; [reflexivity|].
  rewrite skip_blank_is_decode by done.
  split; [done|]. apply length_omap_decode.
Qed.

(** The loop goes through a first line when that line is skipped,
    decodes, or raises [JSONDecodeError]. *)
Lemma loop_completes_cons line rest :
  (Text.strip line <> EmptyString ->
   forall e, json_loads line = Raise e -> is_JSONDecodeError e = true) ->
  loop_completes rest -> loop_completes (line :: rest).
Proof.
  intros Hline Hrest l e [->|Hl]%elem_of_cons Hstrip Hraise.
  - by apply Hline.
  - by apply (Hrest l).
Qed.

Lemma loop_raises_cons line rest e :
  (Text.strip line <> EmptyString ->
   forall e', json_loads line = Raise e' -> is_JSONDecodeError e' = true) ->
  loop_raises rest e -> loop_raises (line :: rest) e.
Proof.
  intros Hline (before & l & after & -> & Hbefore & Hl).
  exists (line :: before), l, after. split; [done|].
  split; [by apply loop_completes_cons|done].
Qed.

(** The loop either goes to its end and returns the messages, or is left
    by the first exception that is no [JSONDecodeError]. *)
Lemma parse_stream_json_cases (lines : list string) :
  forall messages,
    (loop_completes lines /\
     exists all, parse_stream_json lines messages = Return all) \/
    (exists e, loop_raises lines e /\
               parse_stream_json lines messages = Raise e).
Proof.
  induction lines as [|line rest IH]; intros messages.
  - left. split; [by intros l e ?%elem_of_nil|by eexists].
  - cbn [parse_stream_json].
    destruct (Py.truthy (PyStr (Text.strip line))) eqn:Hblank.
    + destruct (json_loads line) as [v|e] eqn:Hline.
      * assert (Text.strip line <> EmptyString ->
                forall e', json_loads line = Raise e' ->
                           is_JSONDecodeError e' = true) as Hfine
          by (intros _ e'; by rewrite Hline).
        destruct (IH (messages ++ [v])) as [[Hrest Hall]|(e & Hrest & Hall)].
        -- left. split; [by apply loop_completes_cons|done].
        -- right. exists e. split; [by apply loop_raises_cons|done].
      * destruct (is_JSONDecodeError e) eqn:Hclass.
        -- assert (Text.strip line <> EmptyString ->
                   forall e', json_loads line = Raise e' ->
                              is_JSONDecodeError e' = true) as Hfine.
           { intros _ e'. rewrite Hline. by intros [= <-]. }
           destruct (IH messages) as [[Hrest Hall]|(e' & Hrest & Hall)].
           ++ left. split; [by apply loop_completes_cons|done].
           ++ right. exists e'. split; [by apply loop_raises_cons|done].
        -- right. exists e. split; [|done].
           exists [], line, rest. split; [done|].
           split; [by intros l e' ?%elem_of_nil|].
           split; [|done]. intros Hstrip.
           apply truthy_strip_blank in Hstrip. congruence.
    + apply truthy_strip_blank in Hblank.
      assert (Text.strip line <> EmptyString ->
              forall e', json_loads line = Raise e' ->
                         is_JSONDecodeError e' = true) as Hfine by done.
      destruct (IH messages) as [[Hrest Hall]|(e' & Hrest & Hall)].
      * left. split; [by apply loop_completes_cons|done].
      * right. exists e'. split; [by apply loop_raises_cons|done].
Qed.

Lemma loop_raises_not_completes lines e :
  loop_raises lines e -> ~ loop_completes lines.
Proof.
  intros (before & line & after & -> & _ & Hstrip & Hraise & Hclass) Hall.
  rewrite (Hall line e) in Hclass; [done| |done|done].
  apply elem_of_app. right. by left.
Qed.

(** The exception that leaves the loop is the one of the first line that
    raises something else than [JSONDecodeError]. *)
Lemma loop_raises_unique lines e e' :
  loop_raises lines e -> loop_raises lines e' -> e = e'.
Proof.
  intros (b & l & a & -> & Hb & Hs & Hr & Hc)
         (b' & l' & a' & Hl' & Hb' & Hs' & Hr' & Hc').
  revert b' Hl' Hb'. induction b as [|x b IH]; intros [|x' b'] Hl' Hb'.
  - injection Hl' as Hl _. subst l'. congruence.
  - injection Hl' as Hl _. subst x'.
    rewrite (Hb' l e) in Hc; [done|by left|done|done].
  - injection Hl' as Hl _. subst x.
    rewrite (Hb l' e') in Hc'; [done|by left|done|done].
  - injection Hl' as Hx Hl'. subst x'.
    apply (IH (fun y e0 Hy => Hb y e0 (list_elem_of_further _ _ _ Hy))
              b' Hl'
              (fun y e0 Hy => Hb' y e0 (list_elem_of_further _ _ _ Hy))).
Qed.

(** What [run_claude_command] returns when the loop is left by an
    exception. *)
Lemma run_claude_command_loop_raised prompt additional_args p e :
  subprocess_run (command prompt additional_args) = Return p ->
  loop_raises (Text.split Text.newline (Text.strip (stdout p))) e ->
  run_claude_command prompt additional_args =
  Return (PyDict [("success", PyBool false);
                  ("error", PyStr (exn_str e));
                  ("messages", PyList [])]).
Proof.
  intros Hrun Hloop. apply run_claude_command_raised.
  unfold run_and_parse. rewrite Hrun. cbn [mbind outcome_mbind obind].
  destruct (parse_stream_json_cases
              (Text.split Text.newline (Text.strip (stdout p))) [])
    as [[Hall _]|(e' & Hloop' & ->)].
  - by destruct (loop_raises_not_completes _ _ Hloop).
  - cbn. by rewrite (loop_raises_unique _ _ _ Hloop Hloop').
Qed.

(** What [run_claude_command] returns when the program ran to its end and
    the loop went to its end. *)
Lemma run_claude_command_loop_completed prompt additional_args p :
  subprocess_run (command prompt additional_args) = Return p ->
  loop_completes (Text.split Text.newline (Text.strip (stdout p))) ->
  exists messages,
    run_claude_command prompt additional_args =
    Return (PyDict [("success", PyBool (returncode p =? 0));
                    ("messages", PyList messages);
                    ("stderr", PyStr (stderr p))]).
Proof.
  intros Hrun Hloop. unfold run_claude_command, run_and_parse.
  rewrite Hrun. cbn [mbind outcome_mbind obind].
  destruct (parse_stream_json_cases
              (Text.split Text.newline (Text.strip (stdout p))) [])
    as [[_ [all ->]]|(e & Hraises & _)].
  - by exists all.
  - by destruct (loop_raises_not_completes _ _ Hraises).
Qed.

(** C2 (as amended): when the program ran to its end, [success] is true
    exactly when the exit status is zero and the loop over the lines went
    to its end, that is, when [json.loads] raised nothing but
    [JSONDecodeError] on the lines it was given.  A line that raises
    [JSONDecodeError] is skipped and does not touch [success]; a line
    that raises anything else makes [success] false, whatever the exit
    status. *)
Theorem success_iff_exit_status_zero_and_loop_completes
  prompt additional_args p :
  subprocess_run (command prompt additional_args) = Return p ->
  let lines := Text.split Text.newline (Text.strip (stdout p)) in
  exists r success,
    run_claude_command prompt additional_args = Return (PyDict r) /\
    Py.lookup "success" r = Some (PyBool success) /\
    (success = true <-> returncode p = 0 /\ loop_completes lines) /\
    (loop_completes lines -> (success = true <-> returncode p = 0)) /\
    (forall e, loop_raises lines e -> success = false).
Proof.
  intros Hrun lines.
  destruct (parse_stream_json_cases lines [])
    as [[Hall _]|(e & Hraises & _)].
  - destruct (run_claude_command_loop_completed _ _ _ Hrun Hall)
      as [messages ->].
    eexists _, _. split; [reflexivity|]. split; [reflexivity|].
    split; [|split].
    + rewrite Z.eqb_eq. tauto.
    + intros _. apply Z.eqb_eq.
    + intros e He. by destruct (loop_raises_not_completes _ _ He).
  - rewrite (run_claude_command_loop_raised _ _ _ _ Hrun Hraises).
    eexists _, _. split; [reflexivity|]. split; [reflexivity|].
    split; [|split].
    + split; [done|]. intros [_ Hall].
      by destruct (loop_raises_not_completes _ _ Hraises).
    + intros Hall. by destruct (loop_raises_not_completes _ _ Hraises).
    + done.
Qed.

(** C3: [run_claude_command] always returns, and when starting or running
    the program raised, or anything else in its [try] block did, it
    returns the failure result: [success] false, the text of the exception
    as [error], and no message. *)
Theorem run_claude_command_never_raises prompt additional_args :
  (exists r, run_claude_command prompt additional_args = Return r) /\
  (forall e,
      subprocess_run (command prompt additional_args) = Raise e \/
      run_and_parse (command prompt additional_args) = Raise e ->
      run_claude_command prompt additional_args =
      Return (PyDict [("success", PyBool false);
                      ("error", PyStr (exn_str e));
                      ("messages", PyList [])])).
Proof.
  split.
  - unfold run_claude_command.
    destruct (run_and_parse (command prompt additional_args)); simpl; eauto.
  - intros e [Hrun|Hbody]; apply run_claude_command_raised; [|done].
    by apply run_and_parse_launch_failure.
Qed.

(** C5 (as amended): when no exception is caught, that is, when the
    program ran to its end and the loop over the lines went to its end,
    the result has exactly the fields [success], [messages] and [stderr],
    and [stderr] holds the captured text.  When an exception is caught,
    raised by [subprocess.run] or in the loop, the result has exactly the
    fields [success], [error] and [messages], so no [stderr], and the
    record built from it for the archive gets the empty text as its
    [stderr].  Every result is of one of these two kinds. *)
Theorem stderr_field_of_the_result prompt additional_args :
  let cmd := command prompt additional_args in
  let lines p := Text.split Text.newline (Text.strip (stdout p)) in
  (forall p,
      subprocess_run cmd = Return p -> loop_completes (lines p) ->
      exists messages,
        run_claude_command prompt additional_args
        = Return (PyDict [("success", PyBool (returncode p =? 0));
                          ("messages", PyList messages);
                          ("stderr", PyStr (stderr p))])) /\
  (forall e,
      subprocess_run cmd = Raise e \/
      (exists p, subprocess_run cmd = Return p /\ loop_raises (lines p) e) ->
      exists r,
        run_claude_command prompt additional_args = Return (PyDict r) /\
        r = [("success", PyBool false);
             ("error", PyStr (exn_str e));
             ("messages", PyList [])] /\
        Py.lookup "stderr" r = None /\
        forall tool_name test_scenario,
          schema_data tool_name test_scenario (PyDict r)
          = Return (PyDict [("tool_name", PyStr tool_name);
                            ("test_scenario", PyStr test_scenario);
                            ("success", PyBool false);
                            ("messages", PyList []);
                            ("stderr", PyStr EmptyString)])) /\
  ((exists p, subprocess_run cmd = Return p /\ loop_completes (lines p)) \/
   (exists e,
       subprocess_run cmd = Raise e \/
       exists p, subprocess_run cmd = Return p /\ loop_raises (lines p) e)).
Proof.
  intros cmd lines. split; [|split].
  - intros p Hrun Hloop. by apply run_claude_command_loop_completed.
  - intros e Hcaught.
    assert (run_claude_command prompt additional_args
            = Return (PyDict [("success", PyBool false);
                              ("error", PyStr (exn_str e));
                              ("messages", PyList [])])) as ->.
    { destruct Hcaught as [Hrun|(p & Hrun & Hloop)].
      - by apply run_claude_command_raised, run_and_parse_launch_failure.
      - by apply (run_claude_command_loop_raised _ _ p). }
    eexists. split; [reflexivity|]. split; [reflexivity|].
    split; [reflexivity|]. intros. reflexivity.
  - destruct (subprocess_run cmd) as [p|e] eqn:Hrun.
    + destruct (parse_stream_json_cases (lines p) [])
        as [[Hall _]|(e & Hraises & _)].
      * left. by exists p.
      * right. exists e. right. by exists p.
    + right. exists e. by left.
Qed.

End RunnerFacts.


(* ===================================================================== *)
(** * The executable codec meets the assumptions *)
(* ===================================================================== *)

Section PyJsonFacts.
Import Spec.

Lemma rstrip_empty_isblank s : Text.rstrip s = EmptyString -> Text.isblank s = true.
Proof.
  induction s as [|c s IH]; [done|]. simpl.
  destruct (Text.rstrip s); [|done].
  destruct (Text.isspace c); [|done]. intros _. by rewrite IH.
Qed.

Lemma lstrip_isblank s : Text.isblank (Text.lstrip s) = true -> Text.isblank s = true.
Proof.
  induction s as [|c s IH]; [done|]. simpl.
  destruct (Text.isspace c) eqn:Hc; [done|]. simpl. by rewrite Hc.
Qed.

Lemma strip_empty_isblank s : Text.strip s = EmptyString -> Text.isblank s = true.
Proof. intros Hs. by apply lstrip_isblank, rstrip_empty_isblank. Qed.

(** White space that JSON does not know starts no JSON value. *)
Lemma scan_value_foreign_space fuel c s :
  Text.isspace c = true -> PyJson.is_ws c = false ->
  PyJson.scan_value fuel (String c s) = None.
Proof.
  destruct fuel as [|fuel]; [done|].
  destruct c as [[] [] [] [] [] [] [] []]; try discriminate; reflexivity.
Qed.

Lemma scan_value_blank fuel s :
  Text.isblank s = true -> PyJson.scan_value fuel (PyJson.skip_ws s) = None.
Proof.
  induction s as [|c s IH]; simpl.
  - by destruct fuel.
  - destruct (Text.isspace c) eqn:Hc; [|done]. simpl. intros Hs.
    destruct (PyJson.is_ws c) eqn:Hw; [by apply IH|].
    by apply scan_value_foreign_space.
Qed.

Lemma pyjson_raises_only_JSONDecodeError s e :
  PyJson.loads s = Raise e -> is_JSONDecodeError e = true.
Proof.
  unfold PyJson.loads.
  destruct (PyJson.scan_value _ _) as [[v rest]|].
  - destruct (PyJson.skip_ws rest); [done|]. by intros [= <-].
  - by intros [= <-].
Qed.

Lemma cpython_raises_only_JSONDecodeError run text :
  raises_only_JSONDecodeError (platform := cpython run) text.
Proof. intros line e _. apply pyjson_raises_only_JSONDecodeError. Qed.

Lemma cpython_rejects_blank_lines run :
  rejects_blank_lines (platform := cpython run).
Proof.
  intros line Hline. unfold decode_line. simpl. unfold PyJson.loads.
  by rewrite scan_value_blank by by apply strip_empty_isblank.
Qed.

End PyJsonFacts.


(* ===================================================================== *)
(** * The executable codec round-trips *)
(* ===================================================================== *)

Section CodecFacts.

Lemma str_app_cons (c : ascii) (a b : string) :
  String c a +:+ b = String c (a +:+ b).
Proof. reflexivity. Qed.

Lemma str_app_empty_l (a : string) : EmptyString +:+ a = a.
Proof. reflexivity. Qed.

Lemma str_length_app (a b : string) :
  String.length (a +:+ b) = (String.length a + String.length b)%nat.
Proof.
  induction a as [|c a IH]; [done|]. rewrite str_app_cons. simpl. by rewrite IH.
Qed.

Lemma str_app_assoc (a b c : string) : (a +:+ b) +:+ c = a +:+ (b +:+ c).
Proof.
  induction a as [|x a IH]; [done|]. rewrite !str_app_cons. by rewrite IH.
Qed.

Lemma str_app_empty_r (a : string) : a +:+ EmptyString = a.
Proof.
  induction a as [|x a IH]; [done|]. rewrite str_app_cons. by rewrite IH.
Qed.

(** ** Integers *)

Lemma span_digits_app ds rest :
  all_digits ds = true -> delimited rest ->
  PyJson.span_digits (ds +:+ rest) = (ds, rest).
Proof.
  intros Hds Hrest. induction ds as [|c ds IH]; simpl in *.
  - destruct rest as [|c rest]; [done|].
    destruct Hrest as [-> | ->]; reflexivity.
  - apply andb_true_iff in Hds as [Hc Hds]. rewrite Hc, IH by done. done.
Qed.

Lemma digits_value_app acc ds1 ds2 :
  PyJson.digits_value acc (ds1 +:+ ds2)
  = PyJson.digits_value (PyJson.digits_value acc ds1) ds2.
Proof. revert acc. induction ds1 as [|c ds1 IH]; intros acc; simpl; [done|]. by rewrite IH. Qed.

Lemma all_digits_app ds1 ds2 :
  all_digits (ds1 +:+ ds2) = all_digits ds1 && all_digits ds2.
Proof. induction ds1 as [|c ds1 IH]; simpl; [done|]. by rewrite IH, andb_assoc. Qed.

Lemma pretty_N_char_digit x :
  (x < 10)%N ->
  PyJson.is_digit (pretty_N_char x) = true /\
  Z.of_nat (Text.code (pretty_N_char x) - 48) = Z.of_N x /\
  ((0 < x)%N -> pretty_N_char x <> "0"%char).
Proof.
  intros Hx.
  assert (x = 0 \/ x = 1 \/ x = 2 \/ x = 3 \/ x = 4 \/ x = 5
          \/ x = 6 \/ x = 7 \/ x = 8 \/ x = 9)%N as Hcases by lia.
  repeat (destruct Hcases as [-> | Hcases]); try subst x;
    (split; [reflexivity|split; [reflexivity|]]); intros; (lia || discriminate).
Qed.

(** The decimal digits of a positive number: no leading zero, and their
    value is the number. *)
Lemma pretty_N_go_digits x :
  (0 < x)%N ->
  exists c ds,
    (forall s, pretty_N_go x s = String c (ds +:+ s)) /\
    PyJson.is_digit c = true /\ c <> "0"%char /\ all_digits ds = true /\
    PyJson.digits_value 0 (String c ds) = Z.of_N x.
Proof.
  induction (N.lt_wf_0 x) as [x _ IH]; intros Hx.
  destruct (pretty_N_char_digit (x `mod` 10)) as (Hdigit & Hvalue & Hnz).
  { by apply N.mod_lt. }
  destruct (decide (x < 10)%N) as [Hsmall|Hbig].
  - exists (pretty_N_char (x `mod` 10)), EmptyString.
    assert (x `div` 10 = 0)%N as Hdiv by by apply N.div_small.
    assert (x `mod` 10 = x)%N as Hmod by by apply N.mod_small.
    split; [|split; [done|split; [|split; [done|]]]].
    + intros s. rewrite pretty_N_go_step by done. by rewrite Hdiv.
    + apply Hnz. lia.
    + simpl. rewrite Hvalue. lia.
  - destruct (IH (x `div` 10)%N) as (c & ds & Hgo & Hc & Hc0 & Hds & Hval).
    { apply N.div_lt; lia. }
    { apply N.div_str_pos; lia. }
    exists c, (ds +:+ String (pretty_N_char (x `mod` 10)) EmptyString).
    split; [|split; [done|split; [done|split]]].
    + intros s. rewrite pretty_N_go_step by done. rewrite Hgo.
      by rewrite str_app_assoc.
    + rewrite all_digits_app, Hds. simpl. by rewrite Hdigit.
    + change (String c (ds +:+ ?t)) with (String c ds +:+ t).
      rewrite digits_value_app, Hval. simpl. rewrite Hvalue.
      pose proof (N.div_mod x 10). lia.
Qed.

Lemma scan_int_digits c ds rest :
  PyJson.is_digit c = true -> c <> "0"%char -> all_digits ds = true ->
  delimited rest ->
  PyJson.scan_int (String c (ds +:+ rest)) = Some (String c ds, rest).
Proof.
  intros Hc Hc0 Hds Hrest. unfold PyJson.scan_int.
  destruct (Ascii.eqb_spec c "0"%char) as [->|_]; [done|].
  by rewrite Hc, span_digits_app.
Qed.

Lemma scan_frac_delimited rest :
  delimited rest -> PyJson.scan_frac rest = (EmptyString, rest).
Proof.
  destruct rest as [|c rest]; [done|]. by intros [-> | ->].
Qed.

Lemma scan_exp_delimited rest :
  delimited rest -> PyJson.scan_exp rest = (EmptyString, rest).
Proof.
  destruct rest as [|c rest]; [done|]. by intros [-> | ->].
Qed.

Lemma pretty_positive_digits p :
  exists c ds,
    (forall rest, pretty (Z.pos p) +:+ rest = String c (ds +:+ rest)) /\
    (forall rest, pretty (Z.neg p) +:+ rest
                  = String "-"%char (String c (ds +:+ rest))) /\
    PyJson.is_digit c = true /\ c <> "0"%char /\ all_digits ds = true /\
    PyJson.digits_value 0 (String c ds) = Z.pos p.
Proof.
  destruct (pretty_N_go_digits (N.pos p)) as (c & ds & Hgo & Hc & Hc0 & Hds & Hv);
    [lia|].
  exists c, ds.
  assert (pretty (N.pos p) = String c ds) as Hpretty.
  { unfold pretty, pretty_N. rewrite decide_False by done.
    by rewrite Hgo, str_app_empty_r. }
  unfold pretty, pretty_Z, pretty, pretty_positive. rewrite Hpretty.
  repeat split; try done.
Qed.

(** ** Strings *)

Lemma scan_string_escape_char c tail :
  PyJson.scan_string (PyJson.escape_char c +:+ tail)
  = match PyJson.scan_string tail with
    | Some (text, rest) => Some (String c text, rest)
    | None => None
    end.
Proof. destruct c as [[] [] [] [] [] [] [] []]; reflexivity. Qed.

Lemma scan_string_escape s rest :
  PyJson.scan_string (PyJson.escape s +:+ String Text.dquote rest)
  = Some (s, rest).
Proof.
  induction s as [|c s IH]; [done|].
  change (PyJson.escape (String c s))
    with (PyJson.escape_char c +:+ PyJson.escape s).
  by rewrite str_app_assoc, scan_string_escape_char, IH.
Qed.

Lemma encode_str_app s rest :
  PyJson.encode_str s +:+ rest
  = String Text.dquote (PyJson.escape s +:+ String Text.dquote rest).
Proof. unfold PyJson.encode_str. by rewrite str_app_cons, str_app_assoc. Qed.

Lemma scan_value_str fuel s rest :
  PyJson.scan_value (S fuel) (PyJson.encode_str s +:+ rest)
  = Some (PyStr s, rest).
Proof.
  rewrite encode_str_app. cbn [PyJson.scan_value].
  change (Ascii.eqb Text.dquote Text.dquote) with true. cbv iota.
  by rewrite scan_string_escape.
Qed.

(** ** Numbers *)

Lemma digit_not_minus c :
  PyJson.is_digit c = true -> Ascii.eqb c "-"%char = false.
Proof. destruct c as [[] [] [] [] [] [] [] []]; done. Qed.

Lemma scan_number_digits c ds rest :
  PyJson.is_digit c = true ->
  c <> "0"%char \/ ds = EmptyString ->
  all_digits ds = true -> delimited rest ->
  PyJson.scan_number (String c (ds +:+ rest))
  = Some (PyInt (PyJson.digits_value 0 (String c ds)), rest) /\
  PyJson.scan_number (String "-"%char (String c (ds +:+ rest)))
  = Some (PyInt (- PyJson.digits_value 0 (String c ds)), rest).
Proof.
  intros Hc Hzero Hds Hrest.
  assert (PyJson.scan_int (String c (ds +:+ rest)) = Some (String c ds, rest))
    as Hint.
  { destruct Hzero as [Hc0 | ->]; [by apply scan_int_digits|].
    unfold PyJson.scan_int. rewrite Hc.
    destruct (Ascii.eqb_spec c "0"%char) as [->|_]; [done|].
    pose proof (span_digits_app EmptyString rest eq_refl Hrest) as Hspan.
    rewrite str_app_empty_l in *. by rewrite Hspan. }
  unfold PyJson.scan_number.
  rewrite (digit_not_minus c Hc).
  change (Ascii.eqb "-"%char "-"%char) with true. cbv iota.
  rewrite Hint, scan_frac_delimited, scan_exp_delimited by done.
  done.
Qed.

Lemma scan_value_number fuel c s :
  PyJson.is_digit c = true \/ c = "-"%char ->
  forall r,
    PyJson.scan_number (String c s) = Some r ->
    PyJson.scan_value (S fuel) (String c s) = Some r.
Proof.
  intros Hc r Hr.
  assert (PyJson.scan_value (S fuel) (String c s)
          = match PyJson.scan_number (String c s) with
            | Some r => Some r
            | None =>
                if Text.startswith "NaN" (String c s) then
                  Some (PyFloat "nan", Text.drop 3 (String c s))
                else if Text.startswith "Infinity" (String c s) then
                  Some (PyFloat "inf", Text.drop 8 (String c s))
                else if Text.startswith "-Infinity" (String c s) then
                  Some (PyFloat "-inf", Text.drop 9 (String c s))
                else None
            end) as ->.
  { destruct Hc as [Hc | ->]; [|reflexivity].
    destruct c as [[] [] [] [] [] [] [] []]; try discriminate; reflexivity. }
  by rewrite Hr.
Qed.

Lemma scan_value_int fuel n rest :
  delimited rest ->
  PyJson.scan_value (S fuel) (pretty n +:+ rest) = Some (PyInt n, rest).
Proof.
  intros Hrest. destruct n as [|p|p].
  - apply scan_value_number; [by left|].
    by apply (scan_number_digits "0" EmptyString rest); auto.
  - destruct (pretty_positive_digits p) as (c & ds & Hpos & _ & Hc & Hc0 & Hds & Hv).
    rewrite Hpos. apply scan_value_number; [by left|].
    rewrite <- Hv. by apply scan_number_digits; auto.
  - destruct (pretty_positive_digits p) as (c & ds & _ & Hneg & Hc & Hc0 & Hds & Hv).
    rewrite Hneg. apply scan_value_number; [by right|].
    change (Z.neg p) with (- Z.pos p). rewrite <- Hv.
    by apply scan_number_digits; auto.
Qed.

Lemma skip_ws_head c s :
  PyJson.is_ws c = false -> PyJson.skip_ws (String c s) = String c s.
Proof. intros Hc. simpl. by rewrite Hc. Qed.

Lemma skip_ws_spaces n s :
  PyJson.skip_ws (Text.times " " n +:+ s) = PyJson.skip_ws s.
Proof. induction n as [|n IH]; [done|]. exact IH. Qed.

Lemma skip_ws_newline_indent level s :
  PyJson.skip_ws (PyJson.newline_indent level +:+ s) = PyJson.skip_ws s.
Proof.
  unfold PyJson.newline_indent. rewrite str_app_assoc.
  change (PyJson.skip_ws (nl +:+ ?t)) with (PyJson.skip_ws t).
  apply skip_ws_spaces.
Qed.

Lemma newline_indent_delimited level s :
  delimited (PyJson.newline_indent level +:+ s).
Proof. by right. Qed.

Lemma length_newline_indent level :
  (1 <= String.length (PyJson.newline_indent level))%nat.
Proof. unfold PyJson.newline_indent. rewrite str_length_app. simpl. lia. Qed.

Lemma digit_opens_value c : PyJson.is_digit c = true -> opens_value c.
Proof. destruct c as [[] [] [] [] [] [] [] []]; done. Qed.

Lemma encode_head level v :
  wf v = true -> exists c s, PyJson.encode level v = String c s /\ opens_value c.
Proof.
  destruct v as [|[]|[|p|p]|r|s|[|x l]|[|kv d]]; try done; intros _;
    try (by eexists _, _; split; [reflexivity|]).
  destruct (pretty_positive_digits p) as (c & ds & Hpos & _ & Hc & _).
  exists c, ds. split; [|by apply digit_opens_value].
  specialize (Hpos EmptyString). rewrite !str_app_empty_r in Hpos. exact Hpos.
Qed.

Lemma skip_ws_encode level v rest :
  wf v = true ->
  exists c s, PyJson.encode level v +:+ rest = String c s /\ opens_value c /\
              PyJson.skip_ws (PyJson.encode level v +:+ rest)
              = PyJson.encode level v +:+ rest.
Proof.
  intros Hv. destruct (encode_head level v Hv) as (c & s & -> & Hc).
  exists c, (s +:+ rest). rewrite str_app_cons. split; [done|]. split; [done|].
  apply skip_ws_head, Hc.
Qed.

Lemma length_item_separator level :
  (1 <= String.length (item_separator level))%nat.
Proof. unfold item_separator. rewrite str_length_app. simpl. lia. Qed.

Lemma join_cons_cons sep a b l :
  Text.join sep (a :: b :: l) = a +:+ sep +:+ Text.join sep (b :: l).
Proof. reflexivity. Qed.

Lemma skip_ws_join_items level x items tail :
  wf x = true ->
  PyJson.skip_ws
    (Text.join (item_separator level)
       (PyJson.encode (S level) x :: map (PyJson.encode (S level)) items)
     +:+ tail)
  = Text.join (item_separator level)
      (PyJson.encode (S level) x :: map (PyJson.encode (S level)) items)
    +:+ tail.
Proof.
  intros Hx. destruct items as [|y items].
  - cbn [map Text.join].
    by destruct (skip_ws_encode (S level) x tail Hx) as (_ & _ & _ & _ & ->).
  - cbn [map]. rewrite join_cons_cons, !str_app_assoc.
    match goal with
    | |- PyJson.skip_ws (_ +:+ ?t) = _ =>
        by destruct (skip_ws_encode (S level) x t Hx) as (_ & _ & _ & _ & ->)
    end.
Qed.

Lemma scan_items_encode level (items : list pyobj) :
  Forall (fun v => wf v = true /\ decodes v) items -> items <> [] ->
  forall acc rest fuel,
    (String.length (Text.join (item_separator level)
                      (map (PyJson.encode (S level)) items)) < fuel)%nat ->
    PyJson.scan_items fuel
      (Text.join (item_separator level) (map (PyJson.encode (S level)) items)
       +:+ PyJson.newline_indent level +:+ "]" +:+ rest) acc
    = Some (PyList (acc ++ items), rest).
Proof.
  induction items as [|x items IH]; [done|].
  intros [[Hwf Hx] Hitems]%Forall_cons _ acc rest [|fuel] Hfuel; [lia|].
  destruct items as [|y items].
  - cbn [map Text.join] in *. cbn [PyJson.scan_items].
    rewrite Hx by (lia || apply newline_indent_delimited).
    rewrite skip_ws_newline_indent.
    change ("]" +:+ rest) with (String "]"%char rest). reflexivity.
  - cbn [map] in *. rewrite join_cons_cons in *.
    rewrite !str_length_app in Hfuel.
    rewrite !str_app_assoc. unfold item_separator at 1.
    rewrite str_app_assoc.
    change ("," +:+ ?t) with (String ","%char t).
    cbn [PyJson.scan_items].
    rewrite Hx by (lia || by left).
    cbn [PyJson.skip_ws]. change (PyJson.is_ws ","%char) with false.
    cbv iota. change (Ascii.eqb ","%char "]"%char) with false.
    change (Ascii.eqb ","%char ","%char) with true. cbv iota.
    rewrite skip_ws_newline_indent.
    apply Forall_cons in Hitems as Hy. destruct Hy as [[Hwfy _] _].
    rewrite (skip_ws_join_items level y items) by done.
    pose proof (length_item_separator level).
    rewrite (IH Hitems) by (done || lia).
    by rewrite <- app_assoc.
Qed.

Lemma skip_ws_space s : PyJson.skip_ws (String " "%char s) = PyJson.skip_ws s.
Proof. reflexivity. Qed.

Lemma join_entries_head level kv d :
  exists s,
    Text.join (item_separator level)
      (encode_entry level kv :: map (encode_entry level) d)
    = String Text.dquote s.
Proof.
  destruct d as [|kv' d]; cbn [map]; [cbn [Text.join]|rewrite join_cons_cons];
    unfold encode_entry at 1; rewrite ?str_app_assoc, encode_str_app; eauto.
Qed.

Lemma skip_ws_join_entries level kv d tail :
  PyJson.skip_ws
    (Text.join (item_separator level)
       (encode_entry level kv :: map (encode_entry level) d) +:+ tail)
  = Text.join (item_separator level)
      (encode_entry level kv :: map (encode_entry level) d) +:+ tail.
Proof. by destruct (join_entries_head level kv d) as [s ->]. Qed.

Lemma store_fresh k v (entries : list (string * pyobj)) :
  k ∉ map fst entries -> Py.store k v entries = entries ++ [(k, v)].
Proof.
  induction entries as [|[k' v'] entries IH]; [done|].
  cbn [map fst Py.store]. intros [Hk Hentries]%not_elem_of_cons.
  rewrite (proj2 (String.eqb_neq k k')) by done. by rewrite IH.
Qed.

Lemma scan_members_encode level (d : list (string * pyobj)) :
  Forall (fun kv => wf (snd kv) = true /\ decodes (snd kv)) d -> d <> [] ->
  forall acc rest fuel,
    NoDup (map fst (acc ++ d)) ->
    (String.length (Text.join (item_separator level)
                      (map (encode_entry level) d)) < fuel)%nat ->
    PyJson.scan_members fuel
      (Text.join (item_separator level) (map (encode_entry level) d)
       +:+ PyJson.newline_indent level +:+ "}" +:+ rest) acc
    = Some (PyDict (acc ++ d), rest).
Proof.
  induction d as [|[k v] d IH]; [done|].
  intros [[Hwf Hv] Hd]%Forall_cons _ acc rest [|fuel] Hdup Hfuel; [lia|].
  assert (k ∉ map fst acc) as Hfresh.
  { rewrite map_app in Hdup. apply NoDup_app in Hdup as (_ & Hdup & _).
    intros Hk. apply (Hdup k Hk). by left. }
  assert (NoDup (map fst ((acc ++ [(k, v)]) ++ d))) as Hdup'.
  { by rewrite <- app_assoc. }
  simpl snd in *.
  destruct d as [|kv d].
  - cbn [map Text.join] in *. unfold encode_entry in *. simpl fst in *.
    simpl snd in *. rewrite !str_length_app in Hfuel.
    rewrite !str_app_assoc, encode_str_app.
    cbn [PyJson.scan_members].
    change (Ascii.eqb Text.dquote Text.dquote) with true. cbv iota.
    rewrite scan_string_escape.
    change (": " +:+ ?t) with (String ":"%char (String " "%char t)).
    cbn [PyJson.skip_ws]. change (PyJson.is_ws ":"%char) with false.
    cbv iota. change (Ascii.eqb ":"%char ":"%char) with true. cbv iota.
    rewrite skip_ws_space.
    destruct (skip_ws_encode (S level) v
                (PyJson.newline_indent level +:+ "}" +:+ rest) Hwf)
      as (_ & _ & _ & _ & ->).
    rewrite Hv by (lia || apply newline_indent_delimited).
    rewrite skip_ws_newline_indent.
    change ("}" +:+ rest) with (String "}"%char rest).
    cbn [PyJson.skip_ws]. change (PyJson.is_ws "}"%char) with false.
    cbv iota. change (Ascii.eqb "}"%char "}"%char) with true. cbv iota.
    by rewrite store_fresh.
  - cbn [map] in *. rewrite join_cons_cons in *.
    unfold encode_entry at 1. unfold encode_entry at 1 in Hfuel.
    simpl fst in *. simpl snd in *.
    rewrite !str_length_app in Hfuel.
    rewrite !str_app_assoc, encode_str_app.
    cbn [PyJson.scan_members].
    change (Ascii.eqb Text.dquote Text.dquote) with true. cbv iota.
    rewrite scan_string_escape.
    change (": " +:+ ?t) with (String ":"%char (String " "%char t)).
    cbn [PyJson.skip_ws]. change (PyJson.is_ws ":"%char) with false.
    cbv iota. change (Ascii.eqb ":"%char ":"%char) with true. cbv iota.
    rewrite skip_ws_space.
    unfold item_separator at 1. rewrite str_app_assoc.
    change ("," +:+ ?t) with (String ","%char t).
    match goal with
    | |- context [PyJson.skip_ws (PyJson.encode (S level) v +:+ ?t)] =>
        destruct (skip_ws_encode (S level) v t Hwf) as (_ & _ & _ & _ & ->)
    end.
    rewrite Hv by (lia || by left).
    cbn [PyJson.skip_ws]. change (PyJson.is_ws ","%char) with false.
    cbv iota. change (Ascii.eqb ","%char "}"%char) with false.
    change (Ascii.eqb ","%char ","%char) with true. cbv iota.
    rewrite skip_ws_newline_indent, store_fresh by done.
    apply Forall_cons in Hd as Hkv. destruct Hkv as [[Hwfkv _] _].
    rewrite skip_ws_join_entries.
    pose proof (length_item_separator level).
    rewrite (IH Hd) by (done || lia).
    by rewrite <- app_assoc.
Qed.

Lemma forallb_Forall_true {A} (f : A -> bool) (l : list A) :
  forallb f l = true -> Forall (fun x => f x = true) l.
Proof.
  intros Hl. apply Forall_forall. intros x Hx.
  by apply (proj1 (forallb_forall f l) Hl), list_elem_of_In.
Qed.

Lemma wf_list l : wf (PyList l) = true -> Forall (fun v => wf v = true) l.
Proof. apply forallb_Forall_true. Qed.

Lemma wf_dict d :
  wf (PyDict d) = true ->
  NoDup (map fst d) /\ Forall (fun kv => wf (snd kv) = true) d.
Proof.
  cbn [wf]. intros [Hdup Hd]%andb_true_iff.
  split; [by apply bool_decide_eq_true_1 in Hdup|].
  by apply (forallb_Forall_true (fun kv => wf (snd kv))).
Qed.

Lemma join_items_head level x l :
  wf x = true ->
  exists c s,
    Text.join (item_separator level)
      (PyJson.encode (S level) x :: map (PyJson.encode (S level)) l)
    = String c s /\ opens_value c.
Proof.
  intros Hx. destruct (encode_head (S level) x Hx) as (c & s & Hs & Hc).
  destruct l as [|y l]; cbn [map]; [cbn [Text.join]|rewrite join_cons_cons];
    rewrite Hs, ?str_app_cons; eauto.
Qed.

(** Scanning the text written for a value gives the value back. *)
Lemma scan_value_encode v : wf v = true -> decodes v.
Proof.
  induction v as [|b|n|r|s|l IH|d IH] using pyobj_nested_ind; intros Hwf.
  - intros level rest [|fuel] Hfuel Hrest; [simpl in Hfuel; lia|]. reflexivity.
  - intros level rest [|fuel] Hfuel Hrest;
      [destruct b; simpl in Hfuel; lia|]. by destruct b.
  - intros level rest [|fuel] Hfuel Hrest.
    + destruct (encode_head level (PyInt n) eq_refl) as (c & s & Hs & _).
      rewrite Hs in Hfuel. simpl in Hfuel. lia.
    + by apply scan_value_int.
  - discriminate.
  - intros level rest [|fuel] Hfuel Hrest; [simpl in Hfuel; lia|].
    apply scan_value_str.
  - apply wf_list in Hwf.
    assert (Forall (fun v => wf v = true /\ decodes v) l) as Hitems.
    { apply Forall_forall. intros x Hx. split.
      - by eapply Forall_forall in Hwf.
      - eapply Forall_forall in IH; [apply IH|done].
        by eapply Forall_forall in Hwf. }
    intros level rest [|fuel] Hfuel Hrest.
    { destruct l; simpl in Hfuel; lia. }
    destruct l as [|x l]; [reflexivity|].
    change (PyJson.encode level (PyList (x :: l)))
      with ("[" +:+ PyJson.newline_indent (S level)
            +:+ Text.join (item_separator level)
                  (map (PyJson.encode (S level)) (x :: l))
            +:+ PyJson.newline_indent level +:+ "]") in *.
    rewrite !str_length_app in Hfuel.
    pose proof (length_newline_indent (S level)).
    change (String.length "[") with 1%nat in Hfuel.
    rewrite !str_app_assoc.
    change ("[" +:+ ?t) with (String "["%char t).
    cbn [PyJson.scan_value].
    change (Ascii.eqb "["%char Text.dquote) with false.
    change (Ascii.eqb "["%char "{"%char) with false.
    change (Ascii.eqb "["%char "["%char) with true. cbv iota.
    rewrite skip_ws_newline_indent.
    apply Forall_cons in Hitems as Hx. destruct Hx as [[Hwfx _] _].
    cbn [map] in *. rewrite (skip_ws_join_items level x l) by done.
    destruct (join_items_head level x l Hwfx) as (c & s & Hjoin & _ & Hc & _).
    rewrite Hjoin at 1. rewrite str_app_cons.
    rewrite (proj2 (Ascii.eqb_neq c "]"%char)) by done.
    rewrite <- str_app_cons, <- Hjoin.
    rewrite (scan_items_encode level (x :: l) Hitems)
      by (done || (cbn [map]; lia)).
    reflexivity.
  - apply wf_dict in Hwf as [Hdup Hwf].
    assert (Forall (fun kv => wf (snd kv) = true /\ decodes (snd kv)) d)
      as Hentries.
    { apply Forall_forall. intros kv Hkv. split.
      - by eapply Forall_forall in Hwf.
      - eapply Forall_forall in IH; [apply IH|done].
        by eapply Forall_forall in Hwf. }
    intros level rest [|fuel] Hfuel Hrest.
    { destruct d; simpl in Hfuel; lia. }
    destruct d as [|kv d]; [reflexivity|].
    change (PyJson.encode level (PyDict (kv :: d)))
      with ("{" +:+ PyJson.newline_indent (S level)
            +:+ Text.join (item_separator level)
                  (map (encode_entry level) (kv :: d))
            +:+ PyJson.newline_indent level +:+ "}") in *.
    rewrite !str_length_app in Hfuel.
    pose proof (length_newline_indent (S level)).
    change (String.length "{") with 1%nat in Hfuel.
    rewrite !str_app_assoc.
    change ("{" +:+ ?t) with (String "{"%char t).
    cbn [PyJson.scan_value].
    change (Ascii.eqb "{"%char Text.dquote) with false.
    change (Ascii.eqb "{"%char "{"%char) with true. cbv iota.
    rewrite skip_ws_newline_indent.
    cbn [map] in *. rewrite skip_ws_join_entries.
    destruct (join_entries_head level kv d) as (s & Hjoin).
    rewrite Hjoin at 1. rewrite str_app_cons.
    change (Ascii.eqb Text.dquote "}"%char) with false. cbv iota.
    rewrite <- str_app_cons, <- Hjoin.
    rewrite (scan_members_encode level (kv :: d) Hentries)
      by (done || (cbn [map]; lia)).
    reflexivity.
Qed.

(** [json.loads(json.dumps(v, indent=2)) == v] for the executable codec. *)
Lemma loads_dumps v : wf v = true -> PyJson.loads (PyJson.dumps v) = Return v.
Proof.
  intros Hwf. unfold PyJson.loads, PyJson.dumps.
  destruct (skip_ws_encode 0 v EmptyString Hwf) as (_ & _ & _ & _ & Hskip).
  rewrite str_app_empty_r in Hskip. rewrite Hskip.
  rewrite <- (str_app_empty_r (PyJson.encode 0 v)) at 2.
  rewrite (scan_value_encode v Hwf) by (done || lia). reflexivity.
Qed.

Lemma cpython_round_trips run v :
  wf v = true -> Spec.round_trips (platform := cpython run) v.
Proof. apply loads_dumps. Qed.

End CodecFacts.


(* ===================================================================== *)
(** * The capture runner on sample runs *)
(* ===================================================================== *)

Section RunnerSamples.
Import SDKToolTester Spec.

(** The first scenario of the specification: exit status 0 and two JSON
    lines give [success] and both messages, in order. *)
Example scenario_two_messages :
  run_claude_command (platform := cpython (exits_with 0 two_messages EmptyString))
    "prompt" None
  = Return (PyDict
      [("success", PyBool true);
       ("messages",
        PyList [init_message;
                PyDict [("type", PyStr "result"); ("is_error", PyBool false);
                        ("num_turns", PyInt 2)]]);
       ("stderr", PyStr EmptyString)]).
Proof. vm_compute. reflexivity. Qed.

(** The second scenario: exit status 1, one malformed and one valid line. *)
Example scenario_malformed_line :
  run_claude_command
    (platform := cpython (exits_with 1 malformed_then_valid EmptyString))
    "prompt" None
  = Return (PyDict
      [("success", PyBool false);
       ("messages", PyList [result_message]);
       ("stderr", PyStr EmptyString)]).
Proof. vm_compute. reflexivity. Qed.

(** C1, counterexample: the output is the one line "form feed, 1", which
    is no JSON document, yet [messages] holds the value 1: stripping the
    whole output removed the form feed before the line was decoded. *)
Lemma form_feed_line_yields_a_message :
  let platform := cpython (exits_with 0 form_feed_one EmptyString) in
  exists r messages,
    run_claude_command "prompt" None = Return (PyDict r) /\
    Py.lookup "messages" r = Some (PyList messages) /\
    messages = [PyInt 1] /\
    valid_json_messages form_feed_one = [] /\
    messages <> valid_json_messages form_feed_one /\
    length messages <> valid_json_line_count form_feed_one.
Proof.
  eexists _, _. split; [vm_compute; reflexivity|].
  split; [reflexivity|]. split; [reflexivity|].
  split; [vm_compute; reflexivity|].
  split; [vm_compute; discriminate|vm_compute; discriminate].
Qed.

Lemma messages_are_the_valid_lines_of_the_stripped_output_witness :
  let platform := cpython (exits_with 0 two_messages EmptyString) in
  exists r messages,
    run_claude_command "prompt" None = Return (PyDict r) /\
    Py.lookup "messages" r = Some (PyList messages) /\
    messages = valid_json_messages (Text.strip two_messages) /\
    length messages = valid_json_line_count (Text.strip two_messages).
Proof.
  apply (messages_are_the_valid_lines_of_the_stripped_output
           (platform := cpython (exits_with 0 two_messages EmptyString))
           "prompt" None
           {| returncode := 0; stdout := two_messages; stderr := EmptyString |}).
  - reflexivity.
  - apply cpython_raises_only_JSONDecodeError.
  - apply cpython_rejects_blank_lines.
Defined.

Lemma cpython_loop_completes run lines :
  loop_completes (platform := cpython run) lines.
Proof. intros line e _ _. apply pyjson_raises_only_JSONDecodeError. Qed.

(** C2, counterexample: the program exits with status 0 after writing one
    line of 4301 digits; [json.loads] raises [ValueError] on that line,
    the handler of [run_claude_command] catches it, and [success] is
    false. *)
Lemma other_exception_makes_success_false :
  let platform := digit_limited in
  (exists p,
      subprocess_run (command "prompt" None) = Return p /\
      returncode p = 0 /\
      json_loads (stdout p)
      = Raise (Exn (OtherException "ValueError")
                 ("Exceeds the limit (4300 digits) for integer string "
                  +:+ "conversion: value has 4301 digits; "
                  +:+ "use sys.set_int_max_str_digits() "
                  +:+ "to increase the limit"))) /\
  exists r,
    run_claude_command "prompt" None = Return (PyDict r) /\
    Py.lookup "success" r = Some (PyBool false) /\
    Py.lookup "messages" r = Some (PyList []) /\
    map fst r = ["success"; "error"; "messages"].
Proof.
  split.
  - eexists. split; [reflexivity|]. split; [reflexivity|].
    vm_compute. reflexivity.
  - eexists. split; [vm_compute; reflexivity|]. by repeat split.
Qed.

Lemma success_iff_exit_status_zero_and_loop_completes_witness :
  let platform := cpython (exits_with 1 malformed_then_valid EmptyString) in
  let lines := Text.split Text.newline (Text.strip malformed_then_valid) in
  exists r success,
    run_claude_command "prompt" None = Return (PyDict r) /\
    Py.lookup "success" r = Some (PyBool success) /\
    (success = true <-> 1 = 0 /\ loop_completes lines) /\
    (loop_completes lines -> (success = true <-> 1 = 0)) /\
    (forall e, loop_raises lines e -> success = false).
Proof.
  apply (success_iff_exit_status_zero_and_loop_completes
           (platform := cpython (exits_with 1 malformed_then_valid EmptyString))
           "prompt" None
           {| returncode := 1; stdout := malformed_then_valid;
              stderr := EmptyString |}).
  reflexivity.
Defined.

Lemma run_claude_command_never_raises_witness :
  run_claude_command (platform := cpython missing_binary) "prompt" None
  = Return (PyDict
      [("success", PyBool false);
       ("error", PyStr "[Errno 2] No such file or directory: 'claude'");
       ("messages", PyList [])]).
Proof.
  apply (proj2 (run_claude_command_never_raises
                  (platform := cpython missing_binary) "prompt" None)
           (Exn FileNotFoundError
              "[Errno 2] No such file or directory: 'claude'")).
  left. reflexivity.
Defined.

(** C5, counterexample: the program cannot be started, and the result has
    no [stderr] field at all. *)
Lemma failure_result_has_no_stderr :
  let platform := cpython missing_binary in
  exists r,
    run_claude_command "prompt" None = Return (PyDict r) /\
    Py.lookup "stderr" r = None /\
    map fst r = ["success"; "error"; "messages"].
Proof. eexists. repeat split; vm_compute; reflexivity. Qed.

Lemma stderr_field_of_the_result_witness :
  let platform := cpython missing_binary in
  exists r,
    run_claude_command "prompt" None = Return (PyDict r) /\
    r = [("success", PyBool false);
         ("error", PyStr "[Errno 2] No such file or directory: 'claude'");
         ("messages", PyList [])] /\
    Py.lookup "stderr" r = None /\
    forall tool_name test_scenario,
      schema_data tool_name test_scenario (PyDict r)
      = Return (PyDict [("tool_name", PyStr tool_name);
                        ("test_scenario", PyStr test_scenario);
                        ("success", PyBool false);
                        ("messages", PyList []);
                        ("stderr", PyStr EmptyString)]).
Proof.
  apply (proj1 (proj2 (stderr_field_of_the_result
                         (platform := cpython missing_binary) "prompt" None))
           (Exn FileNotFoundError
              "[Errno 2] No such file or directory: 'claude'")).
  left. reflexivity.
Defined.

End RunnerSamples.


(* ===================================================================== *)
(** * The reporter *)
(* ===================================================================== *)

Section ReporterFacts.
Context {platform : Platform}.
Import ExamineSchemas Spec.

Lemma get_dict d k dflt :
  Py.get (PyDict d) k dflt = Return (default dflt (Py.lookup k d)).
Proof. unfold Py.get. by destruct (Py.lookup k d). Qed.

Lemma result_bind {A B} (m : io A) (k : A -> io B) a :
  result m = Return a -> result (m ≫= k) = result (k a).
Proof. unfold mbind, io_mbind, io_bind. by intros ->. Qed.

Lemma trace_bind {A B} (m : io A) (k : A -> io B) a :
  result m = Return a -> trace (m ≫= k) = trace m ++ trace (k a).
Proof. unfold mbind, io_mbind, io_bind. by intros ->. Qed.

(** A file that cannot be read or summarised is reported, and the
    exception goes no further. *)
Lemma examine_schema_file_returns files name :
  result (examine_schema_file files name) = Return tt.
Proof.
  unfold examine_schema_file.
  do 3 (erewrite result_bind by reflexivity).
  unfold io_try_except.
  destruct (result (load files name ≫= _)) as [[]|e] eqn:Hbody; [done|].
  reflexivity.
Qed.

Lemma examine_all_returns files names :
  result (examine_all files names) = Return tt.
Proof.
  induction names as [|name rest IH]; [done|]. simpl.
  by erewrite result_bind by apply examine_schema_file_returns.
Qed.

(** The files are summarised one after the other, each in full. *)
Lemma examine_all_trace files names :
  trace (examine_all files names)
  = concat (map (fun name => trace (examine_schema_file files name)) names).
Proof.
  induction names as [|name rest IH]; [done|]. simpl.
  erewrite trace_bind by apply examine_schema_file_returns. by rewrite IH.
Qed.

(** C4 (as amended): for a message of type [system] and subtype [init],
    the reporter prints the tool list, the model and the permission mode;
    an absent model or permission mode is printed as the text "unknown",
    and an absent tool list as the empty list. *)
Theorem init_message_summary (i : nat) (entries : list (string * pyobj)) :
  Py.lookup "type" entries = Some (PyStr "system") ->
  Py.lookup "subtype" entries = Some (PyStr "init") ->
  let run := examine_message i (PyDict entries) in
  result run = Return tt /\
  printed (trace run) =
    [nl +:+ "Message " +:+ pretty (i + 1)%nat +:+ ":";
     "  Type: system";
     "  Subtype: init";
     "  Tools: " +:+ Py.str (default (PyList []) (Py.lookup "tools" entries));
     "  Model: "
       +:+ Py.str (default (PyStr "unknown") (Py.lookup "model" entries));
     "  Permission Mode: "
       +:+ Py.str (default (PyStr "unknown")
                     (Py.lookup "permissionMode" entries))] /\
  (Py.lookup "tools" entries = None ->
   printed (trace run) !! 3%nat = Some "  Tools: []") /\
  (Py.lookup "model" entries = None ->
   printed (trace run) !! 4%nat = Some "  Model: unknown") /\
  (Py.lookup "permissionMode" entries = None ->
   printed (trace run) !! 5%nat = Some "  Permission Mode: unknown").
Proof.
  intros Hty Hsub run. subst run.
  unfold examine_message.
  rewrite !get_dict. unfold Py.contains, Py.getitem. rewrite Hty, Hsub.
  cbn.
  split; [reflexivity|]. split; [reflexivity|].
  repeat split; intros ->; reflexivity.
Qed.

Lemma printed_prints lines t :
  printed (map Print lines ++ t) = lines ++ printed t.
Proof.
  induction lines as [|line lines IH]; [done|].
  cbn [map app]. unfold printed in *. cbn [omap list_omap]. by rewrite IH.
Qed.

(** What the reporter does with a message of type [result]. *)
Lemma examine_result_message (i : nat) (entries : list (string * pyobj)) :
  Py.lookup "type" entries = Some (PyStr "result") ->
  examine_message i (PyDict entries)
  = IO (map Print (result_lines i entries) ++ trace (result_preview entries))
       (result (result_preview entries)).
Proof.
  intros Hty.
  unfold examine_message, result_lines, result_preview.
  rewrite !get_dict. unfold Py.contains, Py.getitem. rewrite Hty.
  destruct (Py.lookup "subtype" entries) as [subtype|];
    destruct (Py.lookup "result" entries) as [text|]; cbn;
    try reflexivity; by destruct (Py.slice_to 200 text).
Qed.

Lemma elem_of_result_lines i entries line :
  line ∈ ["  Is Error: "
            +:+ Py.str (default (PyBool true) (Py.lookup "is_error" entries));
          "  Num Turns: "
            +:+ Py.str (default (PyInt 0) (Py.lookup "num_turns" entries));
          "  Duration MS: "
            +:+ Py.str (default (PyInt 0) (Py.lookup "duration_ms" entries))] ->
  line ∈ result_lines i entries.
Proof.
  intros Hline. unfold result_lines.
  apply elem_of_app. right. apply elem_of_app. by right.
Qed.

Lemma result_lines_no_preview i entries :
  Forall (fun line => Text.startswith "  Result preview: " line = false)
    (result_lines i entries).
Proof.
  unfold result_lines.
  destruct (Py.lookup "subtype" entries); by repeat constructor.
Qed.

(** [s[:n]] has the length of [s], or [n] when [s] is longer, and [s]
    starts with it. *)
Lemma take_length_min n s :
  String.length (Text.take n s) = Nat.min n (String.length s).
Proof.
  revert s. induction n as [|n IH]; intros [|c s]; simpl; [done..|].
  by rewrite IH.
Qed.

Lemma take_app_drop n s : s = Text.take n s +:+ Text.drop n s.
Proof.
  revert s. induction n as [|n IH]; intros [|c s]; try reflexivity.
  change (String c s = String c (Text.take n s +:+ Text.drop n s)).
  by rewrite <- IH.
Qed.

Lemma take_all n s : (String.length s <= n)%nat -> Text.take n s = s.
Proof.
  revert s. induction n as [|n IH]; intros [|c s] Hlen; simpl in *;
    [done|lia|done|].
  rewrite IH; [done|lia].
Qed.

(** C8: for a message of type [result], the reporter prints the error
    flag, [True] when [is_error] is absent, the turn count, 0 when
    [num_turns] is absent, the duration, 0 when [duration_ms] is absent,
    and then, only when the message has a [result] field, a preview made
    of the first 200 characters of its text: the text itself when it has
    at most 200 characters, and otherwise the 200 characters it starts
    with. *)
Theorem result_message_summary (i : nat) (entries : list (string * pyobj)) :
  Py.lookup "type" entries = Some (PyStr "result") ->
  let run := examine_message i (PyDict entries) in
  (Py.lookup "is_error" entries = None ->
   "  Is Error: True" ∈ printed (trace run)) /\
  (Py.lookup "num_turns" entries = None ->
   "  Num Turns: 0" ∈ printed (trace run)) /\
  (Py.lookup "duration_ms" entries = None ->
   "  Duration MS: 0" ∈ printed (trace run)) /\
  (Py.lookup "result" entries = None ->
   result run = Return tt /\
   printed (trace run) = result_lines i entries /\
   Forall (fun line => Text.startswith "  Result preview: " line = false)
     (printed (trace run))) /\
  (forall text,
      Py.lookup "result" entries = Some (PyStr text) ->
      exists preview rest,
        result run = Return tt /\
        printed (trace run) =
          result_lines i entries
          ++ ["  Result preview: " +:+ preview +:+ "..."] /\
        preview = Text.take 200 text /\
        text = preview +:+ rest /\
        String.length preview = Nat.min 200 (String.length text) /\
        ((String.length text <= 200)%nat -> preview = text)).
Proof.
  intros Hty run. subst run. rewrite (examine_result_message i entries Hty).
  cbn [trace result]. rewrite printed_prints.
  assert (forall line,
             line ∈ result_lines i entries ->
             line ∈ result_lines i entries
                    ++ printed (trace (result_preview entries))) as Hin.
  { intros line Hline. apply elem_of_app. by left. }
  split; [|split; [|split; [|split]]].
  - intros Habsent. apply Hin, elem_of_result_lines.
    rewrite Habsent. set_solver.
  - intros Habsent. apply Hin, elem_of_result_lines.
    rewrite Habsent. set_solver.
  - intros Habsent. apply Hin, elem_of_result_lines.
    rewrite Habsent. set_solver.
  - unfold result_preview. intros ->. cbn. rewrite app_nil_r.
    split; [done|]. split; [done|]. apply result_lines_no_preview.
  - unfold result_preview. intros text ->.
    exists (Text.take 200 text), (Text.drop 200 text).
    split; [done|]. split; [done|]. split; [done|].
    split; [apply take_app_drop|]. split; [apply take_length_min|].
    apply take_all.
Qed.

(** C9: when the archive directory does not exist, the reporter prints one
    explanatory line, scans no directory, opens no file, and the script
    exits with status 0. *)
Theorem missing_directory_is_reported :
  script None
  = ([Exists "schemas"; Print "Schemas directory not found!"], 0) /\
  printed (script None).1 = ["Schemas directory not found!"] /\
  Forall (fun ev => match ev with Glob _ _ | Open _ _ => False | _ => True end)
    (script None).1.
Proof. split; [reflexivity|]. split; [reflexivity|]. by repeat constructor. Qed.

End ReporterFacts.


(* ===================================================================== *)
(** * The archive *)
(* ===================================================================== *)

Section PathFacts.
Import SDKToolTester.

Lemma mem_app c a b : Text.mem c (a +:+ b) = Text.mem c a || Text.mem c b.
Proof.
  induction a as [|d a IH]; [done|].
  rewrite str_app_cons. simpl. by rewrite IH, orb_assoc.
Qed.

Lemma bytes_app a b :
  Pathlib.bytes (a +:+ b) = (Pathlib.bytes a + Pathlib.bytes b)%nat.
Proof.
  induction a as [|c a IH]; [done|].
  rewrite str_app_cons. simpl. rewrite IH. lia.
Qed.

(** A text without the separator is one piece. *)
Lemma split_no_sep s :
  Text.mem Pathlib.sep s = false -> Text.split Pathlib.sep s = [s].
Proof.
  induction s as [|c s IH]; [done|]. cbn [Text.mem Text.split].
  intros [Hc Hs]%orb_false_elim.
  rewrite (Ascii.eqb_sym c Pathlib.sep), Hc. by rewrite IH.
Qed.


(** A path that names an entry of the directory is written as the
    directory, a slash and the entry. *)
Lemma entry_joinpath filename name :
  Pathlib.entry filename = Some name ->
  Pathlib.joinpath "schemas" filename = schema_path name.
Proof.
  unfold Pathlib.entry, Pathlib.joinpath.
  destruct (Pathlib.is_absolute filename); [done|].
  destruct (Text.mem Pathlib.nul filename); [done|]. cbn [orb].
  destruct (Pathlib.parts filename) as [|part [|]]; [done| |done].
  destruct (_ || _); [done|]. by intros [= ->].
Qed.

(** A name without separator and without NUL, that is not too long and
    neither empty nor made of dots, is the entry it names. *)
Lemma entry_of_name name :
  Text.mem Pathlib.sep name = false ->
  Text.mem Pathlib.nul name = false ->
  (Pathlib.bytes name <= Pathlib.NAME_MAX)%nat ->
  name <> EmptyString -> name <> "." -> name <> ".." ->
  Pathlib.entry name = Some name.
Proof.
  intros Hsep Hnul Hlen Hempty Hdot Hdots. unfold Pathlib.entry.
  assert (Pathlib.is_absolute name = false) as ->.
  { destruct name as [|c name]; [done|]. cbn [Text.mem] in Hsep.
    apply orb_false_elim in Hsep as [Hc _].
    unfold Pathlib.is_absolute. cbn [Text.startswith].
    change "/"%char with Pathlib.sep. by rewrite Hc. }
  rewrite Hnul. cbn [orb]. unfold Pathlib.parts.
  rewrite split_no_sep by done. cbn [List.filter].
  rewrite (proj2 (String.eqb_neq _ _) Hempty),
          (proj2 (String.eqb_neq _ _) Hdot). cbn [orb negb].
  rewrite (proj2 (String.eqb_neq _ _) Hdots).
  by rewrite (proj2 (Nat.ltb_ge _ _) Hlen).
Qed.

(** The file name of a tool name without separator and without NUL, of
    at most 243 bytes, names an entry of the directory: itself. *)
Lemma entry_schema_filename tool_name :
  Text.mem Pathlib.sep tool_name = false ->
  Text.mem Pathlib.nul tool_name = false ->
  (Pathlib.bytes tool_name <= 243)%nat ->
  Pathlib.entry (schema_filename tool_name) = Some (schema_filename tool_name).
Proof.
  intros Hsep Hnul Hlen. unfold schema_filename.
  apply entry_of_name.
  - by rewrite mem_app, Hsep.
  - by rewrite mem_app, Hnul.
  - rewrite bytes_app. unfold Pathlib.NAME_MAX.
    change (Pathlib.bytes "_schema.json") with 12%nat. lia.
  - intros H%(f_equal String.length).
    rewrite str_length_app in H. simpl in H. lia.
  - intros H%(f_equal String.length).
    rewrite str_length_app in H. simpl in H. lia.
  - intros H%(f_equal String.length).
    rewrite str_length_app in H. simpl in H. lia.
Qed.


End PathFacts.

Section ArchiveFacts.
Context {platform : Platform}.
Import SDKToolTester ExamineSchemas.

(** Saving under a tool name whose file name names an entry of the
    directory: the entry gets the text of the record, one file is opened
    for writing, and one line is printed. *)
Lemma save_schema_entry tool_name name data (files : gmap string string) :
  Pathlib.entry (schema_filename tool_name) = Some name ->
  save_schema tool_name data files
  = (<[name := json_dumps data]> files,
     IO [Open (schema_path name) "w";
         Print ("Saved " +:+ tool_name +:+ " schema to " +:+ schema_path name)]
        (Return tt)).
Proof.
  intros Hentry. unfold save_schema. cbv zeta.
  by rewrite Hentry, (entry_joinpath _ _ Hentry).
Qed.

Lemma fnmatch_star pattern name :
  fnmatch (String "*"%char pattern) name
  = fnmatch pattern name ||
    match name with
    | EmptyString => false
    | String _ name' => fnmatch (String "*"%char pattern) name'
    end.
Proof. by destruct name. Qed.



Lemma elem_of_glob (files : gmap string string) pattern name :
  name ∈ glob files pattern
  <-> fnmatch pattern name = true /\ is_Some (files !! name).
Proof.
  unfold glob. rewrite list_elem_of_filter, list_elem_of_fmap.
  rewrite Is_true_true. split.
  - intros [Hmatch [[k text] [-> Hin]]]. split; [done|].
    apply elem_of_map_to_list in Hin. by exists text.
  - intros [Hmatch [text Hin]]. split; [done|].
    exists (name, text). split; [done|]. by apply elem_of_map_to_list.
Qed.

Global Instance name_le_total : Total name_le.
Proof.
  intros a b. unfold name_le.
  destruct (String.leb_total a b) as [-> | ->]; [by left | by right].
Qed.

Lemma sorted_is_sorted names :
  Sorted name_le (sorted names) /\ sorted names ≡ₚ names.
Proof.
  split; [apply Sorted_merge_sort; apply _ | apply merge_sort_Permutation].
Qed.



(** The reader opens the path the writer wrote, and decodes the text the
    writer put there. *)
Lemma load_saved_schema tool_name name data (files : gmap string string) :
  Pathlib.entry (schema_filename tool_name) = Some name ->
  load (save_schema tool_name data files).1 name
  = (emit (Open (schema_path name) "r");;
     lift (json_loads (json_dumps data))).
Proof.
  intros Hentry. rewrite (save_schema_entry _ _ _ _ Hentry).
  unfold load. cbn [fst]. by rewrite lookup_insert_eq.
Qed.


End ArchiveFacts.

Section ArchiveRoundTrip.
Import SDKToolTester ExamineSchemas.


End ArchiveRoundTrip.


(* ===================================================================== *)
(** * The reporter and the archive on sample data *)
(* ===================================================================== *)

Section ReporterSamples.
Import SDKToolTester ExamineSchemas.

(** C4, counterexample: an [init] message without a tool list is printed
    with the empty list, not with the text "unknown". *)
Lemma absent_tools_print_as_empty_list :
  printed (trace (examine_message 0 init_message))
  = [nl +:+ "Message 1:"; "  Type: system"; "  Subtype: init";
     "  Tools: []"; "  Model: unknown"; "  Permission Mode: unknown"] /\
  "  Tools: unknown" ∉ printed (trace (examine_message 0 init_message)).
Proof.
  assert (printed (trace (examine_message 0 init_message))
          = [nl +:+ "Message 1:"; "  Type: system"; "  Subtype: init";
             "  Tools: []"; "  Model: unknown"; "  Permission Mode: unknown"])
    as -> by (vm_compute; reflexivity).
  split; [reflexivity|].
  rewrite !not_elem_of_cons. repeat split; try discriminate.
  apply not_elem_of_nil.
Qed.

Lemma init_message_summary_witness :
  printed (trace (examine_message 0 init_message)) !! 4%nat
  = Some "  Model: unknown".
Proof.
  apply (init_message_summary 0
           [("type", PyStr "system"); ("subtype", PyStr "init")]);
    reflexivity.
Defined.

Lemma result_message_summary_witness :
  "  Is Error: True" ∈ printed (trace (examine_message 0 long_result_message))
  /\
  exists preview rest,
    result (examine_message 0 long_result_message) = Return tt /\
    printed (trace (examine_message 0 long_result_message))
    = [nl +:+ "Message 1:"; "  Type: result"; "  Is Error: True";
       "  Num Turns: 0"; "  Duration MS: 0";
       "  Result preview: " +:+ preview +:+ "..."] /\
    preview = Text.times "ab" 100 /\
    Text.times "ab" 150 = preview +:+ rest /\
    String.length preview = 200%nat /\
    ((300 <= 200)%nat -> preview = Text.times "ab" 150).
Proof.
  split.
  - apply (result_message_summary 0
             [("type", PyStr "result");
              ("result", PyStr (Text.times "ab" 150))]); reflexivity.
  - apply (proj2 (proj2 (proj2 (proj2
             (result_message_summary 0
                [("type", PyStr "result");
                 ("result", PyStr (Text.times "ab" 150))] eq_refl))))
             (Text.times "ab" 150) eq_refl).
Defined.





(** With the executable codec the round trip needs no assumption: every
    record without a float and without a repeated key is loaded back as it
    was saved. *)
Lemma cpython_save_then_load run tool_name name data
  (files : gmap string string) :
  Pathlib.entry (schema_filename tool_name) = Some name ->
  wf data = true ->
  let platform := cpython run in
  result (load (save_schema tool_name data files).1 name) = Return data.
Proof.
  intros Hentry Hwf platform.
  rewrite (load_saved_schema (platform := platform) _ _ _ _ Hentry).
  change (json_loads (json_dumps data)) with (PyJson.loads (PyJson.dumps data)).
  by rewrite loads_dumps.
Qed.

(** Two saves under one tool name: the file holds the second record. *)
Example save_twice_sample :
  let platform := cpython missing_binary in
  (save_schema "edit_tool" other_record
     (save_schema "edit_tool" sample_record ∅).1).1
  = {[ "edit_tool_schema.json" := PyJson.dumps other_record ]}.
Proof.
  intros platform.
  rewrite !(save_schema_entry (platform := platform)
              "edit_tool" "edit_tool_schema.json") by reflexivity.
  cbn [fst]. by rewrite insert_insert_eq, insert_empty.
Qed.

(** The report of the saved sample record. *)
Example report_of_sample_record :
  let platform := cpython missing_binary in
  printed (script (Some (save_schema "edit_tool" sample_record ∅).1)).1
  = ["Found 1 schema files:";
     nl +:+ ExamineSchemas.rule;
     "Schema File: edit_tool_schema.json";
     ExamineSchemas.rule;
     "Tool Name: Edit";
     "Test Scenario: Add docstring to function";
     "Success: True";
     nl +:+ "Number of messages: 2";
     nl +:+ "Message 1:"; "  Type: system"; "  Subtype: init";
     "  Tools: []"; "  Model: unknown"; "  Permission Mode: unknown";
     nl +:+ "Message 2:"; "  Type: result";
     "  Is Error: False"; "  Num Turns: 2"; "  Duration MS: 0";
     "  Result preview: Done...."].
Proof. vm_compute. reflexivity. Qed.

End ReporterSamples.


(* ===================================================================== *)
(** * More on the capture runner *)
(* ===================================================================== *)

Section RunnerMore.
Context {platform : Platform}.
Import SDKToolTester.

Lemma lstrip_blank s : Text.isblank s = true -> Text.lstrip s = EmptyString.
Proof.
  induction s as [|c s IH]; [done|]. simpl.
  destruct (Text.isspace c); [|done]. exact IH.
Qed.

Lemma strip_blank s : Text.isblank s = true -> Text.strip s = EmptyString.
Proof. intros Hs. unfold Text.strip. by rewrite lstrip_blank. Qed.

(** The two shapes of the result of [run_claude_command]. *)
Lemma run_claude_command_shapes prompt additional_args :
  (exists p messages,
      subprocess_run (command prompt additional_args) = Return p /\
      run_claude_command prompt additional_args
      = Return (PyDict [("success", PyBool (returncode p =? 0));
                        ("messages", PyList messages);
                        ("stderr", PyStr (stderr p))])) \/
  (exists e,
      run_claude_command prompt additional_args
      = Return (PyDict [("success", PyBool false);
                        ("error", PyStr (exn_str e));
                        ("messages", PyList [])])).
Proof.
  unfold run_claude_command, run_and_parse.
  destruct (subprocess_run (command prompt additional_args)) as [p|e];
    [|right; by exists e].
  cbn [mbind outcome_mbind obind].
  destruct (parse_stream_json _ _) as [messages|e]; [left|right]; eauto.
Qed.

(** X1: When the program prints nothing but white space, no line is decoded:
    the result has no message, and [success] follows the exit status,
    whatever [json.loads] would do. *)
Theorem blank_output_gives_no_messages prompt additional_args p :
  subprocess_run (command prompt additional_args) = Return p ->
  Text.isblank (stdout p) = true ->
  run_claude_command prompt additional_args
  = Return (PyDict [("success", PyBool (returncode p =? 0));
                    ("messages", PyList []);
                    ("stderr", PyStr (stderr p))]).
Proof.
  intros Hrun Hblank. unfold run_claude_command, run_and_parse.
  rewrite Hrun. cbn [mbind outcome_mbind obind].
  by rewrite strip_blank.
Qed.

(** X2: The record built for the archive from the result of a run has, in every
    case, the five fields [tool_name], [test_scenario], [success], a
    Boolean, [messages], a list, and [stderr], a string; the [error] text of
    a failed run is not part of it. *)
Theorem archived_record_has_five_fields
  prompt additional_args tool_name test_scenario :
  exists success messages err,
    run_claude_command prompt additional_args
      ≫= schema_data tool_name test_scenario
    = Return (PyDict [("tool_name", PyStr tool_name);
                      ("test_scenario", PyStr test_scenario);
                      ("success", PyBool success);
                      ("messages", PyList messages);
                      ("stderr", PyStr err)]).
Proof.
  destruct (run_claude_command_shapes prompt additional_args)
    as [(p & messages & _ & ->)|(e & ->)]; by eexists _, _, _.
Qed.

End RunnerMore.

Section RunnerMoreSamples.
Import SDKToolTester.

Lemma blank_output_gives_no_messages_witness :
  let platform := cpython (exits_with 3 (" " +:+ nl +:+ nl) "quota") in
  run_claude_command "prompt" None
  = Return (PyDict [("success", PyBool false);
                    ("messages", PyList []);
                    ("stderr", PyStr "quota")]).
Proof.
  intros platform.
  apply (blank_output_gives_no_messages (platform := platform) "prompt" None
           {| returncode := 3; stdout := " " +:+ nl +:+ nl;
              stderr := "quota" |}); reflexivity.
Defined.

End RunnerMoreSamples.


(* ===================================================================== *)
(** * The test methods, [run_all_tests] and [main] *)
(* ===================================================================== *)

Section TestMethods.
Context {platform : Platform} {environment : TestSDKTools.Environment}.
Import TestSDKTools.

(** What a test method archives and returns is a record of five fields
    and the Boolean in its [success] field. *)
Lemma archived_and_passed tool_name test_scenario prompt :
  exists success messages err,
    SDKToolTester.run_claude_command prompt None
      ≫= SDKToolTester.schema_data tool_name test_scenario
    = Return (archived_record tool_name test_scenario prompt) /\
    archived_record tool_name test_scenario prompt
    = PyDict [("tool_name", PyStr tool_name);
              ("test_scenario", PyStr test_scenario);
              ("success", PyBool success);
              ("messages", PyList messages);
              ("stderr", PyStr err)] /\
    passed prompt = PyBool success /\
    SDKToolTester.run_claude_command prompt None
      ≫= (fun result => Py.getitem result "success")
    = Return (PyBool success).
Proof.
  unfold archived_record, passed.
  destruct (run_claude_command_shapes prompt None)
    as [(p & messages & _ & ->)|(e & ->)]; by eexists _, _, _.
Qed.

(** One step of a method: the first statement returns, and the rest goes
    on from the tester it leaves. *)
Lemma method_bind_step {A B} (m : method A) (k : A -> method B)
  self self1 t a self2 t2 r2 :
  m self = (self1, IO t (Return a)) ->
  k a self1 = (self2, IO t2 r2) ->
  (m ≫= k) self = (self2, IO (t ++ t2) r2).
Proof.
  intros Hm Hk. unfold mbind, method_mbind, method_bind.
  rewrite Hm. cbn [fst snd result trace]. by rewrite Hk.
Qed.

(** [self.save_schema] under a key whose file name names an entry of the
    directory. *)
Lemma save_schema_closed_form key name data self :
  Pathlib.entry (SDKToolTester.schema_filename key) = Some name ->
  save_schema key data self
  = ({| schemas_files := <[name := json_dumps data]> (schemas_files self);
        test_files := test_files self |},
     IO [Open (SDKToolTester.schema_path name) "w";
         Print ("Saved " +:+ key +:+ " schema to "
                +:+ SDKToolTester.schema_path name)]
        (Return tt)).
Proof.
  intros Hentry. unfold save_schema.
  by rewrite (save_schema_entry _ _ _ _ Hentry).
Qed.

(** The shared statements of the test methods, in closed form. *)
Lemma capture_closed_form tool_name test_scenario key name prompt self :
  Pathlib.entry (SDKToolTester.schema_filename key) = Some name ->
  capture tool_name test_scenario key prompt self
  = ({| schemas_files :=
          <[name := json_dumps (archived_record tool_name test_scenario prompt)]>
            (schemas_files self);
        test_files := test_files self |},
     IO [Open (SDKToolTester.schema_path name) "w";
         Print ("Saved " +:+ key +:+ " schema to "
                +:+ SDKToolTester.schema_path name)]
        (Return (passed prompt))).
Proof.
  intros Hentry. unfold capture, archived_record, passed.
  destruct (run_claude_command_shapes prompt None)
    as [(p & messages & _ & ->)|(e & ->)].
  - etrans.
    + eapply method_bind_step; [reflexivity|cbv beta].
      eapply method_bind_step; [reflexivity|cbv beta].
      eapply method_bind_step;
        [by apply save_schema_closed_form|cbv beta].
      reflexivity.
    + reflexivity.
  - etrans.
    + eapply method_bind_step; [reflexivity|cbv beta].
      eapply method_bind_step; [reflexivity|cbv beta].
      eapply method_bind_step;
        [by apply save_schema_closed_form|cbv beta].
      reflexivity.
    + reflexivity.
Qed.

Lemma test_edit_tool_closed_form self :
  test_edit_tool self
  = ({| schemas_files :=
          <["edit_tool_schema.json" :=
              json_dumps (archived_record "Edit" "Add docstring to function"
                            edit_prompt)]> (schemas_files self);
        test_files := <["edit_test.py" := edit_test_text]> (test_files self) |},
     IO [Print "Testing Edit tool...";
         Open "test_files/edit_test.py" "w";
         Open "schemas/edit_tool_schema.json" "w";
         Print "Saved edit_tool schema to schemas/edit_tool_schema.json"]
        (Return (passed edit_prompt))).
Proof.
  unfold test_edit_tool. etrans.
  - eapply method_bind_step; [reflexivity|cbv beta].
    eapply method_bind_step; [reflexivity|cbv beta].
    by apply capture_closed_form.
  - reflexivity.
Qed.

Lemma test_write_tool_closed_form self :
  test_write_tool self
  = ({| schemas_files :=
          <["write_tool_schema.json" :=
              json_dumps (archived_record "Write"
                            "Create new JavaScript React component file"
                            (write_prompt new_file))]> (schemas_files self);
        test_files := test_files self |},
     IO [Print "Testing Write tool...";
         Open "schemas/write_tool_schema.json" "w";
         Print "Saved write_tool schema to schemas/write_tool_schema.json"]
        (Return (passed (write_prompt new_file)))).
Proof.
  unfold test_write_tool. etrans.
  - eapply method_bind_step; [reflexivity|cbv beta].
    by apply capture_closed_form.
  - reflexivity.
Qed.

Lemma test_multiedit_tool_closed_form self :
  test_multiedit_tool self
  = ({| schemas_files :=
          <["multiedit_tool_schema.json" :=
              json_dumps (archived_record "MultiEdit"
                            "Add docstrings to multiple functions"
                            multiedit_prompt)]> (schemas_files self);
        test_files :=
          <["multiedit_test.py" := multiedit_test_text]> (test_files self) |},
     IO [Print "Testing MultiEdit tool...";
         Open "test_files/multiedit_test.py" "w";
         Open "schemas/multiedit_tool_schema.json" "w";
         Print "Saved multiedit_tool schema to schemas/multiedit_tool_schema.json"]
        (Return (passed multiedit_prompt))).
Proof.
  unfold test_multiedit_tool. etrans.
  - eapply method_bind_step; [reflexivity|cbv beta].
    eapply method_bind_step; [reflexivity|cbv beta].
    by apply capture_closed_form.
  - reflexivity.
Qed.

Lemma test_notebook_edit_tool_closed_form self :
  test_notebook_edit_tool self
  = ({| schemas_files :=
          <["notebook_edit_tool_schema.json" :=
              json_dumps (archived_record "NotebookEdit"
                            "Add markdown cell to notebook"
                            notebook_prompt)]> (schemas_files self);
        test_files :=
          <["notebook_test.ipynb" := json_dumps_compact notebook_content]>
            (test_files self) |},
     IO [Print "Testing NotebookEdit tool...";
         Open "test_files/notebook_test.ipynb" "w";
         Open "schemas/notebook_edit_tool_schema.json" "w";
         Print "Saved notebook_edit_tool schema to schemas/notebook_edit_tool_schema.json"]
        (Return (passed notebook_prompt))).
Proof.
  unfold test_notebook_edit_tool. etrans.
  - eapply method_bind_step; [reflexivity|cbv beta].
    eapply method_bind_step; [reflexivity|cbv beta].
    by apply capture_closed_form.
  - reflexivity.
Qed.

Lemma print_summary_trace results :
  print_summary results
  = IO (map (fun entry => Print (summary_line entry)) results) (Return tt).
Proof.
  induction results as [|entry rest IH]; [done|].
  cbn [print_summary map]. rewrite IH. reflexivity.
Qed.

Lemma run_all_tests_closed_form self :
  run_all_tests self
  = ({| schemas_files := schemas_after (schemas_files self);
        test_files := test_files_after (test_files self) |},
     IO ([Print "Starting Claude Code SDK tool testing...";
          Print ("Working directory: " +:+ getcwd);
          Print ("Schemas will be saved to: " +:+ schemas_absolute);
          Print "Testing Edit tool...";
          Open "test_files/edit_test.py" "w";
          Open "schemas/edit_tool_schema.json" "w";
          Print "Saved edit_tool schema to schemas/edit_tool_schema.json";
          Print "Testing Write tool...";
          Open "schemas/write_tool_schema.json" "w";
          Print "Saved write_tool schema to schemas/write_tool_schema.json";
          Print "Testing MultiEdit tool...";
          Open "test_files/multiedit_test.py" "w";
          Open "schemas/multiedit_tool_schema.json" "w";
          Print "Saved multiedit_tool schema to schemas/multiedit_tool_schema.json";
          Print "Testing NotebookEdit tool...";
          Open "test_files/notebook_test.ipynb" "w";
          Open "schemas/notebook_edit_tool_schema.json" "w";
          Print "Saved notebook_edit_tool schema to schemas/notebook_edit_tool_schema.json";
          Print (nl +:+ Text.times "=" 50);
          Print "Test Results Summary:"]
         ++ map (fun entry => Print (summary_line entry)) outcomes
         ++ [Print (nl +:+ "Schema files saved to: " +:+ schemas_absolute)])
        (Return (PyDict outcomes))).
Proof.
  unfold run_all_tests. etrans.
  - do 3 (eapply method_bind_step; [reflexivity|cbv beta]).
    eapply method_bind_step; [apply test_edit_tool_closed_form|cbv beta].
    eapply method_bind_step; [apply test_write_tool_closed_form|cbv beta].
    eapply method_bind_step; [apply test_multiedit_tool_closed_form|cbv beta].
    eapply method_bind_step; [apply test_notebook_edit_tool_closed_form|].
    cbv beta zeta.
    do 2 (eapply method_bind_step; [reflexivity|cbv beta]).
    eapply method_bind_step.
    { unfold perform. rewrite print_summary_trace. reflexivity. }
    cbv beta.
    eapply method_bind_step; [reflexivity|cbv beta].
    reflexivity.
  - reflexivity.
Qed.

End TestMethods.

Section TestMethodFacts.
Context {platform : Platform} {environment : TestSDKTools.Environment}.
Import TestSDKTools.

Lemma capture_archives tool_name test_scenario key prompt
  (test : method pyobj) (others : gmap string string -> gmap string string)
  (evs : list event) :
  (forall self,
      test self
      = ({| schemas_files :=
              <[SDKToolTester.schema_filename key :=
                  json_dumps (archived_record tool_name test_scenario prompt)]>
                (schemas_files self);
            test_files := others (test_files self) |},
         IO evs (Return (passed prompt)))) ->
  archives_its_result test key tool_name test_scenario.
Proof.
  intros Htest self. rewrite Htest. cbn [fst snd result schemas_files].
  destruct (archived_and_passed tool_name test_scenario prompt)
    as (success & messages & err & _ & -> & -> & _).
  exists success, messages, err. split; [done|].
  split; [apply lookup_insert_eq|].
  intros name Hname. by apply lookup_insert_ne.
Qed.

(** X3: Each of the four test methods returns the Boolean it archived in the
    [success] field of its own schema file, a record of five fields under
    its own tool name, and leaves the other schema files as they were. *)
Theorem test_methods_archive_what_they_return :
  archives_its_result test_edit_tool
    "edit_tool" "Edit" "Add docstring to function" /\
  archives_its_result test_write_tool
    "write_tool" "Write" "Create new JavaScript React component file" /\
  archives_its_result test_multiedit_tool
    "multiedit_tool" "MultiEdit" "Add docstrings to multiple functions" /\
  archives_its_result test_notebook_edit_tool
    "notebook_edit_tool" "NotebookEdit" "Add markdown cell to notebook".
Proof.
  repeat split.
  - eapply capture_archives. apply test_edit_tool_closed_form.
  - eapply (capture_archives _ _ _ _ _ (fun files => files)).
    apply test_write_tool_closed_form.
  - eapply capture_archives. apply test_multiedit_tool_closed_form.
  - eapply capture_archives. apply test_notebook_edit_tool_closed_form.
Qed.

Lemma outcomes_are_booleans :
  exists edit write multiedit notebook_edit,
    outcomes = [("edit", PyBool edit); ("write", PyBool write);
                ("multiedit", PyBool multiedit);
                ("notebook_edit", PyBool notebook_edit)].
Proof.
  unfold outcomes.
  destruct (archived_and_passed EmptyString EmptyString edit_prompt)
    as (b1 & _ & _ & _ & _ & -> & _).
  destruct (archived_and_passed EmptyString EmptyString (write_prompt new_file))
    as (b2 & _ & _ & _ & _ & -> & _).
  destruct (archived_and_passed EmptyString EmptyString multiedit_prompt)
    as (b3 & _ & _ & _ & _ & -> & _).
  destruct (archived_and_passed EmptyString EmptyString notebook_prompt)
    as (b4 & _ & _ & _ & _ & -> & _).
  by exists b1, b2, b3, b4.
Qed.

Lemma schemas_after_lookup files :
  Forall (fun name => is_Some (schemas_after files !! name)) schema_names /\
  forall name, name ∉ schema_names -> schemas_after files !! name = files !! name.
Proof.
  split.
  - unfold schemas_after. repeat constructor; simplify_map_eq; eauto.
  - intros name Hname. unfold schema_names in Hname.
    rewrite !not_elem_of_cons in Hname.
    destruct Hname as (? & ? & ? & ? & _).
    unfold schemas_after. by rewrite !lookup_insert_ne.
Qed.

(** X4: [run_all_tests] runs the four scenarios whatever each of them gives:
    it returns the four Booleans under [edit], [write], [multiedit] and
    [notebook_edit], in this order, leaves the four schema files in the
    directory, and ends its output with one summary line for each
    scenario, PASSED for a true value and FAILED for a false one. *)
Theorem run_all_tests_runs_every_scenario self :
  exists edit write multiedit notebook_edit,
    let results := [("edit", PyBool edit); ("write", PyBool write);
                    ("multiedit", PyBool multiedit);
                    ("notebook_edit", PyBool notebook_edit)] in
    result (run_all_tests self).2 = Return (PyDict results) /\
    Forall (fun name => is_Some (schemas_files (run_all_tests self).1 !! name))
      schema_names /\
    printed (trace (run_all_tests self).2)
    = progress_lines
      ++ map (fun entry : string * pyobj =>
                "  " +:+ entry.1 +:+ ": "
                +:+ (if entry.2 is PyBool true
                     then check_mark +:+ " PASSED"
                     else cross_mark +:+ " FAILED")) results
      ++ [nl +:+ "Schema files saved to: " +:+ schemas_absolute].
Proof.
  destruct outcomes_are_booleans as (b1 & b2 & b3 & b4 & Hout).
  exists b1, b2, b3, b4. intros results.
  rewrite run_all_tests_closed_form, Hout. cbn [fst snd result trace schemas_files].
  split; [done|]. split; [apply schemas_after_lookup|].
  subst results. destruct b1, b2, b3, b4; reflexivity.
Qed.

End TestMethodFacts.

Section MainFacts.
Context {platform : Platform} {environment : TestSDKTools.Environment}.
Import TestSDKTools.

Lemma main_without_help argv fs :
  argv !! 1%nat <> Some "--help" ->
  main argv fs
  = (disk (run_all_tests (new_tester fs)).1,
     results ← (run_all_tests (new_tester fs)).2;
     io_ret (if all_values results then 0 else 1)).
Proof.
  intros Hhelp. unfold main.
  destruct argv as [|prog [|arg argv]]; try reflexivity.
  destruct (String.eqb_spec arg "--help") as [->|_]; [done|reflexivity].
Qed.

(** X5: Asked for help, with [--help] as its first argument, [main] prints the
    docstring and stops: no directory is made, no file is written, and
    the status is 0.  A [--help] in any other place is not honoured: both
    directories then exist when [main] is done. *)
Theorem help_is_the_first_argument_or_nothing argv fs :
  (argv !! 1%nat = Some "--help" ->
   main argv fs = (fs, IO [Print doc] (Return 0))) /\
  (argv !! 1%nat <> Some "--help" ->
   is_Some (schemas_dir (main argv fs).1) /\
   is_Some (test_files_dir (main argv fs).1)).
Proof.
  split.
  - destruct argv as [|prog [|arg argv]]; try discriminate.
    intros [= ->]. reflexivity.
  - intros Hhelp. rewrite main_without_help by done. by split; eexists.
Qed.

(** X6: The status of the script is 0 when the four test methods all returned
    true and 1 otherwise; in both cases the four schema files are there
    when it ends. *)
Theorem main_exit_status argv fs :
  argv !! 1%nat <> Some "--help" ->
  exists edit write multiedit notebook_edit files,
    result (run_all_tests (new_tester fs)).2
    = Return (PyDict [("edit", PyBool edit); ("write", PyBool write);
                      ("multiedit", PyBool multiedit);
                      ("notebook_edit", PyBool notebook_edit)]) /\
    result (main argv fs).2
    = Return (if edit && write && multiedit && notebook_edit then 0 else 1) /\
    schemas_dir (main argv fs).1 = Some files /\
    Forall (fun name => is_Some (files !! name)) schema_names.
Proof.
  intros Hhelp. rewrite main_without_help by done.
  destruct outcomes_are_booleans as (b1 & b2 & b3 & b4 & Hout).
  exists b1, b2, b3, b4. eexists.
  rewrite run_all_tests_closed_form, Hout.
  cbn [fst snd result schemas_files disk schemas_dir].
  split; [done|]. split; [|split; [done|apply schemas_after_lookup]].
  by destruct b1, b2, b3, b4.
Qed.

Lemma passed_completed prompt p :
  subprocess_run (SDKToolTester.command prompt None) = Return p ->
  Spec.raises_only_JSONDecodeError (Text.strip (stdout p)) ->
  passed prompt = PyBool (returncode p =? 0).
Proof.
  intros Hrun Hraise. unfold passed.
  by rewrite (run_claude_command_completed prompt None p Hrun Hraise).
Qed.

(** X7: When the external program runs to its end each time, the status of
    the script is 0 exactly when all four runs exit with status 0. *)
Theorem main_exits_zero_iff_every_run_does argv fs
  (run : list string -> CompletedProcess) :
  argv !! 1%nat <> Some "--help" ->
  (forall cmd, subprocess_run cmd = Return (run cmd)) ->
  (forall cmd,
      Spec.raises_only_JSONDecodeError (Text.strip (stdout (run cmd)))) ->
  result (main argv fs).2
  = Return (if forallb (fun prompt =>
                          returncode (run (SDKToolTester.command prompt None))
                          =? 0) prompts
            then 0 else 1).
Proof.
  intros Hhelp Hrun Hraise. rewrite main_without_help by done.
  rewrite run_all_tests_closed_form. unfold outcomes, prompts.
  rewrite !(passed_completed _ _ (Hrun _) (Hraise _)).
  cbn [fst snd result mbind io_mbind io_bind all_values forallb Py.truthy].
  rewrite andb_true_r. reflexivity.
Qed.

Lemma archived_record_failure tool_name test_scenario prompt e :
  subprocess_run (SDKToolTester.command prompt None) = Raise e ->
  archived_record tool_name test_scenario prompt
  = failure_record tool_name test_scenario /\
  passed prompt = PyBool false.
Proof.
  intros Hrun. unfold archived_record, passed.
  rewrite (run_claude_command_raised prompt None e)
    by by apply run_and_parse_launch_failure.
  by split.
Qed.

(** X8: When the external program cannot be started, the script still goes
    through the four scenarios: each schema file holds a record with
    [success] false, no message and an empty [stderr], the summary has four
    FAILED lines, and the status is 1.  The text of the exception is
    neither printed nor archived. *)
Theorem missing_program_fails_every_scenario argv fs
  (error : list string -> exn) :
  argv !! 1%nat <> Some "--help" ->
  (forall cmd, subprocess_run cmd = Raise (error cmd)) ->
  result (main argv fs).2 = Return 1 /\
  schemas_dir (main argv fs).1
  = Some (<["notebook_edit_tool_schema.json" :=
              json_dumps (failure_record "NotebookEdit"
                            "Add markdown cell to notebook")]>
          (<["multiedit_tool_schema.json" :=
               json_dumps (failure_record "MultiEdit"
                             "Add docstrings to multiple functions")]>
           (<["write_tool_schema.json" :=
                json_dumps (failure_record "Write"
                              "Create new JavaScript React component file")]>
            (<["edit_tool_schema.json" :=
                 json_dumps (failure_record "Edit"
                               "Add docstring to function")]>
               (SDKToolTester.init (schemas_dir fs)))))) /\
  printed (trace (main argv fs).2)
  = progress_lines
    ++ ["  edit: " +:+ cross_mark +:+ " FAILED";
        "  write: " +:+ cross_mark +:+ " FAILED";
        "  multiedit: " +:+ cross_mark +:+ " FAILED";
        "  notebook_edit: " +:+ cross_mark +:+ " FAILED";
        nl +:+ "Schema files saved to: " +:+ schemas_absolute].
Proof.
  intros Hhelp Hrun. rewrite main_without_help by done.
  rewrite run_all_tests_closed_form. unfold outcomes, schemas_after.
  destruct (archived_record_failure "Edit" "Add docstring to function"
              edit_prompt _ (Hrun _)) as [-> ->].
  destruct (archived_record_failure "Write"
              "Create new JavaScript React component file"
              (write_prompt new_file) _ (Hrun _)) as [-> ->].
  destruct (archived_record_failure "MultiEdit"
              "Add docstrings to multiple functions"
              multiedit_prompt _ (Hrun _)) as [-> ->].
  destruct (archived_record_failure "NotebookEdit"
              "Add markdown cell to notebook"
              notebook_prompt _ (Hrun _)) as [-> ->].
  repeat split.
Qed.

(** X9: The script itself writes its four schema files and its three test
    files and nothing else: every other file of the two directories is as
    it was, the external program being taken to leave them alone. *)
Theorem other_files_are_kept argv fs name :
  argv !! 1%nat <> Some "--help" ->
  (name ∉ schema_names ->
   schemas_dir (main argv fs).1 ≫= (fun files => files !! name)
   = schemas_dir fs ≫= (fun files => files !! name)) /\
  (name ∉ ["edit_test.py"; "multiedit_test.py"; "notebook_test.ipynb"] ->
   test_files_dir (main argv fs).1 ≫= (fun files => files !! name)
   = test_files_dir fs ≫= (fun files => files !! name)).
Proof.
  intros Hhelp. rewrite main_without_help by done.
  rewrite run_all_tests_closed_form.
  cbn [fst disk schemas_dir test_files_dir schemas_files test_files new_tester].
  split; intros Hname.
  - cbn. rewrite (proj2 (schemas_after_lookup _)) by done.
    by destruct (schemas_dir fs).
  - cbn. rewrite !not_elem_of_cons in Hname. destruct Hname as (? & ? & ? & _).
    unfold test_files_after. rewrite !lookup_insert_ne by done.
    by destruct (test_files_dir fs).
Qed.

End MainFacts.


(* ===================================================================== *)
(** * More on the reporter *)
(* ===================================================================== *)

Section ReporterMore.
Context {platform : Platform}.
Import ExamineSchemas.

(** ** Blocks that only print *)

Lemma only_prints_bind {A B} (m : io A) (k : A -> io B) :
  only_prints (trace m) -> (forall a, only_prints (trace (k a))) ->
  only_prints (trace (m ≫= k)).
Proof.
  intros Hm Hk. unfold mbind, io_mbind, io_bind.
  destruct (result m) as [a|e]; [|done].
  cbn [trace]. apply Forall_app. split; [done|apply Hk].
Qed.

Lemma only_prints_print text : only_prints (trace (print text)).
Proof. by repeat constructor. Qed.

Lemma only_prints_lift {A} (o : outcome A) : only_prints (trace (lift o)).
Proof. constructor. Qed.

Lemma only_prints_ret {A} (a : A) : only_prints (trace (io_ret a)).
Proof. constructor. Qed.

Lemma examine_message_only_prints i message :
  only_prints (trace (examine_message i message)).
Proof.
  unfold examine_message.
  repeat first
    [ apply only_prints_print | apply only_prints_lift | apply only_prints_ret
    | apply only_prints_bind; [|intros ?]
    | match goal with
      | |- only_prints (trace (if ?b then _ else _)) => destruct b
      end ].
Qed.

Lemma examine_messages_only_prints messages i :
  only_prints (trace (examine_messages i messages)).
Proof.
  revert i. induction messages as [|message rest IH]; intros i.
  - constructor.
  - cbn [examine_messages]. apply only_prints_bind; [|intros _; apply IH].
    apply examine_message_only_prints.
Qed.

Lemma summarize_only_prints data : only_prints (trace (summarize data)).
Proof.
  unfold summarize.
  repeat first
    [ apply only_prints_print | apply only_prints_lift | apply only_prints_ret
    | apply only_prints_bind; [|intros ?]
    | match goal with
      | |- only_prints (trace (if ?b then _ else _)) => destruct b
      end ];
    apply examine_messages_only_prints.
Qed.

Lemma opened_app t1 t2 : opened (t1 ++ t2) = opened t1 ++ opened t2.
Proof. unfold opened. apply omap_app. Qed.

Lemma opened_only_prints t : only_prints t -> opened t = [].
Proof.
  induction 1 as [|ev t Hev _ IH]; [done|].
  by destruct ev.
Qed.

(** Examining one file opens that file, once, for reading. *)
Lemma opened_examine_schema_file files name :
  opened (trace (examine_schema_file files name))
  = [(SDKToolTester.schema_path name, "r")].
Proof.
  unfold examine_schema_file.
  do 3 (erewrite trace_bind by reflexivity).
  rewrite !opened_app. cbn [print emit trace opened omap list_omap app].
  unfold io_try_except.
  assert (forall (body : io unit),
             opened (trace body) = [(SDKToolTester.schema_path name, "r")] ->
             opened (trace
                       match result body with
                       | Return _ => body
                       | Raise e =>
                           let handled :=
                             print ("Error reading "
                                    +:+ SDKToolTester.schema_path name
                                    +:+ ": " +:+ exn_str e) in
                           IO (trace body ++ trace handled) (result handled)
                       end)
             = [(SDKToolTester.schema_path name, "r")]) as Hbody.
  { intros body Hopened. destruct (result body); [done|].
    cbn [trace]. rewrite opened_app, Hopened. reflexivity. }
  apply Hbody. unfold load.
  destruct (files !! name) as [text|].
  - destruct (json_loads text) as [data|e]; [|reflexivity].
    erewrite trace_bind by reflexivity. rewrite opened_app.
    cbn [mbind io_mbind io_bind emit lift result trace app].
    rewrite (opened_only_prints _ (summarize_only_prints data)). reflexivity.
  - reflexivity.
Qed.

Lemma opened_examine_all files names :
  opened (trace (examine_all files names))
  = map (fun name => (SDKToolTester.schema_path name, "r")) names.
Proof.
  rewrite examine_all_trace.
  induction names as [|name rest IH]; [done|].
  cbn [map concat]. by rewrite opened_app, opened_examine_schema_file, IH.
Qed.

(** X10: The reporter opens the files whose names match the pattern, each of
    them once, in the order of their names, and for reading only; it
    opens no other file, and none at all when there is no directory. *)
Theorem reporter_opens_the_schema_files_once schemas :
  opened (trace (main schemas))
  = match schemas with
    | Some files =>
        map (fun name => (SDKToolTester.schema_path name, "r"))
          (sorted (glob files "*_schema.json"))
    | None => []
    end.
Proof.
  destruct schemas as [files|]; [|reflexivity].
  unfold main.
  do 2 (erewrite trace_bind by reflexivity). rewrite !opened_app.
  cbn [emit trace opened omap list_omap app].
  destruct (glob files "*_schema.json") as [|name rest] eqn:Hglob.
  - reflexivity.
  - erewrite trace_bind by reflexivity.
    rewrite opened_app, opened_examine_all. reflexivity.
Qed.

(** X11: Whatever the directory holds, unreadable or malformed files included,
    [main] returns and the script exits with status 0. *)
Theorem reporter_always_exits_zero schemas :
  result (main schemas) = Return tt /\ (script schemas).2 = 0.
Proof.
  assert (result (main schemas) = Return tt) as Hmain.
  { destruct schemas as [files|]; [|reflexivity].
    unfold main. do 2 (erewrite result_bind by reflexivity).
    destruct (glob files "*_schema.json"); [reflexivity|].
    erewrite result_bind by reflexivity. apply examine_all_returns. }
  split; [done|]. unfold script. cbn [snd]. by rewrite Hmain.
Qed.

(** X12: A file whose text is not a JSON document gets the three heading lines
    and one line that gives the file and the exception; a file that has
    gone gets the same with the exception of [open]. *)
Theorem unreadable_file_is_reported files name :
  (forall text e,
      files !! name = Some text -> json_loads text = Raise e ->
      examine_schema_file files name
      = IO [Print (nl +:+ rule);
            Print ("Schema File: " +:+ name);
            Print rule;
            Open (SDKToolTester.schema_path name) "r";
            Print ("Error reading " +:+ SDKToolTester.schema_path name
                   +:+ ": " +:+ exn_str e)]
           (Return tt)) /\
  (files !! name = None ->
   printed (trace (examine_schema_file files name))
   = [nl +:+ rule; "Schema File: " +:+ name; rule;
      "Error reading " +:+ SDKToolTester.schema_path name
      +:+ ": [Errno 2] No such file or directory: "
      +:+ Py.repr_str (SDKToolTester.schema_path name)]).
Proof.
  split.
  - intros text e Hfile Htext. unfold examine_schema_file, load.
    rewrite Hfile, Htext. reflexivity.
  - intros Hfile. unfold examine_schema_file, load. rewrite Hfile. reflexivity.
Qed.

(** X13: When the directory exists and no name in it matches the pattern, the
    reporter says so and opens nothing. *)
Theorem no_schema_file_is_reported (files : gmap string string) :
  (forall name, is_Some (files !! name) ->
                fnmatch "*_schema.json" name = false) ->
  main (Some files)
  = IO [Exists "schemas"; Glob "schemas" "*_schema.json";
        Print "No schema files found!"] (Return tt).
Proof.
  intros Hnone.
  assert (glob files "*_schema.json" = []) as Hglob.
  { destruct (glob files "*_schema.json") as [|name rest] eqn:Hglob; [done|].
    assert (name ∈ glob files "*_schema.json") as Hname
      by (rewrite Hglob; by left).
    apply elem_of_glob in Hname as [Hmatch Hfile].
    by rewrite (Hnone name Hfile) in Hmatch. }
  unfold main. by rewrite Hglob.
Qed.

End ReporterMore.

Section PatternFacts.
Import ExamineSchemas.

(** A pattern without wildcard matches itself and nothing else. *)
Lemma fnmatch_literal pattern name :
  literal pattern = true -> (fnmatch pattern name = true <-> name = pattern).
Proof.
  revert name. induction pattern as [|p pattern IH]; intros name Hliteral.
  - destruct name; split; (done || discriminate).
  - cbn [literal] in Hliteral.
    apply andb_true_iff in Hliteral as [[Hstar Hany]%andb_true_iff Hrest].
    apply negb_true_iff in Hstar, Hany.
    cbn [fnmatch]. rewrite Hstar.
    destruct name as [|c name]; [split; discriminate|].
    rewrite Hany. cbn [orb]. rewrite andb_true_iff, (IH name Hrest).
    split.
    + intros [->%Ascii.eqb_eq ->]. reflexivity.
    + intros [= -> ->]. split; [apply Ascii.eqb_refl|done].
Qed.

(** A star before a pattern without wildcard matches the names that end
    with the pattern. *)
Lemma fnmatch_star_literal suffix name :
  literal suffix = true ->
  (fnmatch (String "*"%char suffix) name = true
   <-> exists stem, name = stem +:+ suffix).
Proof.
  intros Hliteral. induction name as [|c name IH]; rewrite fnmatch_star.
  - rewrite orb_false_r, (fnmatch_literal suffix _ Hliteral). split.
    + intros ->. by exists EmptyString.
    + intros [[|c stem] Hstem]; [done|discriminate].
  - rewrite orb_true_iff, (fnmatch_literal suffix _ Hliteral), IH. split.
    + intros [->|[stem ->]]; [by exists EmptyString|by exists (String c stem)].
    + intros [[|c' stem] Hstem]; [by left|].
      right. exists stem. by injection Hstem.
Qed.

(** X14: The reporter examines a file exactly when the file is in the directory
    and its name ends in [_schema.json]: a file under any other name is
    never read. *)
Theorem only_schema_files_are_examined (files : gmap string string) name :
  name ∈ sorted (glob files "*_schema.json")
  <-> is_Some (files !! name) /\ exists stem, name = stem +:+ "_schema.json".
Proof.
  rewrite (proj2 (sorted_is_sorted _)), elem_of_glob.
  rewrite (fnmatch_star_literal "_schema.json" name eq_refl). tauto.
Qed.

(** X15: The order of the report is the order of the names alone: however the
    directory lists its files, [sorted] puts them in the same order. *)
Theorem report_order_ignores_listing_order (listing names : list string) :
  listing ≡ₚ names -> sorted listing = sorted names.
Proof.
  intros Hperm.
  apply (Sorted_unique String.le).
  - apply (proj1 (sorted_is_sorted listing)).
  - apply (proj1 (sorted_is_sorted names)).
  - by rewrite !(proj2 (sorted_is_sorted _)).
Qed.

End PatternFacts.

Section MessageFacts.
Import ExamineSchemas.

(** What the reporter does with a message of type [assistant]. *)
Lemma examine_assistant_message (i : nat) (entries : list (string * pyobj)) :
  Py.lookup "type" entries = Some (PyStr "assistant") ->
  examine_message i (PyDict entries)
  = (IO (map Print (header_lines i entries)) (Return tt);;
     match Py.lookup "message" entries with
     | Some inner =>
         content ← lift (Py.get inner "content" (PyList []));
         if Py.truthy content
         then print ("  Content preview: "
                     +:+ Text.take 200 (Py.str content) +:+ "...")
         else io_ret tt
     | None => io_ret tt
     end).
Proof.
  intros Hty. unfold examine_message, header_lines.
  rewrite !get_dict. unfold Py.contains, Py.getitem. rewrite Hty.
  destruct (Py.lookup "subtype" entries) as [subtype|];
    destruct (Py.lookup "message" entries) as [inner|]; reflexivity.
Qed.

Lemma printed_map_Print lines : printed (map Print lines) = lines.
Proof.
  rewrite <- (app_nil_r (map Print lines)), printed_prints. apply app_nil_r.
Qed.

Lemma length_take n s : (String.length (Text.take n s) <= n)%nat.
Proof.
  revert s. induction n as [|n IH]; intros [|c s]; simpl; try lia.
  specialize (IH s). lia.
Qed.

(** X16: For a message of type [assistant] the reporter prints a preview only
    when the message has a [message] field with a non-empty [content]: the
    first 200 characters of the content written as text, followed by three
    dots.  Without a [message] field, or with an empty or absent content,
    it prints the heading lines alone. *)
Theorem assistant_message_summary (i : nat) (entries : list (string * pyobj)) :
  Py.lookup "type" entries = Some (PyStr "assistant") ->
  let run := examine_message i (PyDict entries) in
  (Py.lookup "message" entries = None ->
   result run = Return tt /\ printed (trace run) = header_lines i entries) /\
  (forall inner,
      Py.lookup "message" entries = Some (PyDict inner) ->
      let content := default (PyList []) (Py.lookup "content" inner) in
      result run = Return tt /\
      printed (trace run)
      = header_lines i entries
        ++ (if Py.truthy content
            then ["  Content preview: "
                    +:+ Text.take 200 (Py.str content) +:+ "..."]
            else []) /\
      (String.length (Text.take 200 (Py.str content)) <= 200)%nat).
Proof.
  intros Hty run. subst run. rewrite (examine_assistant_message i entries Hty).
  split.
  - intros ->. erewrite result_bind, trace_bind by reflexivity.
    cbn [io_ret trace result]. rewrite app_nil_r.
    split; [done|apply printed_map_Print].
  - intros inner -> content. rewrite get_dict. fold content.
    erewrite result_bind, trace_bind by reflexivity.
    cbn [trace result lift mbind io_mbind io_bind app].
    split; [by destruct (Py.truthy content)|].
    split; [|apply length_take].
    rewrite printed_prints. by destruct (Py.truthy content).
Qed.

(** X17: A message of any other type, or without a type, gets the heading lines
    and nothing more: its number, its type, "unknown" when it has none,
    and its subtype when it has one. *)
Theorem other_message_summary (i : nat) (entries : list (string * pyobj)) :
  let type := default PyNone (Py.lookup "type" entries) in
  let subtype := default PyNone (Py.lookup "subtype" entries) in
  Py.eq_str type "system" && Py.eq_str subtype "init" = false ->
  Py.eq_str type "assistant" = false ->
  Py.eq_str type "result" = false ->
  examine_message i (PyDict entries)
  = IO (map Print (header_lines i entries)) (Return tt).
Proof.
  intros type subtype Hinit Hassistant Hresult. subst type subtype.
  unfold examine_message, header_lines.
  rewrite !get_dict. unfold Py.contains, Py.getitem.
  destruct (Py.lookup "subtype" entries) as [subtype|];
    cbn [default] in *; cbn.
  - destruct (Py.eq_str (default PyNone (Py.lookup "type" entries)) "system");
      cbn in *; rewrite ?Hinit, Hassistant, Hresult; reflexivity.
  - destruct (Py.eq_str (default PyNone (Py.lookup "type" entries)) "system");
      cbn in *; rewrite Hassistant, Hresult; reflexivity.
Qed.

(** X18: A message that is not a JSON object stops the summary of its record:
    after the line with its number, [message.get] raises, and the messages
    that follow it are not examined. *)
Theorem non_object_message_stops_the_summary (i : nat) message rest :
  (forall entries, message <> PyDict entries) ->
  examine_messages i (message :: rest)
  = IO [Print (nl +:+ "Message " +:+ pretty (i + 1)%nat +:+ ":")]
       (Raise (Exn AttributeError
                 ("'" +:+ Py.type_name message
                  +:+ "' object has no attribute 'get'"))).
Proof.
  intros Hmessage. cbn [examine_messages]. unfold examine_message.
  destruct message; try reflexivity. by destruct (Hmessage entries).
Qed.

Lemma summarize_dict (entries : list (string * pyobj)) messages :
  default (PyList []) (Py.lookup "messages" entries) = PyList messages ->
  summarize (PyDict entries)
  = (IO (map Print (record_lines entries (length messages))) (Return tt);;
     examine_messages 0 messages).
Proof.
  intros Hmessages. unfold summarize, record_lines.
  rewrite !get_dict, Hmessages. unfold Py.getitem.
  destruct (Py.lookup "stderr" entries) as [err|];
    cbn [default from_option id].
  - destruct (Py.truthy err) eqn:Herr; cbn; rewrite Herr; reflexivity.
  - reflexivity.
Qed.

Lemma printed_app t1 t2 : printed (t1 ++ t2) = printed t1 ++ printed t2.
Proof. unfold printed. apply omap_app. Qed.

(** X19: The summary of a record: the tool name, the scenario and the success
    flag, "Unknown", "Unknown" and [False] when absent, the error stream
    when it is not empty, the number of messages, and then the messages,
    numbered from 1; the summary ends as the last message examined ends. *)
Theorem record_summary (entries : list (string * pyobj)) messages :
  default (PyList []) (Py.lookup "messages" entries) = PyList messages ->
  printed (trace (summarize (PyDict entries)))
  = record_lines entries (length messages)
    ++ printed (trace (examine_messages 0 messages)) /\
  result (summarize (PyDict entries)) = result (examine_messages 0 messages).
Proof.
  intros Hmessages. rewrite (summarize_dict entries messages Hmessages).
  erewrite trace_bind, result_bind by reflexivity.
  cbn [trace]. by rewrite printed_prints.
Qed.

End MessageFacts.


(* ===================================================================== *)
(** * The runner and the reporter, one after the other *)
(* ===================================================================== *)

Section EndToEnd.
Context {platform : Platform} {environment : TestSDKTools.Environment}.
Import TestSDKTools.

Lemma trace_try_except_prefix {A} (body : io A) (handler : exn -> io A) :
  exists extra, trace (io_try_except body handler) = trace body ++ extra.
Proof.
  unfold io_try_except. destruct (result body).
  - exists []. by rewrite app_nil_r.
  - by eexists.
Qed.

(** The report of a file that holds a record starts with the heading and
    the lines of the record. *)
Lemma report_of_a_record (files : gmap string string) name text entries messages :
  files !! name = Some text ->
  json_loads text = Return (PyDict entries) ->
  default (PyList []) (Py.lookup "messages" entries) = PyList messages ->
  exists rest,
    printed (trace (ExamineSchemas.examine_schema_file files name))
    = [nl +:+ ExamineSchemas.rule; "Schema File: " +:+ name;
       ExamineSchemas.rule]
      ++ record_lines entries (length messages) ++ rest.
Proof.
  intros Hfile Htext Hmessages. unfold ExamineSchemas.examine_schema_file.
  do 3 (erewrite trace_bind by reflexivity).
  match goal with
  | |- context [trace (io_try_except ?body ?handler)] =>
      destruct (trace_try_except_prefix body handler) as [extra ->]
  end.
  unfold ExamineSchemas.load. rewrite Hfile, Htext.
  erewrite !trace_bind by reflexivity.
  rewrite (summarize_dict entries messages Hmessages).
  erewrite trace_bind by reflexivity.
  rewrite !printed_app. cbn [print emit lift trace printed omap list_omap app].
  rewrite printed_map_Print. rewrite <- app_assoc. eauto.
Qed.

Lemma report_row (files : gmap string string) name
  tool_name test_scenario success messages err :
  let record := PyDict [("tool_name", PyStr tool_name);
                        ("test_scenario", PyStr test_scenario);
                        ("success", PyBool success);
                        ("messages", PyList messages);
                        ("stderr", PyStr err)] in
  files !! name = Some (json_dumps record) ->
  Spec.round_trips record ->
  let lines :=
    printed (trace (ExamineSchemas.examine_schema_file files name)) in
  lines !! 3%nat = Some ("Tool Name: " +:+ tool_name) /\
  lines !! 5%nat = Some ("Success: " +:+ if success then "True" else "False").
Proof.
  intros record Hfile Hround lines. subst lines.
  destruct (report_of_a_record files name (json_dumps record)
              [("tool_name", PyStr tool_name);
               ("test_scenario", PyStr test_scenario);
               ("success", PyBool success);
               ("messages", PyList messages);
               ("stderr", PyStr err)] messages Hfile Hround eq_refl)
    as [rest ->].
  split; [reflexivity|]. by destruct success.
Qed.

Lemma sorted_schema_names :
  ExamineSchemas.sorted (ExamineSchemas.glob (schemas_after ∅) "*_schema.json")
  = ["edit_tool_schema.json"; "multiedit_tool_schema.json";
     "notebook_edit_tool_schema.json"; "write_tool_schema.json"] /\
  length (ExamineSchemas.glob (schemas_after ∅) "*_schema.json") = 4%nat.
Proof. split; vm_compute; reflexivity. Qed.

(** X20: After a first run of the tests, with no schema file before it, the
    reporter finds four schema files and reads them in the order of their
    names, edit, multiedit, notebook_edit, write, which is not the order
    the tests ran in. *)
Theorem first_run_is_reported_in_name_order argv fs :
  argv !! 1%nat <> Some "--help" ->
  SDKToolTester.init (schemas_dir fs) = ∅ ->
  let report := ExamineSchemas.main (schemas_dir (main argv fs).1) in
  opened (trace report)
  = [("schemas/edit_tool_schema.json", "r");
     ("schemas/multiedit_tool_schema.json", "r");
     ("schemas/notebook_edit_tool_schema.json", "r");
     ("schemas/write_tool_schema.json", "r")] /\
  printed (trace report) !! 0%nat = Some "Found 4 schema files:".
Proof.
  intros Hhelp Hempty report. subst report.
  rewrite main_without_help by done. rewrite run_all_tests_closed_form.
  cbn [fst disk schemas_dir schemas_files new_tester]. rewrite Hempty.
  destruct sorted_schema_names as [Hsorted Hlength].
  unfold ExamineSchemas.main.
  do 2 (erewrite trace_bind by reflexivity).
  destruct (ExamineSchemas.glob (schemas_after ∅) "*_schema.json")
    as [|name rest] eqn:Hglob; [discriminate|].
  erewrite trace_bind by reflexivity.
  rewrite !opened_app, !printed_app, opened_examine_all, Hsorted, Hlength.
  split; reflexivity.
Qed.

(** X21: What the reporter prints for each of the four schema files agrees
    with the run that wrote them: the tool name is the one of the test
    method, and the success flag is the Boolean that [run_all_tests]
    returned for it.  This holds when the four archived records are read
    back as they were written. *)
Theorem report_shows_what_the_tests_returned argv fs :
  argv !! 1%nat <> Some "--help" ->
  (forall tool_name test_scenario prompt,
      Spec.round_trips (archived_record tool_name test_scenario prompt)) ->
  exists files edit write multiedit notebook_edit,
    schemas_dir (main argv fs).1 = Some files /\
    result (run_all_tests (new_tester fs)).2
    = Return (PyDict [("edit", PyBool edit); ("write", PyBool write);
                      ("multiedit", PyBool multiedit);
                      ("notebook_edit", PyBool notebook_edit)]) /\
    Forall (fun row : string * string * bool =>
              let lines :=
                printed (trace (ExamineSchemas.examine_schema_file
                                  files row.1.1)) in
              lines !! 3%nat = Some ("Tool Name: " +:+ row.1.2) /\
              lines !! 5%nat
              = Some ("Success: " +:+ if row.2 then "True" else "False"))
      (report_rows edit write multiedit notebook_edit).
Proof.
  intros Hhelp Hround. rewrite main_without_help by done.
  rewrite run_all_tests_closed_form.
  cbn [fst snd result disk schemas_dir schemas_files new_tester].
  unfold outcomes.
  destruct (archived_and_passed "Edit" "Add docstring to function"
              edit_prompt) as (b1 & m1 & e1 & _ & Hr1 & -> & _).
  destruct (archived_and_passed "Write"
              "Create new JavaScript React component file"
              (write_prompt new_file)) as (b2 & m2 & e2 & _ & Hr2 & -> & _).
  destruct (archived_and_passed "MultiEdit"
              "Add docstrings to multiple functions"
              multiedit_prompt) as (b3 & m3 & e3 & _ & Hr3 & -> & _).
  destruct (archived_and_passed "NotebookEdit" "Add markdown cell to notebook"
              notebook_prompt) as (b4 & m4 & e4 & _ & Hr4 & -> & _).
  eexists _, b1, b2, b3, b4. split; [reflexivity|]. split; [reflexivity|].
  unfold report_rows, schemas_after. rewrite Hr1, Hr2, Hr3, Hr4.
  constructor.
  { apply (report_row _ _ "Edit" "Add docstring to function" b1 m1 e1);
      [repeat (rewrite lookup_insert_ne by done); apply lookup_insert_eq
      |rewrite <- Hr1; apply Hround]. }
  constructor.
  { apply (report_row _ _ "Write" "Create new JavaScript React component file"
             b2 m2 e2);
      [repeat (rewrite lookup_insert_ne by done); apply lookup_insert_eq
      |rewrite <- Hr2; apply Hround]. }
  constructor.
  { apply (report_row _ _ "MultiEdit" "Add docstrings to multiple functions"
             b3 m3 e3);
      [repeat (rewrite lookup_insert_ne by done); apply lookup_insert_eq
      |rewrite <- Hr3; apply Hround]. }
  constructor; [|constructor].
  apply (report_row _ _ "NotebookEdit" "Add markdown cell to notebook"
           b4 m4 e4);
    [apply lookup_insert_eq|rewrite <- Hr4; apply Hround].
Qed.

End EndToEnd.

Section ArchiveReport.
Context {platform : Platform}.
Import SDKToolTester ExamineSchemas.


End ArchiveReport.


(* ===================================================================== *)
(** * The further properties on sample runs *)
(* ===================================================================== *)

Section MoreSamples.
Import TestSDKTools.



Lemma help_is_the_first_argument_or_nothing_witness :
  let platform := sample_platform in
  let environment := sample_environment in
  main ["test_sdk_tools.py"; "--help"] empty_disk
  = (empty_disk, IO [Print doc] (Return 0)) /\
  is_Some (schemas_dir (main ["test_sdk_tools.py"; "-v"; "--help"] empty_disk).1).
Proof.
  intros platform environment. split.
  - apply (proj1 (help_is_the_first_argument_or_nothing
                    (platform := platform) (environment := environment)
                    ["test_sdk_tools.py"; "--help"] empty_disk)).
    reflexivity.
  - apply (proj2 (help_is_the_first_argument_or_nothing
                    (platform := platform) (environment := environment)
                    ["test_sdk_tools.py"; "-v"; "--help"] empty_disk)).
    discriminate.
Defined.

Lemma main_exit_status_witness :
  let platform := sample_platform in
  let environment := sample_environment in
  exists edit write multiedit notebook_edit files,
    result (run_all_tests (new_tester empty_disk)).2
    = Return (PyDict [("edit", PyBool edit); ("write", PyBool write);
                      ("multiedit", PyBool multiedit);
                      ("notebook_edit", PyBool notebook_edit)]) /\
    result (main plain_argv empty_disk).2
    = Return (if edit && write && multiedit && notebook_edit then 0 else 1) /\
    schemas_dir (main plain_argv empty_disk).1 = Some files /\
    Forall (fun name => is_Some (files !! name)) schema_names.
Proof.
  intros platform environment.
  apply (main_exit_status (platform := platform) (environment := environment)
           plain_argv empty_disk).
  discriminate.
Defined.

Lemma main_exits_zero_iff_every_run_does_witness :
  let platform := sample_platform in
  let environment := sample_environment in
  result (main plain_argv empty_disk).2 = Return 0.
Proof.
  intros platform environment.
  apply (main_exits_zero_iff_every_run_does
           (platform := platform) (environment := environment)
           plain_argv empty_disk sample_program).
  - discriminate.
  - reflexivity.
  - intros cmd. apply cpython_raises_only_JSONDecodeError.
Defined.

Lemma missing_program_fails_every_scenario_witness :
  let platform := cpython missing_binary in
  let environment := sample_environment in
  result (main plain_argv empty_disk).2 = Return 1.
Proof.
  intros platform environment.
  apply (missing_program_fails_every_scenario
           (platform := platform) (environment := environment)
           plain_argv empty_disk
           (fun _ => Exn FileNotFoundError
                       "[Errno 2] No such file or directory: 'claude'")).
  - discriminate.
  - reflexivity.
Defined.

Lemma other_files_are_kept_witness :
  let platform := sample_platform in
  let environment := sample_environment in
  schemas_dir (main plain_argv notes_disk).1
    ≫= (fun files => files !! "notes.txt")
  = Some "keep".
Proof.
  intros platform environment.
  etrans.
  - apply (other_files_are_kept
             (platform := platform) (environment := environment)
             plain_argv notes_disk "notes.txt").
    + discriminate.
    + unfold schema_names. rewrite !not_elem_of_cons.
      repeat split; try discriminate. apply not_elem_of_nil.
  - vm_compute. reflexivity.
Defined.

Lemma unreadable_file_is_reported_witness :
  let platform := cpython missing_binary in
  printed (trace (ExamineSchemas.examine_schema_file
                    malformed_schemas "bad_schema.json")) !! 3%nat
  = Some "Error reading schemas/bad_schema.json: Expecting value" /\
  printed (trace (ExamineSchemas.examine_schema_file
                    malformed_schemas "gone_schema.json")) !! 3%nat
  = Some ("Error reading schemas/gone_schema.json: "
          +:+ "[Errno 2] No such file or directory: "
          +:+ "'schemas/gone_schema.json'").
Proof.
  intros platform. split.
  - rewrite (proj1 (unreadable_file_is_reported (platform := platform)
                      malformed_schemas "bad_schema.json")
               "not json" (Exn JSONDecodeError "Expecting value")
               eq_refl eq_refl).
    reflexivity.
  - rewrite (proj2 (unreadable_file_is_reported (platform := platform)
                      malformed_schemas "gone_schema.json") eq_refl).
    reflexivity.
Defined.

Lemma no_schema_file_is_reported_witness :
  let platform := cpython missing_binary in
  ExamineSchemas.main (schemas_dir notes_disk)
  = IO [Exists "schemas"; Glob "schemas" "*_schema.json";
        Print "No schema files found!"] (Return tt).
Proof.
  intros platform.
  apply (no_schema_file_is_reported (platform := platform)
           {["notes.txt" := "keep"]}).
  intros name [text Hname].
  apply lookup_singleton_Some in Hname as [<- _]. reflexivity.
Defined.

Lemma report_order_ignores_listing_order_witness :
  ExamineSchemas.sorted ["write_tool_schema.json"; "edit_tool_schema.json"]
  = ExamineSchemas.sorted ["edit_tool_schema.json"; "write_tool_schema.json"].
Proof.
  apply (report_order_ignores_listing_order
           ["write_tool_schema.json"; "edit_tool_schema.json"]
           ["edit_tool_schema.json"; "write_tool_schema.json"]).
  apply perm_swap.
Defined.

Lemma assistant_message_summary_witness :
  printed (trace (ExamineSchemas.examine_message 0 assistant_message))
  !! 2%nat
  = Some "  Content preview: ['Done.']...".
Proof.
  unfold assistant_message.
  rewrite (proj1 (proj2 (proj2 (assistant_message_summary 0
                                  [("type", PyStr "assistant");
                                   ("message",
                                    PyDict [("content",
                                             PyList [PyStr "Done."])])]
                                  eq_refl)
                           [("content", PyList [PyStr "Done."])] eq_refl))).
  reflexivity.
Defined.

Lemma other_message_summary_witness :
  ExamineSchemas.examine_message 0 user_message
  = IO [Print (nl +:+ "Message 1:"); Print "  Type: user"] (Return tt).
Proof.
  apply (other_message_summary 0 [("type", PyStr "user")]); reflexivity.
Defined.

Lemma non_object_message_stops_the_summary_witness :
  ExamineSchemas.examine_messages 0 [PyInt 1; init_message]
  = IO [Print (nl +:+ "Message 1:")]
       (Raise (Exn AttributeError "'int' object has no attribute 'get'")).
Proof.
  apply (non_object_message_stops_the_summary 0 (PyInt 1) [init_message]).
  discriminate.
Defined.

Lemma record_summary_witness :
  printed (trace (ExamineSchemas.summarize other_record))
  = ["Tool Name: Edit"; "Test Scenario: Add docstring to function";
     "Success: False"; "Stderr: boom"; nl +:+ "Number of messages: 0"].
Proof.
  apply (record_summary
           [("tool_name", PyStr "Edit");
            ("test_scenario", PyStr "Add docstring to function");
            ("success", PyBool false);
            ("messages", PyList []);
            ("stderr", PyStr "boom")] [] eq_refl).
Defined.

Lemma first_run_is_reported_in_name_order_witness :
  let platform := sample_platform in
  let environment := sample_environment in
  opened (trace (ExamineSchemas.main
                   (schemas_dir (main plain_argv empty_disk).1)))
  = [("schemas/edit_tool_schema.json", "r");
     ("schemas/multiedit_tool_schema.json", "r");
     ("schemas/notebook_edit_tool_schema.json", "r");
     ("schemas/write_tool_schema.json", "r")].
Proof.
  intros platform environment.
  apply (first_run_is_reported_in_name_order
           (platform := platform) (environment := environment)
           plain_argv empty_disk).
  - discriminate.
  - reflexivity.
Defined.

Lemma sample_platform_round_trips tool_name test_scenario prompt :
  Spec.round_trips (platform := sample_platform)
    (archived_record (H := sample_platform) tool_name test_scenario prompt).
Proof. by apply cpython_round_trips. Qed.

Lemma report_shows_what_the_tests_returned_witness :
  let platform := sample_platform in
  let environment := sample_environment in
  exists files edit write multiedit notebook_edit,
    schemas_dir (main plain_argv empty_disk).1 = Some files /\
    result (run_all_tests (new_tester empty_disk)).2
    = Return (PyDict [("edit", PyBool edit); ("write", PyBool write);
                      ("multiedit", PyBool multiedit);
                      ("notebook_edit", PyBool notebook_edit)]) /\
    Forall (fun row : string * string * bool =>
              let lines :=
                printed (trace (ExamineSchemas.examine_schema_file
                                  files row.1.1)) in
              lines !! 3%nat = Some ("Tool Name: " +:+ row.1.2) /\
              lines !! 5%nat
              = Some ("Success: " +:+ (if row.2 then "True" else "False")))
      (report_rows edit write multiedit notebook_edit).
Proof.
  intros platform environment.
  apply (report_shows_what_the_tests_returned
           (platform := platform) (environment := environment)
           plain_argv empty_disk).
  - discriminate.
  - apply sample_platform_round_trips.
Defined.

End MoreSamples.
